(** * SFParkingApp: citation / sweeping-schedule matching

    A shallow embedding of the data-processing core of the repository:

    - the street-token extraction and normalisation of
      [production_hybrid_matcher_day_specific.py] (and of the archived
      [citation_schedule_matcher.py]),
    - the spatial grid index and the four filtering stages of
      [DaySpecificHybridMatcher.hybrid_match_citation],
    - the schedule cleaners [clean_schedule_data_simple.py] and
      [clean_schedule_data_day_specific.py], and the week-pattern step of
      the exploratory [clean_schedule_data.py],
    - the geocoding confidence score of [production_citation_processor.py],
    - the aggregations of [aggregate_schedules_from_matches.py] and of the
      archived [calculate_estimated_citation_times].

    Conventions of the embedding.  Python [str] values are lists of
    characters restricted to ASCII text (case mapping and white space are
    those of the ASCII range).  A finite Python float is the rational it
    denotes ([Q]); where the code computes with floats before it truncates
    to a grid cell, every operation rounds to binary64 ([Float.round]);
    comparisons of floats are exact.  [geopy.distance.geodesic] and the
    mean of a column of floats ([Series.mean]) are external functions and
    are parameters of the definitions that call them.  Data frames are
    lists of records, in which a null cell is [None]; [groupby] leaves out
    the rows with a null cell in the key and returns the groups in the
    order of their keys.  Dictionaries are finite maps. *)

From Stdlib Require Import ZArith QArith Qabs Qround Qpower Lia Lqa List Ascii String Bool.
From Stdlib Require Import DecimalString Decimal DecimalFacts DecimalN DecimalZ DecimalPos.
From stdpp Require Import base option list gmap strings sorting.

#[local] Open Scope Z_scope.

(** ** Python string primitives *)

Module PyStr.

(** A Python string, character by character. *)
Definition t := list ascii.

(** A literal. *)
Definition lit (s : string) : t := list_ascii_of_string s.

Definition code (c : ascii) : nat := nat_of_ascii c.

(** [str.isspace] on the ASCII range: TAB, LF, VT, FF, CR, the four
    separators FS GS RS US, and the blank. *)
Definition is_space (c : ascii) : bool :=
  let n := code c in
  ((9 <=? n) && (n <=? 13) || (28 <=? n) && (n <=? 32))%nat.

Definition is_digit (c : ascii) : bool :=
  let n := code c in ((48 <=? n) && (n <=? 57))%nat.

Definition is_lower (c : ascii) : bool :=
  let n := code c in ((97 <=? n) && (n <=? 122))%nat.

Definition ascii_eqb (a b : ascii) : bool := Ascii.eqb a b.

Definition upper_char (c : ascii) : ascii :=
  if is_lower c then ascii_of_nat (code c - 32) else c.

(** [s.upper()] *)
Definition upper (s : t) : t := map upper_char s.

Fixpoint lstrip (s : t) : t :=
  match s with
  | c :: s' => if is_space c then lstrip s' else s
  | [] => []
  end.

Definition rstrip (s : t) : t := rev (lstrip (rev s)).

(** [s.strip()] *)
Definition strip (s : t) : t := rstrip (lstrip s).

Fixpoint eqb (a b : t) : bool :=
  match a, b with
  | [], [] => true
  | x :: a', y :: b' => ascii_eqb x y && eqb a' b'
  | _, _ => false
  end.

(** [s.startswith(p)] *)
Fixpoint startswith (s p : t) : bool :=
  match p, s with
  | [], _ => true
  | x :: p', y :: s' => ascii_eqb x y && startswith s' p'
  | _ :: _, [] => false
  end.

(** [s.endswith(p)] *)
Definition endswith (s p : t) : bool := startswith (rev s) (rev p).

(** [s[n:]] and [s[:-n]] for [0 < n]. *)
Definition drop_front (n : nat) (s : t) : t := skipn n s.
Definition drop_back (n : nat) (s : t) : t := firstn (length s - n) s.

(** [p in s] *)
Fixpoint contains (s p : t) : bool :=
  startswith s p ||
  match s with
  | [] => false
  | _ :: s' => contains s' p
  end.

(** [s.replace(old, new)] for a non-empty [old]: occurrences are replaced
    left to right and do not overlap.  [skip] counts the characters of an
    occurrence that remain to be dropped. *)
Fixpoint replace_from (old new : t) (skip : nat) (s : t) : t :=
  match s with
  | [] => []
  | c :: s' =>
      match skip with
      | S k => replace_from old new k s'
      | O =>
          if startswith s old
          then new ++ replace_from old new (length old - 1) s'
          else c :: replace_from old new 0 s'
      end
  end.

Definition replace (old new s : t) : t := replace_from old new 0 s.

(** [s.replace(' ', '')] *)
Definition remove_blanks (s : t) : t :=
  List.filter (fun c => negb (ascii_eqb c " ")) s.

(** ** The regular expressions of the sources

    [re.match] tries the alternatives of a greedy [+] longest first and
    gives back one repetition at a time. *)

Fixpoint run_length (cls : ascii -> bool) (s : t) : nat :=
  match s with
  | c :: s' => if cls c then S (run_length cls s') else O
  | [] => O
  end.

(** [cls+] followed by the continuation [k]: [j] repetitions are tried
    for [j = n, n-1, ..., 1]. *)
Fixpoint plus_then {A} (k : t -> option A) (s : t) (n : nat) : option A :=
  match n with
  | O => None
  | S n' =>
      match k (skipn n s) with
      | Some r => Some r
      | None => plus_then k s n'
      end
  end.

Definition re_plus {A} (cls : ascii -> bool) (k : t -> option A) (s : t)
  : option A :=
  plus_then k s (run_length cls s).

(** A literal character followed by [k]. *)
Definition re_char {A} (c : ascii) (k : t -> option A) (s : t) : option A :=
  match s with
  | x :: s' => if ascii_eqb x c then k s' else None
  | [] => None
  end.

Definition newline : ascii := ascii_of_nat 10.

Fixpoint take_line (s : t) : t :=
  match s with
  | c :: s' => if ascii_eqb c newline then [] else c :: take_line s'
  | [] => []
  end.

(** The final group [(.+)]: every character up to the end of the line,
    at least one. *)
Definition re_rest_of_line (s : t) : option t :=
  match take_line s with
  | [] => None
  | g => Some g
  end.

End PyStr.

Abbreviation py := PyStr.lit (only parsing).

(** ** Street-token extraction and normalisation
    ([production_hybrid_matcher_day_specific.py]) *)

Module Matcher.

Import PyStr.

(** [re.match(r'^\\d+\\s+(.+)', s)]: in a raw string the doubled
    backslashes are the two-character escapes of a literal backslash, so
    the pattern reads: a backslash, one or more letters [d], a backslash,
    one or more letters [s], then the rest of the line. *)
Definition match_street_number (s : t) : option t :=
  re_char "\"
    (re_plus (ascii_eqb "d")
       (re_char "\"
          (re_plus (ascii_eqb "s") re_rest_of_line))) s.

Definition prefixes : list t := [py "THE "; py "OLD "; py "NEW "].

Definition directional_suffixes : list t :=
  [py "NORTH"; py "SOUTH"; py "EAST"; py "WEST";
   py "NE"; py "NW"; py "SE"; py "SW";
   py "NORTHEAST"; py "NORTHWEST"; py "SOUTHEAST"; py "SOUTHWEST"].

Definition street_types : list t :=
  [py "STREET"; py "ST"; py "AVENUE"; py "AVE"; py "BOULEVARD"; py "BLVD";
   py "DRIVE"; py "DR"; py "COURT"; py "CT"; py "PLACE"; py "PL";
   py "LANE"; py "LN"; py "ROAD"; py "RD"; py "PARKWAY"; py "PKWY";
   py "CIRCLE"; py "CIR"; py "TERRACE"; py "TER";
   py "WAY"; py "PLAZA"; py "PLZ"; py "SQUARE"; py "SQ"].

Definition blank : t := py " ".

(** The loop over [prefixes]: the first prefix that matches is removed. *)
Fixpoint strip_prefix (ps : list t) (s : t) : t :=
  match ps with
  | [] => s
  | p :: ps' =>
      if startswith s p then strip (drop_front (length p) s)
      else strip_prefix ps' s
  end.

(** The loop over [directional_suffixes]: for each direction the trailing
    form is tried before the leading one; the first hit ends the loop. *)
Fixpoint strip_direction (ds : list t) (s : t) : t :=
  match ds with
  | [] => s
  | d :: ds' =>
      if endswith s (blank ++ d)
      then strip (drop_back (length (blank ++ d)) s)
      else if startswith s (d ++ blank)
      then strip (drop_front (length (d ++ blank)) s)
      else strip_direction ds' s
  end.

(** The loop over [street_types]; it returns from the function at the
    first hit. *)
Fixpoint strip_street_type (ts : list t) (s : t) : t :=
  match ts with
  | [] => s
  | x :: ts' =>
      if endswith s (blank ++ x)
      then strip (drop_back (length (blank ++ x)) s)
      else if endswith s x && (length x <? length s)%nat
      then strip (drop_back (length x) s)
      else strip_street_type ts' s
  end.

Definition extract_street_from_address (address : t) : t :=
  match address with
  | [] => []
  | _ =>
      let stripped := strip address in
      let street_with_type :=
        match match_street_number stripped with
        | Some g => g
        | None => stripped
        end in
      let street_upper := strip (upper street_with_type) in
      let street_upper := strip_prefix prefixes street_upper in
      let street_upper := strip_direction directional_suffixes street_upper in
      strip_street_type street_types street_upper
  end.

Definition normalize_street_name (street_name : t) : t :=
  match street_name with
  | [] => []
  | _ => remove_blanks (upper street_name)
  end.

(** The token compared by the corridor stage. *)
Definition normalize (x : t) : t :=
  normalize_street_name (extract_street_from_address x).

End Matcher.

(** ** The archived extraction ([citation_schedule_matcher.py]) *)

Module Archive.

Import PyStr.

(** [re.match(r'^\d+\s+(.+)', s)] *)
Definition match_street_number (s : t) : option t :=
  re_plus is_digit (re_plus is_space re_rest_of_line) s.

Definition extract_street_from_address (address : t) : t :=
  match address with
  | [] => []
  | _ =>
      match match_street_number (strip address) with
      | Some g => g
      | None => strip address
      end
  end.

End Archive.


(** ** Python floats

    A Python [float] is an IEEE 754 binary64 number.  A finite float is
    kept as the rational it denotes; every arithmetic operation computes
    the exact result and rounds it to the nearest binary64 value, ties to
    even.  Overflow to an infinity needs a magnitude of 2^1024 and NaN an
    invalid operation: no value of the developments below gets there. *)

Module Float.

(** [2 ^ e] *)
Definition pow2 (e : Z) : Q := Qpower 2 e.

(** The exponent of the leading bit of [x > 0]: the [e] with
    [2^e <= x < 2^(e+1)]. *)
Definition ilog2 (x : Q) : Z :=
  let e := Z.log2 (Qnum x) - Z.log2 (Zpos (Qden x)) in
  if Qle_bool (pow2 e) x then e else e - 1.

(** The nearest integer, ties to even. *)
Definition rint (x : Q) : Z :=
  let f := Qfloor x in
  match Qcompare (x - inject_Z f) (1 # 2) with
  | Lt => f
  | Gt => f + 1
  | Eq => if Z.even f then f else f + 1
  end.

(** The binary64 number nearest to [x]: 53 significant bits, and below
    [2^-1022] the fixed spacing [2^-1074] of the subnormal numbers. *)
Definition round (x : Q) : Q :=
  if Qeq_bool x 0 then 0%Q
  else
    let e := Z.max (ilog2 (Qabs x)) (-1022) in
    let ulp := pow2 (e - 52) in
    (inject_Z (rint (x / ulp)) * ulp)%Q.

(** A decimal literal, and [x * y] and [x / y] on floats. *)
Definition lit (x : Q) : Q := round x.
Definition mul (x y : Q) : Q := round (x * y).
Definition div (x y : Q) : Q := round (x / y).

(** One way to take the mean of floats: their sum from left to right over
    their number.  The libraries sum in an order of their own; this mean
    serves to run the definitions that take a mean as a parameter. *)
Definition mean_in_order (xs : list Q) : Q :=
  div (fold_left (fun a x => round (a + x)) xs 0%Q)
      (inject_Z (Z.of_nat (length xs))).

(** The unit round-off and the largest error of a subnormal result. *)
Definition u : Q := pow2 (-53).
Definition eta : Q := pow2 (-1075).

End Float.

(** ** Schedules, citations and the hybrid matcher
    ([production_hybrid_matcher_day_specific.py]) *)

Inductive day : Set :=
| Monday | Tuesday | Wednesday | Thursday | Friday | Saturday | Sunday.

#[global] Instance day_eq_dec : EqDecision day.
Proof. solve_decision. Defined.

(** A [(lat, lon)] pair in degrees. *)
Definition point : Type := Q * Q.

Definition point_eqb (p q : point) : bool :=
  Qeq_bool (fst p) (fst q) && Qeq_bool (snd p) (snd q).

(** A float that may be [float('inf')]. *)
Inductive distance : Type :=
| Meters (d : Q)
| Infinite.

Definition distance_leb (a b : distance) : bool :=
  match a, b with
  | Meters x, Meters y => Qle_bool x y
  | Meters _, Infinite => true
  | Infinite, Meters _ => false
  | Infinite, Infinite => true
  end.

Definition distance_ltb (a b : distance) : bool := negb (distance_leb b a).

(** [min(a, b)]: the first argument unless the second is smaller. *)
Definition distance_min (a b : distance) : distance :=
  if distance_ltb b a then b else a.

(** Truncation toward zero: [int(x)] of a float. *)
Definition Qtrunc (x : Q) : Z := Z.quot (Qnum x) (Zpos (Qden x)).

(** One row of the day-specific schedule table.  [line] is the geometry
    that the [line] column denotes: [None] when the cell is empty or is
    not a GeoJSON LineString. *)
Record schedule : Type := {
  schedule_id : Z;
  cnn : Z;
  corridor : PyStr.t;
  limits : PyStr.t;
  cnn_right_left : PyStr.t;
  block_side : PyStr.t;
  weekday : day;
  scheduled_from_hour : Z;
  scheduled_to_hour : Z;
  week1 : Z; week2 : Z; week3 : Z; week4 : Z; week5 : Z;
  line : option (list point)
}.

(** The [datetime] cell of a citation: absent, not an ISO timestamp, or a
    timestamp with its weekday, hour and minute. *)
Inductive citation_datetime : Type :=
| NoDatetime
| BadDatetime
| Timestamp (d : day) (hour minute : Z).

Record citation : Type := {
  citation_id : Z;
  latitude : Q;
  longitude : Q;
  address : PyStr.t;
  datetime : citation_datetime
}.

Module Pipeline.

Import PyStr.

Record config : Type := {
  max_distance_meters : Q;
  grid_size_meters : Q;
  grid_search_radius : Z
}.

(** The constructor's defaults. *)
Definition default_config : config :=
  {| max_distance_meters := 200;
     grid_size_meters := 100;
     grid_search_radius := 1 |}.

(** [parse_linestring_coordinates]: an empty coordinate list is [None]. *)
Definition parse_linestring_coordinates (l : option (list point))
  : option (list point) :=
  match l with
  | Some (c :: cs) => Some (c :: cs)
  | _ => None
  end.

(** A row of [self.schedules]: the schedule with the columns that
    [build_hybrid_index] adds. *)
Record indexed_schedule : Type := {
  row : schedule;
  parsed_coords : list point;
  normalized_corridor : PyStr.t
}.

(** The flat projection of [lat_lon_to_grid], in meters:
    [lat * 111000] and [lon * 111000 * 0.794], in floating point. *)
Definition lat_meters (lat : Q) : Q := Float.mul lat 111000.
Definition lon_meters (lon : Q) : Q :=
  Float.mul (Float.mul lon 111000) (Float.lit (794 # 1000)).

(** [int(lat_meters / self.grid_size_meters)]: the float quotient,
    truncated toward zero. *)
Definition lat_lon_to_grid (cfg : config) (lat lon : Q) : Z * Z :=
  (Qtrunc (Float.div (lat_meters lat) (grid_size_meters cfg)),
   Qtrunc (Float.div (lon_meters lon) (grid_size_meters cfg))).

(** The valid schedules, in table order ([reset_index]). *)
Fixpoint valid_schedules (schedule_df : list schedule) : list indexed_schedule :=
  match schedule_df with
  | [] => []
  | s :: rest =>
      match parse_linestring_coordinates (line s) with
      | Some coords =>
          {| row := s;
             parsed_coords := coords;
             normalized_corridor := Matcher.normalize (corridor s) |}
          :: valid_schedules rest
      | None => valid_schedules rest
      end
  end.

(** [self.spatial_grid[cell].append(idx)] *)
Definition grid_append (cell : Z * Z) (idx : nat)
    (grid : gmap (Z * Z) (list nat)) : gmap (Z * Z) (list nat) :=
  <[cell := default [] (grid !! cell) ++ [idx]]> grid.

(** The loop that fills the grid: each schedule goes to the cell of its
    first vertex. *)
Fixpoint build_grid (cfg : config) (schedules : list indexed_schedule)
    (idx : nat) (grid : gmap (Z * Z) (list nat)) : gmap (Z * Z) (list nat) :=
  match schedules with
  | [] => grid
  | s :: rest =>
      let grid' :=
        match parsed_coords s with
        | (lat, lon) :: _ => grid_append (lat_lon_to_grid cfg lat lon) idx grid
        | [] => grid
        end in
      build_grid cfg rest (S idx) grid'
  end.

(** The matcher after [build_hybrid_index]. *)
Record matcher : Type := {
  cfg : config;
  schedules : list indexed_schedule;
  spatial_grid : gmap (Z * Z) (list nat)
}.

Definition build_hybrid_index (c : config) (schedule_df : list schedule) : matcher :=
  let valid := valid_schedules schedule_df in
  {| cfg := c; schedules := valid; spatial_grid := build_grid c valid 0 ∅ |}.

(** [range(-r, r + 1)] *)
Definition offsets (r : Z) : list Z :=
  map (fun k => Z.of_nat k - r) (seq 0 (Z.to_nat (2 * r + 1))).

(** Stage 1: the union of the buckets of the block of cells around the
    citation. *)
Definition spatial_candidates (m : matcher) (lat lon : Q) : gset nat :=
  let '(grid_x, grid_y) := lat_lon_to_grid (cfg m) lat lon in
  let r := grid_search_radius (cfg m) in
  foldl (fun acc dx =>
           foldl (fun acc dy =>
                    acc ∪ list_to_set
                            (default [] (spatial_grid m !! (grid_x + dx, grid_y + dy))))
                 acc (offsets r))
        ∅ (offsets r).

(** The test of stage 2 on one schedule. *)
Definition street_matches (citation_street_norm schedule_street_norm : t) : bool :=
  contains schedule_street_norm citation_street_norm
  || contains citation_street_norm schedule_street_norm
  || eqb citation_street_norm schedule_street_norm.

(** Stage 2: street name validation.  An empty token keeps every spatial
    candidate. *)
Definition street_candidates (m : matcher) (citation_street_norm : t)
    (spatial : gset nat) : list nat :=
  match citation_street_norm with
  | _ :: _ =>
      List.filter
        (fun idx =>
           match schedules m !! idx with
           | Some s => street_matches citation_street_norm (normalized_corridor s)
           | None => false
           end)
        (elements spatial)
  | [] => elements spatial
  end.

(** The weekday and decimal hour of a citation; the fall-backs are those
    of the source (the default timestamp 2025-06-27T10:00:00 is a Friday). *)
Definition citation_time (c : citation) : day * Q :=
  match datetime c with
  | Timestamp d hour minute => (d, inject_Z hour + inject_Z minute / 60)%Q
  | NoDatetime => (Friday, 10%Q)
  | BadDatetime => (Tuesday, 10%Q)
  end.

(** The test of stage 3 on one schedule. *)
Definition day_and_time_matches (s : schedule) (citation_weekday : day)
    (citation_time_decimal : Q) : bool :=
  bool_decide (weekday s = citation_weekday)
  && Qle_bool (inject_Z (scheduled_from_hour s)) citation_time_decimal
  && Qle_bool citation_time_decimal (inject_Z (scheduled_to_hour s)).

(** Stage 3: day and time validation. *)
Definition day_and_time_candidates (m : matcher) (citation_weekday : day)
    (citation_time_decimal : Q) (street : list nat) : list nat :=
  List.filter
    (fun idx =>
       match schedules m !! idx with
       | Some s => day_and_time_matches (row s) citation_weekday citation_time_decimal
       | None => false
       end)
    street.

Section WithGeodesic.

(** [geopy.distance.geodesic(p, q).meters] *)
Variable geodesic : point -> point -> Q.

(** The loop of [calculate_distance_to_schedule]: the smallest distance
    to a vertex. *)
Definition calculate_distance_to_schedule (citation_point : point)
    (schedule_coordinates : list point) : distance :=
  match schedule_coordinates with
  | [] => Infinite
  | _ =>
      fold_left
        (fun min_distance coord =>
           distance_min min_distance (Meters (geodesic citation_point coord)))
        schedule_coordinates Infinite
  end.

(** One match of a citation. *)
Record match_result : Type := {
  m_citation_id : Z;
  m_index : nat;
  m_schedule_id : Z;
  m_cnn : Z;
  m_corridor : t;
  m_limits : t;
  m_cnn_right_left : t;
  m_block_side : t;
  m_distance_meters : distance;
  m_weekday : day;
  m_scheduled_from_hour : Z;
  m_scheduled_to_hour : Z;
  m_citation_time : Q
}.

(** Stage 4 on one candidate. *)
Definition distance_match (m : matcher) (c : citation) (idx : nat)
  : option match_result :=
  match schedules m !! idx with
  | Some s =>
      let d := calculate_distance_to_schedule
                 (latitude c, longitude c) (parsed_coords s) in
      if distance_leb d (Meters (max_distance_meters (cfg m)))
      then Some {| m_citation_id := citation_id c;
                   m_index := idx;
                   m_schedule_id := schedule_id (row s);
                   m_cnn := cnn (row s);
                   m_corridor := corridor (row s);
                   m_limits := limits (row s);
                   m_cnn_right_left := cnn_right_left (row s);
                   m_block_side := block_side (row s);
                   m_distance_meters := d;
                   m_weekday := fst (citation_time c);
                   m_scheduled_from_hour := scheduled_from_hour (row s);
                   m_scheduled_to_hour := scheduled_to_hour (row s);
                   m_citation_time := snd (citation_time c) |}
      else None
  | None => None
  end.

(** [matches.sort(key=distance_meters)]: a stable insertion sort. *)
Fixpoint insert_by_distance (x : match_result) (l : list match_result)
  : list match_result :=
  match l with
  | [] => [x]
  | y :: l' =>
      if distance_ltb (m_distance_meters y) (m_distance_meters x)
      then y :: insert_by_distance x l'
      else x :: l
  end.

Definition sort_by_distance (l : list match_result) : list match_result :=
  fold_right insert_by_distance [] l.

Definition distance_matches (m : matcher) (c : citation)
    (candidates : list nat) : list match_result :=
  omap (distance_match m c) candidates.

Definition hybrid_match_citation (m : matcher) (c : citation)
  : list match_result :=
  let citation_street := Matcher.extract_street_from_address (address c) in
  let citation_street_norm := Matcher.normalize_street_name citation_street in
  let spatial := spatial_candidates m (latitude c) (longitude c) in
  if bool_decide (spatial = ∅) then [] else
  let street := street_candidates m citation_street_norm spatial in
  match street with
  | [] => []
  | _ =>
      let '(citation_weekday, citation_time_decimal) := citation_time c in
      match day_and_time_candidates m citation_weekday citation_time_decimal street with
      | [] => []
      | day_time => sort_by_distance (distance_matches m c day_time)
      end
  end.

End WithGeodesic.

End Pipeline.

(** ** The archived distance ([citation_schedule_matcher.py]) *)

Module ArchiveDistance.

Section WithGeodesic.

Variable geodesic : point -> point -> Q.

Definition interpolate (line_start line_end : point) (t : Q) : point :=
  (fst line_start + t * (fst line_end - fst line_start),
   snd line_start + t * (snd line_end - snd line_start))%Q.

(** [min(distances)] of a non-empty list. *)
Definition min_of (d : Q) (ds : list Q) : Q :=
  fold_left (fun a b => if Qle_bool a b then a else b) ds d.

(** The end points and the points at 25%, 50% and 75% of the segment. *)
Definition _point_to_line_segment_distance (p line_start line_end : point) : Q :=
  if point_eqb line_start line_end then geodesic p line_start
  else
    min_of (geodesic p line_start)
      (geodesic p line_end
       :: map (fun t => geodesic p (interpolate line_start line_end t))
            [1 # 4; 1 # 2; 3 # 4]%Q).

(** [for i in range(len(coords) - 1)] *)
Fixpoint segments_min (p : point) (coords : list point) (acc : distance)
  : distance :=
  match coords with
  | p1 :: ((p2 :: _) as rest) =>
      segments_min p rest
        (distance_min acc (Meters (_point_to_line_segment_distance p p1 p2)))
  | _ => acc
  end.

Definition calculate_distance_to_schedule (citation_point : point)
    (schedule_coordinates : list point) : distance :=
  match schedule_coordinates with
  | [] => Infinite
  | [only] =>
      distance_min Infinite (Meters (geodesic citation_point only))
  | _ => segments_min citation_point schedule_coordinates Infinite
  end.

End WithGeodesic.

End ArchiveDistance.

(** ** What the theorems assume of the geodesic distance *)

Module Geodesic.

(** Two properties of [geodesic]: a point is at distance zero from itself,
    and points on different parallels are a positive distance apart. *)
Definition laws (geodesic : point -> point -> Q) : Prop :=
  (forall p q, (fst p == fst q)%Q -> (snd p == snd q)%Q ->
               (geodesic p q == 0)%Q) /\
  (forall p q, ~ (fst p == fst q)%Q -> (0 < geodesic p q)%Q).

(** Equality of two distances as numbers. *)
Definition distance_eq (a b : distance) : Prop :=
  match a, b with
  | Meters x, Meters y => (x == y)%Q
  | Infinite, Infinite => True
  | _, _ => False
  end.

(** A distance in degrees on the flat map, an instance of the laws used
    where a concrete function is needed. *)
Definition flat_distance (p q : point) : Q :=
  (Qabs (fst p - fst q) + Qabs (snd p - snd q))%Q.

End Geodesic.

(** ** The schedule cleaners
    ([clean_schedule_data_simple.py], [clean_schedule_data_day_specific.py]) *)

Module Cleaner.

Import PyStr.

(** A row of the raw schedule table.  A cell that the file leaves empty is
    read as a null value ([None]). *)
Record raw_row : Type := {
  raw_CNN : Z;
  raw_Corridor : option t;
  raw_Limits : option t;
  raw_CNNRightLeft : option t;
  raw_BlockSide : option t;
  raw_FromHour : option Z;
  raw_ToHour : option Z;
  raw_Line : option t;
  raw_WeekDay : t;
  raw_Week1 : Z; raw_Week2 : Z; raw_Week3 : Z; raw_Week4 : Z; raw_Week5 : Z;
  raw_Holidays : Z;
  raw_BlockSweepID : Z
}.

(** The normalised structure both cleaners group. *)
Record normalized_row : Type := {
  CNN : Z;
  Corridor : option t;
  Limits : option t;
  CNNRightLeft : option t;
  BlockSide : option t;
  FromHour : option Z;
  ToHour : option Z;
  Line : option t;
  is_Monday : Z; is_Tuesday : Z; is_Wednesday : Z; is_Thursday : Z;
  is_Friday : Z; is_Saturday : Z; is_Sunday : Z;
  Week1 : Z; Week2 : Z; Week3 : Z; Week4 : Z; Week5 : Z;
  Holidays : Z
}.

Definition flag (b : bool) : Z := if b then 1 else 0.

(** [any(day in weekday_str for day in names)] *)
Definition any_in (weekday_str : t) (names : list t) : bool :=
  existsb (contains weekday_str) names.

(** The upper-cased weekday text, with any text that mentions a holiday
    replaced by [SUN/HOLIDAY]. *)
Definition weekday_text (weekday : t) : t :=
  let weekday_str := upper weekday in
  if contains weekday_str (py "HOLIDAY") then py "SUN/HOLIDAY" else weekday_str.

(** [_normalize_row] of the simple cleaner. *)
Definition normalize_row_simple (r : raw_row) : normalized_row :=
  let weekday_str := weekday_text (raw_WeekDay r) in
  {| CNN := raw_CNN r;
     Corridor := raw_Corridor r;
     Limits := raw_Limits r;
     CNNRightLeft := raw_CNNRightLeft r;
     BlockSide := raw_BlockSide r;
     FromHour := raw_FromHour r;
     ToHour := raw_ToHour r;
     Line := raw_Line r;
     is_Monday := flag (any_in weekday_str [py "MON"]);
     is_Tuesday := flag (any_in weekday_str [py "TUES"; py "TUE"]);
     is_Wednesday := flag (any_in weekday_str [py "WED"]);
     is_Thursday := flag (any_in weekday_str [py "THU"]);
     is_Friday := flag (any_in weekday_str [py "FRI"]);
     is_Saturday := flag (any_in weekday_str [py "SAT"]);
     is_Sunday := flag (any_in weekday_str [py "SUN"; py "HOLIDAY"]);
     Week1 := raw_Week1 r; Week2 := raw_Week2 r; Week3 := raw_Week3 r;
     Week4 := raw_Week4 r; Week5 := raw_Week5 r;
     Holidays := raw_Holidays r |}.

(** [1 if bool(int(w)) else 0] *)
Definition week_flag (w : Z) : Z := flag (negb (w =? 0)).

(** [str(row.get('line', ...))]: a null cell prints as [nan]. *)
Definition line_text (l : option t) : t :=
  match l with
  | Some s => s
  | None => py "nan"
  end.

(** [_parse_hour]: a null cell is hour 0. *)
Definition _parse_hour (hour_value : option Z) : Z :=
  match hour_value with
  | Some h => h
  | None => 0
  end.

(** [_normalize_row] of the day-specific cleaner. *)
Definition normalize_row_day_specific (r : raw_row) : normalized_row :=
  let weekday_str := weekday_text (raw_WeekDay r) in
  {| CNN := raw_CNN r;
     Corridor := Some (strip (line_text (raw_Corridor r)));
     Limits := Some (strip (line_text (raw_Limits r)));
     CNNRightLeft := Some (strip (line_text (raw_CNNRightLeft r)));
     BlockSide := Some (strip (line_text (raw_BlockSide r)));
     FromHour := Some (_parse_hour (raw_FromHour r));
     ToHour := Some (_parse_hour (raw_ToHour r));
     Line := Some (line_text (raw_Line r));
     is_Monday := flag (any_in weekday_str [py "MON"]);
     is_Tuesday := flag (any_in weekday_str [py "TUES"; py "TUE"]);
     is_Wednesday := flag (any_in weekday_str [py "WED"]);
     is_Thursday := flag (any_in weekday_str [py "THU"]);
     is_Friday := flag (any_in weekday_str [py "FRI"]);
     is_Saturday := flag (any_in weekday_str [py "SAT"]);
     is_Sunday := flag (any_in weekday_str [py "SUN"; py "HOLIDAY"]);
     Week1 := week_flag (raw_Week1 r); Week2 := week_flag (raw_Week2 r);
     Week3 := week_flag (raw_Week3 r); Week4 := week_flag (raw_Week4 r);
     Week5 := week_flag (raw_Week5 r);
     Holidays := flag (contains weekday_str (py "HOLIDAY")) |}.

(** The columns of [location_columns]; a cell of the key may be null. *)
Definition location_key : Type :=
  option t * option t * option t * option t * option Z * option Z.

Definition location_of (r : normalized_row) : location_key :=
  (Corridor r, Limits r, CNNRightLeft r, BlockSide r, FromHour r, ToHour r).

(** The rows of one group, in table order. *)
Definition group_of (k : location_key) (rows : list normalized_row)
  : list normalized_row :=
  List.filter (fun r => bool_decide (location_of r = k)) rows.

(** The aggregation ['max'] of a column over a non-empty group. *)
Definition agg_max (f : normalized_row -> Z) (r : normalized_row)
    (rest : list normalized_row) : Z :=
  fold_left (fun m x => Z.max m (f x)) rest (f r).

(** The aggregation ['first']: the first value that is not null. *)
Fixpoint agg_first (l : list (option t)) : option t :=
  match l with
  | [] => None
  | Some x :: _ => Some x
  | None :: l' => agg_first l'
  end.

(** A row of [combined_df]: the aggregated columns and [RecordCount]. *)
Record combined_row : Type := {
  combined : normalized_row;
  RecordCount : nat
}.

Definition combine_group (g : list normalized_row) : option combined_row :=
  match g with
  | [] => None
  | r :: rest =>
      Some {| combined :=
                {| CNN := CNN r;
                   Corridor := Corridor r;
                   Limits := Limits r;
                   CNNRightLeft := CNNRightLeft r;
                   BlockSide := BlockSide r;
                   FromHour := FromHour r;
                   ToHour := ToHour r;
                   Line := agg_first (map Line g);
                   is_Monday := agg_max is_Monday r rest;
                   is_Tuesday := agg_max is_Tuesday r rest;
                   is_Wednesday := agg_max is_Wednesday r rest;
                   is_Thursday := agg_max is_Thursday r rest;
                   is_Friday := agg_max is_Friday r rest;
                   is_Saturday := agg_max is_Saturday r rest;
                   is_Sunday := agg_max is_Sunday r rest;
                   Week1 := agg_max Week1 r rest;
                   Week2 := agg_max Week2 r rest;
                   Week3 := agg_max Week3 r rest;
                   Week4 := agg_max Week4 r rest;
                   Week5 := agg_max Week5 r rest;
                   Holidays := agg_max Holidays r rest |};
              RecordCount := length g |}
  end.

(** [groupby] leaves out the rows that have a null cell in their key. *)
Definition notna {A} (cell : option A) : bool :=
  match cell with
  | Some _ => true
  | None => false
  end.

Definition complete (k : location_key) : bool :=
  let '(corridor, limits, side, block_side, from_hour, to_hour) := k in
  notna corridor && notna limits && notna side && notna block_side
  && notna from_hour && notna to_hour.

(** [groupby] returns the groups in the order of their keys: column after
    column, texts by their characters and hours as numbers.  (How a null
    cell compares does not matter: no key that is sorted has one.) *)
Fixpoint str_compare (a b : t) : comparison :=
  match a, b with
  | [], [] => Eq
  | [], _ :: _ => Lt
  | _ :: _, [] => Gt
  | x :: a', y :: b' =>
      match Ascii.compare x y with
      | Eq => str_compare a' b'
      | c => c
      end
  end.

Definition cell_compare {A} (cmp : A -> A -> comparison) (a b : option A)
  : comparison :=
  match a, b with
  | Some x, Some y => cmp x y
  | None, None => Eq
  | None, Some _ => Lt
  | Some _, None => Gt
  end.

Definition and_then (c rest : comparison) : comparison :=
  match c with
  | Eq => rest
  | _ => c
  end.

Definition key_compare (k k' : location_key) : comparison :=
  let '(corridor, limits, side, block_side, from_hour, to_hour) := k in
  let '(corridor', limits', side', block_side', from_hour', to_hour') := k' in
  and_then (cell_compare str_compare corridor corridor')
    (and_then (cell_compare str_compare limits limits')
       (and_then (cell_compare str_compare side side')
          (and_then (cell_compare str_compare block_side block_side')
             (and_then (cell_compare Z.compare from_hour from_hour')
                (cell_compare Z.compare to_hour to_hour'))))).

Definition key_le (k k' : location_key) : Prop := key_compare k k' <> Gt.

#[global] Instance key_le_dec : RelDecision key_le.
Proof. intros k k'. unfold key_le. apply _. Defined.

(** The keys of the groups: complete, without repetition, sorted. *)
Definition group_keys (rows : list normalized_row) : list location_key :=
  merge_sort key_le
    (remove_dups (List.filter complete (map location_of rows))).

(** [normalized_df.groupby(location_columns).agg(agg_dict)]: one row for
    each distinct complete key, in the order of the keys. *)
Definition groupby_agg (rows : list normalized_row) : list combined_row :=
  omap (fun k => combine_group (group_of k rows)) (group_keys rows).

(** The five week flags read as a five-bit number, [Week1] first. *)
Definition week_bitmask (r : normalized_row) : Z :=
  16 * Week1 r + 8 * Week2 r + 4 * Week3 r + 2 * Week4 r + Week5 r.

Definition is_flag (z : Z) : bool := (z =? 0) || (z =? 1).

Definition week_flags_ok (r : normalized_row) : bool :=
  is_flag (Week1 r) && is_flag (Week2 r) && is_flag (Week3 r)
  && is_flag (Week4 r) && is_flag (Week5 r).

(** [clean_schedule_data_simple]: the combined rows with their new
    identifiers. *)
Record clean_row : Type := {
  CleanBlockSweepID : Z;
  clean : combined_row
}.

Fixpoint number_from {A B} (f : Z -> A -> B) (start : Z) (l : list A) : list B :=
  match l with
  | [] => []
  | x :: l' => f start x :: number_from f (start + 1) l'
  end.

Definition clean_schedule_data_simple (df : list raw_row) : list clean_row :=
  number_from (fun i c => {| CleanBlockSweepID := i; clean := c |}) 2000000
    (groupby_agg (map normalize_row_simple df)).

(** A row of the day-specific table. *)
Record day_row : Type := {
  d_schedule_id : Z;
  d_weekday : day;
  d_cnn : Z;
  d_corridor : option t;
  d_limits : option t;
  d_cnn_right_left : option t;
  d_block_side : option t;
  d_scheduled_from_hour : option Z;
  d_scheduled_to_hour : option Z;
  d_week1 : Z; d_week2 : Z; d_week3 : Z; d_week4 : Z; d_week5 : Z;
  d_holidays : Z;
  d_line : option t;
  d_record_count : nat
}.

Definition all_days : list day :=
  [Monday; Tuesday; Wednesday; Thursday; Friday; Saturday; Sunday].

Definition day_flag (r : normalized_row) (d : day) : Z :=
  match d with
  | Monday => is_Monday r
  | Tuesday => is_Tuesday r
  | Wednesday => is_Wednesday r
  | Thursday => is_Thursday r
  | Friday => is_Friday r
  | Saturday => is_Saturday r
  | Sunday => is_Sunday r
  end.

(** The days of one combined row whose flag is 1. *)
Definition active_days (c : combined_row) : list day :=
  List.filter (fun d => day_flag (combined c) d =? 1) all_days.

Definition day_row_of (c : combined_row) (d : day) (id : Z) : day_row :=
  let r := combined c in
  {| d_schedule_id := id;
     d_weekday := d;
     d_cnn := CNN r;
     d_corridor := Corridor r;
     d_limits := Limits r;
     d_cnn_right_left := CNNRightLeft r;
     d_block_side := BlockSide r;
     d_scheduled_from_hour := FromHour r;
     d_scheduled_to_hour := ToHour r;
     d_week1 := Week1 r; d_week2 := Week2 r; d_week3 := Week3 r;
     d_week4 := Week4 r; d_week5 := Week5 r;
     d_holidays := Holidays r;
     d_line := Line r;
     d_record_count := RecordCount c |}.

(** [clean_schedule_data_day_specific]: group first, then one row for each
    active day of each combined row, numbered from 2000000. *)
Definition clean_schedule_data_day_specific (df : list raw_row) : list day_row :=
  number_from (fun i cd => day_row_of (fst cd) (snd cd) i) 2000000
    (concat (map (fun c => map (fun d => (c, d)) (active_days c))
               (groupby_agg (map normalize_row_day_specific df)))).

Definition d_week_bitmask (r : day_row) : Z :=
  16 * d_week1 r + 8 * d_week2 r + 4 * d_week3 r + 2 * d_week4 r + d_week5 r.

End Cleaner.

(** ** The archived estimates ([citation_schedule_matcher.py]) *)

Module ArchiveEstimates.

Inductive time_relevance : Set :=
| DURING_SCHEDULE
| AFTER_SCHEDULE
| BEFORE_SCHEDULE
| OUTSIDE_SCHEDULE.

#[global] Instance time_relevance_eq_dec : EqDecision time_relevance.
Proof. solve_decision. Defined.

Definition calculate_time_relevance (citation_hour from_hour to_hour : Z)
  : time_relevance :=
  if (from_hour <=? citation_hour) && (citation_hour <=? to_hour)
  then DURING_SCHEDULE
  else if (to_hour <? citation_hour) && (citation_hour <=? to_hour + 2)
  then AFTER_SCHEDULE
  else if (citation_hour <? from_hour) && (from_hour - 1 <=? citation_hour)
  then BEFORE_SCHEDULE
  else OUTSIDE_SCHEDULE.

(** A row of the matches table. *)
Record archived_match : Type := {
  a_citation_id : Z;
  a_schedule_id : Z;
  a_distance_meters : Q;
  a_citation_hour : Z;
  a_schedule_from_hour : Z;
  a_schedule_to_hour : Z;
  a_time_relevance : time_relevance;
  a_corridor : PyStr.t;
  a_limits : PyStr.t;
  a_citation_date : PyStr.t
}.

(** A row of the estimates table. *)
Record estimate : Type := {
  e_schedule_id : Z;
  e_corridor : PyStr.t;
  e_limits : PyStr.t;
  e_schedule_from_hour : Z;
  e_schedule_to_hour : Z;
  e_total_citations : nat;
  e_citation_count : nat;
  e_min_citation_time : Z;
  e_max_citation_time : Z;
  e_avg_citation_time : Q;
  e_median_citation_time : Q;
  e_citation_dates : list PyStr.t;
  e_avg_distance_meters : Q
}.

(** The keys of [groupby('schedule_id')], sorted. *)
Definition schedule_ids (matches_df : list archived_match) : list Z :=
  merge_sort Z.le (remove_dups (map a_schedule_id matches_df)).

Definition group_of (id : Z) (matches_df : list archived_match)
  : list archived_match :=
  List.filter (fun m => bool_decide (a_schedule_id m = id)) matches_df.

Definition during_schedule_matches (group : list archived_match)
  : list archived_match :=
  List.filter (fun m => bool_decide (a_time_relevance m = DURING_SCHEDULE)) group.

(** The matches the statistics use: those during the schedule when there
    are three of them, else those during or after it. *)
Definition relevant_matches (group : list archived_match) : list archived_match :=
  if (3 <=? length (during_schedule_matches group))%nat
  then during_schedule_matches group
  else List.filter
         (fun m => bool_decide (a_time_relevance m = DURING_SCHEDULE)
                   || bool_decide (a_time_relevance m = AFTER_SCHEDULE))
         group.

(** [np.median] of whole hours: the middle of the sorted values, or the
    mean of the two middle ones (a multiple of a half, which no rounding
    changes). *)
Definition median (xs : list Z) : Q :=
  let sorted := merge_sort Z.le xs in
  let n := length xs in
  if Nat.even n
  then ((inject_Z (nth (n / 2 - 1)%nat sorted 0%Z)
         + inject_Z (nth (n / 2)%nat sorted 0%Z)) / 2)%Q
  else inject_Z (nth (n / 2)%nat sorted 0%Z).

(** [Series.unique]: the values in the order in which they first occur. *)
Definition unique (l : list PyStr.t) : list PyStr.t :=
  rev (remove_dups (rev l)).

Definition minimum (x : Z) (xs : list Z) : Z := fold_left Z.min xs x.
Definition maximum (x : Z) (xs : list Z) : Z := fold_left Z.max xs x.

(** The body of the loop for one group: [None] is the [continue].
    [np_mean] is the library's mean of an array of floats, a sum in an
    order of its own over the number of values; it is taken as given. *)
Definition estimate_of_group (np_mean : list Q -> Q) (schedule_id : Z)
    (group : list archived_match) : option estimate :=
  let relevant := relevant_matches group in
  if (length relevant <? 3)%nat then None
  else
    match group, map a_citation_hour relevant with
    | first :: _, h :: hs =>
        Some {| e_schedule_id := schedule_id;
                e_corridor := a_corridor first;
                e_limits := a_limits first;
                e_schedule_from_hour := a_schedule_from_hour first;
                e_schedule_to_hour := a_schedule_to_hour first;
                e_total_citations := length group;
                e_citation_count := length relevant;
                e_min_citation_time := minimum h hs;
                e_max_citation_time := maximum h hs;
                e_avg_citation_time := np_mean (map inject_Z (h :: hs));
                e_median_citation_time := median (h :: hs);
                e_citation_dates := unique (map a_citation_date relevant);
                e_avg_distance_meters := np_mean (map a_distance_meters relevant) |}
    | _, _ => None
    end.

Definition calculate_estimated_citation_times (np_mean : list Q -> Q)
    (matches_df : list archived_match) : list estimate :=
  omap (fun id => estimate_of_group np_mean id (group_of id matches_df))
       (schedule_ids matches_df).

(** A match as [match_citation_to_schedules] builds it. *)
Definition match_at (citation_id schedule_id citation_hour from_hour to_hour : Z)
  : archived_match :=
  {| a_citation_id := citation_id;
     a_schedule_id := schedule_id;
     a_distance_meters := 12;
     a_citation_hour := citation_hour;
     a_schedule_from_hour := from_hour;
     a_schedule_to_hour := to_hour;
     a_time_relevance := calculate_time_relevance citation_hour from_hour to_hour;
     a_corridor := py "Mission St";
     a_limits := py "16th St - 17th St";
     a_citation_date := py "2025-06-24" |}.

End ArchiveEstimates.

(** ** The aggregation of matches per location
    ([aggregate_schedules_from_matches.py]) *)

Module Aggregator.

(** The columns of a match that the aggregation reads. *)
Record match_row : Type := {
  mr_schedule_id : Z;
  mr_citation_time : Q
}.

(** [str(n)] of an integer: its decimal digits, after a minus sign for a
    negative number. *)
Definition str_of_int (z : Z) : PyStr.t :=
  list_ascii_of_string (NilZero.string_of_int (Z.to_int z)).

(** [create_week_pattern_string]: the five week columns as integers,
    printed one after the other. *)
Definition create_week_pattern_string (s : schedule) : PyStr.t :=
  str_of_int (week1 s) ++ str_of_int (week2 s) ++ str_of_int (week3 s)
  ++ str_of_int (week4 s) ++ str_of_int (week5 s).

(** The key is the text [f"{cnn}_{cnn_right_left}_{week_pattern}"]. *)
Definition group_key : Type := PyStr.t.

Definition key_of (s : schedule) : group_key :=
  str_of_int (cnn s) ++ py "_" ++ cnn_right_left s ++ py "_"
  ++ create_week_pattern_string s.

(** [schedule_lookup]: a later row with the same identifier replaces an
    earlier one. *)
Definition schedule_lookup (schedules_df : list schedule) : gmap Z schedule :=
  foldl (fun m s => <[schedule_id s := s]> m) ∅ schedules_df.

(** One value of [aggregation_groups].  [hour_arrays] is a
    [defaultdict(set)]: every day has a set, empty until hours are added. *)
Record group_data : Type := {
  citation_times : list Q;
  schedule_ids : gset Z;
  schedule_info : option schedule;
  hour_arrays : day -> gset Z
}.

Definition empty_group : group_data :=
  {| citation_times := []; schedule_ids := ∅; schedule_info := None;
     hour_arrays := fun _ => ∅ |}.

(** [range(from_hour, to_hour)] *)
Definition hour_range (from_hour to_hour : Z) : list Z :=
  map (fun k => from_hour + Z.of_nat k) (seq 0 (Z.to_nat (to_hour - from_hour))).

Definition add_hours (h : day -> gset Z) (d : day) (hours : list Z)
  : day -> gset Z :=
  fun d' => if decide (d' = d) then h d' ∪ list_to_set hours else h d'.

(** The body of the loop over the matches for a match whose schedule is
    [s], on the group of its key. *)
Definition record_match (s : schedule) (m : match_row) (g : group_data)
  : group_data :=
  let info := match schedule_info g with
              | Some i => Some i
              | None => Some s
              end in
  let from_hour := scheduled_from_hour s in
  let to_hour := scheduled_to_hour s in
  let hours :=
    if to_hour <=? from_hour
    then if to_hour =? 0
         then add_hours (hour_arrays g) (weekday s) (hour_range from_hour 24)
         else hour_arrays g
    else add_hours (hour_arrays g) (weekday s) (hour_range from_hour to_hour) in
  {| citation_times := citation_times g ++ [mr_citation_time m];
     schedule_ids := schedule_ids g ∪ {[mr_schedule_id m]};
     schedule_info := info;
     hour_arrays := hours |}.

(** A dictionary that keeps the order of insertion. *)
Fixpoint dict_update {V} (f : V -> V) (default : V) (k : group_key)
    (d : list (group_key * V)) : list (group_key * V) :=
  match d with
  | [] => [(k, f default)]
  | (k', v) :: d' =>
      if decide (k' = k) then (k', f v) :: d'
      else (k', v) :: dict_update f default k d'
  end.

(** The loop over the matches. *)
Definition aggregation_groups (lookup : gmap Z schedule)
    (matches_df : list match_row) : list (group_key * group_data) :=
  foldl (fun groups m =>
           match lookup !! mr_schedule_id m with
           | None => groups
           | Some s => dict_update (record_match s m) empty_group (key_of s) groups
           end)
        [] matches_df.

(** A row of the result.  The hours of a day are the sorted list that the
    source joins with commas; [ag_citation_times] holds the times whose
    mean and median the source prints; the summary text is left out. *)
Record aggregated_row : Type := {
  clean_id : group_key;
  ag_cnn : Z;
  ag_corridor : PyStr.t;
  ag_limits : PyStr.t;
  ag_cnn_right_left : PyStr.t;
  ag_block_side : PyStr.t;
  ag_hours : day -> list Z;
  total_weekly_hours : nat;
  has_multiple_windows : bool;
  ag_week1 : Z; ag_week2 : Z; ag_week3 : Z; ag_week4 : Z; ag_week5 : Z;
  citation_count : nat;
  ag_citation_times : list Q;
  ag_line : option (list point)
}.

Definition all_days : list day :=
  [Monday; Tuesday; Wednesday; Thursday; Friday; Saturday; Sunday].

Definition sorted_hours (hours : gset Z) : list Z :=
  merge_sort Z.le (elements hours).

Definition minimum (x : Z) (xs : list Z) : Z := fold_left Z.min xs x.
Definition maximum (x : Z) (xs : list Z) : Z := fold_left Z.max xs x.

(** The window [min-(max+1)] of a day that has hours. *)
Definition time_window (hours : list Z) : option (Z * Z) :=
  match hours with
  | [] => None
  | h :: hs => Some (minimum h hs, maximum h hs + 1)
  end.

Definition sum_lengths (h : day -> list Z) : nat :=
  fold_right (fun d n => (length (h d) + n)%nat) 0%nat all_days.

(** The row of a group that has matches; a group without [schedule_info]
    is skipped. *)
Definition row_of_group (key : group_key) (g : group_data)
  : option aggregated_row :=
  match schedule_info g with
  | None => None
  | Some info =>
      let hours := fun d => sorted_hours (hour_arrays g d) in
      let time_windows := remove_dups (omap (fun d => time_window (hours d)) all_days) in
      Some {| clean_id := key;
              ag_cnn := cnn info;
              ag_corridor := corridor info;
              ag_limits := limits info;
              ag_cnn_right_left := cnn_right_left info;
              ag_block_side := block_side info;
              ag_hours := hours;
              total_weekly_hours := sum_lengths hours;
              has_multiple_windows := (1 <? length time_windows)%nat;
              ag_week1 := week1 info; ag_week2 := week2 info;
              ag_week3 := week3 info; ag_week4 := week4 info;
              ag_week5 := week5 info;
              citation_count := length (citation_times g);
              ag_citation_times := citation_times g;
              ag_line := line info |}
  end.

(** The hours of one schedule row for its day. *)
Definition row_hours (s : schedule) : list Z :=
  let from_hour := scheduled_from_hour s in
  let to_hour :=
    if (scheduled_to_hour s <=? from_hour) && (scheduled_to_hour s =? 0)
    then 24 else scheduled_to_hour s in
  if from_hour <? to_hour then hour_range from_hour to_hour else [].

(** The new row of a group without matches. *)
Definition new_row (s : schedule) : aggregated_row :=
  let hours := fun d => if decide (d = weekday s) then row_hours s else [] in
  {| clean_id := key_of s;
     ag_cnn := cnn s;
     ag_corridor := corridor s;
     ag_limits := limits s;
     ag_cnn_right_left := cnn_right_left s;
     ag_block_side := block_side s;
     ag_hours := hours;
     total_weekly_hours := sum_lengths hours;
     has_multiple_windows := false;
     ag_week1 := week1 s; ag_week2 := week2 s; ag_week3 := week3 s;
     ag_week4 := week4 s; ag_week5 := week5 s;
     citation_count := 0;
     ag_citation_times := [];
     ag_line := line s |}.

(** The update of the row that exists already with the hours of another
    schedule row of the same group. *)
Definition merge_hours (s : schedule) (r : aggregated_row) : aggregated_row :=
  let hours :=
    match row_hours s with
    | [] => ag_hours r
    | new_hours =>
        fun d =>
          if decide (d = weekday s)
          then merge_sort Z.le
                 (elements (list_to_set (ag_hours r d) ∪ list_to_set new_hours
                            : gset Z))
          else ag_hours r d
    end in
  {| clean_id := clean_id r;
     ag_cnn := ag_cnn r;
     ag_corridor := ag_corridor r;
     ag_limits := ag_limits r;
     ag_cnn_right_left := ag_cnn_right_left r;
     ag_block_side := ag_block_side r;
     ag_hours := hours;
     total_weekly_hours := sum_lengths hours;
     has_multiple_windows := has_multiple_windows r;
     ag_week1 := ag_week1 r; ag_week2 := ag_week2 r; ag_week3 := ag_week3 r;
     ag_week4 := ag_week4 r; ag_week5 := ag_week5 r;
     citation_count := citation_count r;
     ag_citation_times := ag_citation_times r;
     ag_line := ag_line r |}.

(** The first row with the given key is replaced in place. *)
Fixpoint update_first (key : group_key) (f : aggregated_row -> aggregated_row)
    (rows : list aggregated_row) : list aggregated_row :=
  match rows with
  | [] => []
  | r :: rows' =>
      if decide (clean_id r = key) then f r :: rows'
      else r :: update_first key f rows'
  end.

Definition has_row (key : group_key) (rows : list aggregated_row) : bool :=
  existsb (fun r => bool_decide (clean_id r = key)) rows.

(** The body of the loop that adds the schedules without citations. *)
Definition add_schedule (keys_without_citations : gset group_key)
    (rows : list aggregated_row) (s : schedule) : list aggregated_row :=
  if bool_decide (key_of s ∈ keys_without_citations)
  then if has_row (key_of s) rows
       then update_first (key_of s) (merge_hours s) rows
       else rows ++ [new_row s]
  else rows.

(** [aggregate_from_matches], before the final [sort_values], which only
    reorders the rows. *)
Definition aggregate_from_matches (matches_df : list match_row)
    (schedules_df : list schedule) : list aggregated_row :=
  let groups := aggregation_groups (schedule_lookup schedules_df) matches_df in
  let aggregated_rows := omap (fun kg => row_of_group (fst kg) (snd kg)) groups in
  let all_schedule_keys : gset group_key := list_to_set (map key_of schedules_df) in
  let keys_with_citations : gset group_key := list_to_set (map fst groups) in
  let keys_without_citations := all_schedule_keys ∖ keys_with_citations in
  foldl (add_schedule keys_without_citations) aggregated_rows schedules_df.

End Aggregator.

(** ** The geocoding confidence score ([production_citation_processor.py]) *)

Module Scorer.

Import PyStr.

(** The digits that [\d+] takes at the start of a string. *)
Definition leading_digits (s : t) : t := firstn (run_length is_digit s) s.

(** [int(digits)] for a string of decimal digits. *)
Definition int_of_digits (digits : t) : N :=
  match NilEmpty.uint_of_string (string_of_list_ascii digits) with
  | Some d => N.of_uint d
  | None => 0%N
  end.

(** [str(n)] *)
Definition str_of_int (n : N) : t :=
  list_ascii_of_string (NilZero.string_of_uint (N.to_uint n)).

(** [re.match(r'^(\d+)', address.strip())] and [int(match.group(1))] *)
Definition extract_street_number (address : t) : option N :=
  match leading_digits (strip address) with
  | [] => None
  | digits => Some (int_of_digits digits)
  end.

Definition suffix_map : list (t * t) :=
  [(py " STREET", py " ST"); (py " AVENUE", py " AVE");
   (py " BOULEVARD", py " BLVD"); (py " DRIVE", py " DR");
   (py " COURT", py " CT"); (py " PLACE", py " PL");
   (py " LANE", py " LN"); (py " ROAD", py " RD");
   (py " PARKWAY", py " PKWY")].

Fixpoint replace_suffix (pairs : list (t * t)) (street_upper : t) : t :=
  match pairs with
  | [] => street_upper
  | (full_suffix, short_suffix) :: pairs' =>
      if endswith street_upper full_suffix
      then replace full_suffix short_suffix street_upper
      else replace_suffix pairs' street_upper
  end.

Definition normalize_street_suffix (street_name : t) : t :=
  replace_suffix suffix_map (upper street_name).

(** [re.sub(r'^\d+\s*', '', s)] *)
Definition remove_leading_number (s : t) : t :=
  match run_length is_digit s with
  | O => s
  | n => lstrip (skipn n s)
  end.

Definition extract_street_name (address : t) : t :=
  normalize_street_suffix (remove_leading_number (strip address)).

Definition core_suffixes : list t :=
  [py " ST"; py " AVE"; py " BLVD"; py " DR"; py " CT"; py " PL"; py " WAY";
   py " LN"; py " RD"; py " PKWY"].

(** The street name with every occurrence of the short suffixes removed. *)
Definition orig_core (original_address : t) : t :=
  fold_left (fun core suffix => replace suffix [] core) core_suffixes
    (extract_street_name original_address).

Definition general_markers : list t :=
  [py "AVENUE,"; py "STREET,"; py "BOULEVARD,"; py "DISTRICT,";
   py "NEIGHBORHOOD,"; py "SAN FRANCISCO"].

Inductive confidence : Set := HIGH | MEDIUM | LOW | FAILED | ERROR.

Definition street_in_result (original_address returned_address : t) : bool :=
  contains (upper returned_address) (strip (orig_core original_address)).

(** [str(orig_number) in returned_address if orig_number else False] *)
Definition number_in_result (original_address returned_address : t) : bool :=
  match extract_street_number original_address with
  | Some n => if (n =? 0)%N then false
              else contains returned_address (str_of_int n)
  | None => false
  end.

Definition is_general (returned_address : t) : bool :=
  existsb (contains (upper returned_address)) general_markers.

Definition confidence_of_score (confidence_score : Z) : confidence :=
  if 80 <=? confidence_score then HIGH
  else if 50 <=? confidence_score then MEDIUM
  else LOW.

Definition validate_geocoding_result (original_address returned_address : t)
  : Z * confidence :=
  let score0 := 0 in
  let score1 := if street_in_result original_address returned_address
                then score0 + 40 else score0 in
  let score2 := if number_in_result original_address returned_address
                then score1 + 50 else score1 in
  let confidence_score := if negb (is_general returned_address)
                          then score2 + 10 else score2 in
  (confidence_score, confidence_of_score confidence_score).

(** What [rate_limited_geocode] gives back: a location or [None]. *)
Record location : Type := {
  loc_latitude : Q;
  loc_longitude : Q;
  loc_address : t
}.

Record geocoded : Type := {
  g_latitude : option Q;
  g_longitude : option Q;
  g_returned_address : option t;
  g_confidence : confidence;
  g_confidence_score : Z
}.

(** The part of [process_citation] that fills the result. *)
Definition process_citation (address : t) (geocode : option location) : geocoded :=
  match geocode with
  | Some l =>
      let '(score, conf) := validate_geocoding_result address (loc_address l) in
      {| g_latitude := Some (loc_latitude l);
         g_longitude := Some (loc_longitude l);
         g_returned_address := Some (loc_address l);
         g_confidence := conf;
         g_confidence_score := score |}
  | None =>
      {| g_latitude := None; g_longitude := None; g_returned_address := None;
         g_confidence := FAILED; g_confidence_score := 0 |}
  end.

End Scorer.

(** ** The score as the specification words it *)

Module ScoreSpec.

Import PyStr.

(** A returned address is a district or neighbourhood level reference when
    it carries one of the two markers the specification names. *)
Definition district_or_neighborhood_reference (returned_address : t) : bool :=
  contains (upper returned_address) (py "DISTRICT,")
  || contains (upper returned_address) (py "NEIGHBORHOOD,").

(** The leading street number of the original appears, digit for digit, in
    the returned string. *)
Definition number_appears_literally (original_address returned_address : t)
  : bool :=
  match Scorer.leading_digits (strip original_address) with
  | [] => false
  | digits => contains returned_address digits
  end.

Definition points (b : bool) (n : Z) : Z := if b then n else 0.

End ScoreSpec.

(** ** All citations, and the estimates per schedule
    ([process_all_citations], [generate_day_specific_estimates]) *)

Module DayEstimates.

Import Pipeline.

(** [process_all_citations]: the matches of every citation, one after the
    other. *)
Definition process_all_citations (geodesic : point -> point -> Q)
    (m : matcher) (citation_df : list citation) : list match_result :=
  flat_map (hybrid_match_citation geodesic m) citation_df.

(** A row of the estimates: the columns of the schedule and the statistics
    of its matches, [None] where the source writes [None]. *)
Record schedule_estimate : Type := {
  se_schedule_id : Z;
  se_cnn : Z;
  se_corridor : PyStr.t;
  se_limits : PyStr.t;
  se_cnn_right_left : PyStr.t;
  se_block_side : PyStr.t;
  se_weekday : day;
  se_scheduled_from_hour : Z;
  se_scheduled_to_hour : Z;
  se_week1 : Z; se_week2 : Z; se_week3 : Z; se_week4 : Z; se_week5 : Z;
  se_citation_count : nat;
  se_avg_citation_time : option Q;
  se_min_citation_time : option Q;
  se_max_citation_time : option Q
}.

(** [matches_lookup[schedule_id]]: the matches of one schedule, in order;
    an identifier without matches is not a key of the lookup. *)
Definition matches_of (schedule_id : Z) (matches_df : list match_result)
  : list match_result :=
  List.filter (fun r => bool_decide (m_schedule_id r = schedule_id)) matches_df.

Definition Qmin_of (x : Q) (xs : list Q) : Q :=
  fold_left (fun a b => if Qle_bool a b then a else b) xs x.

Definition Qmax_of (x : Q) (xs : list Q) : Q :=
  fold_left (fun a b => if Qle_bool b a then a else b) xs x.

(** The body of the loop over [self.schedules].  [mean] is the library's
    [Series.mean], a sum of floats in an order of its own over their number:
    it is taken as given, like the geodesic of the matcher. *)
Definition estimate_of (mean : list Q -> Q) (matches_df : list match_result)
    (s : indexed_schedule) : schedule_estimate :=
  let group := map m_citation_time (matches_of (schedule_id (row s)) matches_df) in
  {| se_schedule_id := schedule_id (row s);
     se_cnn := cnn (row s);
     se_corridor := corridor (row s);
     se_limits := limits (row s);
     se_cnn_right_left := cnn_right_left (row s);
     se_block_side := block_side (row s);
     se_weekday := weekday (row s);
     se_scheduled_from_hour := scheduled_from_hour (row s);
     se_scheduled_to_hour := scheduled_to_hour (row s);
     se_week1 := week1 (row s); se_week2 := week2 (row s);
     se_week3 := week3 (row s); se_week4 := week4 (row s);
     se_week5 := week5 (row s);
     se_citation_count := length group;
     se_avg_citation_time :=
       match group with [] => None | t :: ts => Some (mean (t :: ts)) end;
     se_min_citation_time :=
       match group with [] => None | t :: ts => Some (Qmin_of t ts) end;
     se_max_citation_time :=
       match group with [] => None | t :: ts => Some (Qmax_of t ts) end |}.

(** [generate_day_specific_estimates]: one row for every row of
    [self.schedules]. *)
Definition generate_day_specific_estimates (mean : list Q -> Q) (m : matcher)
    (matches_df : list match_result) : list schedule_estimate :=
  map (estimate_of mean matches_df) (schedules m).

End DayEstimates.

(** ** The exploratory cleaner
    ([schedule_cleaning_experiments/clean_schedule_data.py]) *)

Module Exploration.

Import PyStr.

(** A cell that holds a number or a text: [CNN] and [BlockSweepID] are
    numbers in the raw table and texts where an earlier step combined
    records. *)
Inductive cell : Type :=
| Int (z : Z)
| Text (s : t).

(** [str(cell)] *)
Definition str (c : cell) : t :=
  match c with
  | Int z => Aggregator.str_of_int z
  | Text s => s
  end.

(** A record of the table; a null cell is [None]. *)
Record schedule_record : Type := {
  x_CNN : cell;
  x_Corridor : option t;
  x_Limits : option t;
  x_CNNRightLeft : option t;
  x_BlockSide : option t;
  x_FullName : option t;
  x_WeekDay : option t;
  x_FromHour : option Z;
  x_ToHour : option Z;
  x_Week1 : Z; x_Week2 : Z; x_Week3 : Z; x_Week4 : Z; x_Week5 : Z;
  x_Holidays : option Z;
  x_BlockSweepID : cell;
  x_Line : option t;
  x_DataQualityNotes : option t
}.

(** The columns of [group_columns] in [_merge_complementary_week_patterns]:
    location, day and time. *)
Definition week_key : Type :=
  option t * option t * option t * option t * option t
  * option Z * option Z * option Z.

Definition key_of (r : schedule_record) : week_key :=
  (x_Corridor r, x_Limits r, x_CNNRightLeft r, x_BlockSide r, x_WeekDay r,
   x_FromHour r, x_ToHour r, x_Holidays r).

(** [groupby] leaves out the records with a null cell in their key. *)
Definition complete (k : week_key) : bool :=
  let '(corridor, limits, side, block_side, weekday, from_hour, to_hour,
        holidays) := k in
  Cleaner.notna corridor && Cleaner.notna limits && Cleaner.notna side
  && Cleaner.notna block_side && Cleaner.notna weekday
  && Cleaner.notna from_hour && Cleaner.notna to_hour
  && Cleaner.notna holidays.

(** The order of the groups: by key, column after column. *)
Definition key_compare (k k' : week_key) : comparison :=
  let '(corridor, limits, side, block_side, weekday, from_hour, to_hour,
        holidays) := k in
  let '(corridor', limits', side', block_side', weekday', from_hour',
        to_hour', holidays') := k' in
  Cleaner.and_then (Cleaner.cell_compare Cleaner.str_compare corridor corridor')
    (Cleaner.and_then (Cleaner.cell_compare Cleaner.str_compare limits limits')
       (Cleaner.and_then (Cleaner.cell_compare Cleaner.str_compare side side')
          (Cleaner.and_then
             (Cleaner.cell_compare Cleaner.str_compare block_side block_side')
             (Cleaner.and_then
                (Cleaner.cell_compare Cleaner.str_compare weekday weekday')
                (Cleaner.and_then
                   (Cleaner.cell_compare Z.compare from_hour from_hour')
                   (Cleaner.and_then
                      (Cleaner.cell_compare Z.compare to_hour to_hour')
                      (Cleaner.cell_compare Z.compare holidays holidays'))))))).

Definition key_le (k k' : week_key) : Prop := key_compare k k' <> Gt.

#[global] Instance key_le_dec : RelDecision key_le.
Proof. intros k k'. unfold key_le. apply _. Defined.

Definition group_keys (df : list schedule_record) : list week_key :=
  merge_sort key_le (remove_dups (List.filter complete (map key_of df))).

(** The records of one group, in table order. *)
Definition group_of (k : week_key) (df : list schedule_record)
  : list schedule_record :=
  List.filter (fun r => bool_decide (key_of r = k)) df.

Definition pattern : Type := Z * Z * Z * Z * Z.

Definition week_pattern (r : schedule_record) : pattern :=
  (x_Week1 r, x_Week2 r, x_Week3 r, x_Week4 r, x_Week5 r).

(** [tuple(max(a, b) for a, b in zip(patterns[0], patterns[1]))] *)
Definition combine_patterns (p q : pattern) : pattern :=
  let '(a1, a2, a3, a4, a5) := p in
  let '(b1, b2, b3, b4, b5) := q in
  (Z.max a1 b1, Z.max a2 b2, Z.max a3 b3, Z.max a4 b4, Z.max a5 b5).

Definition every_week : pattern := (1, 1, 1, 1, 1).
Definition every_week_except_5th : pattern := (1, 1, 1, 1, 0).

Definition text_of (c : option t) : t :=
  match c with
  | Some s => s
  | None => py "nan"
  end.

(** [_merge_complementary_records]: the first record of the group with the
    combined pattern. *)
Definition _merge_complementary_records (group_df : list schedule_record)
    (base_record : schedule_record) (combined_pattern : pattern)
  : schedule_record :=
  let '(w1, w2, w3, w4, w5) := combined_pattern in
  {| x_CNN := x_CNN base_record;
     x_Corridor := x_Corridor base_record;
     x_Limits := x_Limits base_record;
     x_CNNRightLeft := x_CNNRightLeft base_record;
     x_BlockSide := x_BlockSide base_record;
     x_FullName :=
       if bool_decide (combined_pattern = every_week)
       then x_WeekDay base_record
       else if bool_decide (combined_pattern = every_week_except_5th)
       then Some (text_of (x_WeekDay base_record) ++ py " (except 5th week)")
       else x_FullName base_record;
     x_WeekDay := x_WeekDay base_record;
     x_FromHour := x_FromHour base_record;
     x_ToHour := x_ToHour base_record;
     x_Week1 := w1; x_Week2 := w2; x_Week3 := w3; x_Week4 := w4; x_Week5 := w5;
     x_Holidays := x_Holidays base_record;
     x_BlockSweepID := Text (str (x_BlockSweepID base_record) ++ py "_MERGED");
     x_Line := x_Line base_record;
     x_DataQualityNotes :=
       Some (py "Merged complementary week patterns: "
             ++ Aggregator.str_of_int (Z.of_nat (length group_df))
             ++ py " records") |}.

(** The body of the loop over the groups. *)
Definition merged_records_of (group_df : list schedule_record)
  : list schedule_record :=
  match group_df with
  | [a] => [a]
  | [a; b] =>
      let combined_pattern := combine_patterns (week_pattern a) (week_pattern b) in
      if bool_decide (combined_pattern = every_week
                      \/ combined_pattern = every_week_except_5th)
      then [_merge_complementary_records group_df a combined_pattern]
      else [a; b]
  | _ => group_df
  end.

(** [_merge_complementary_week_patterns] *)
Definition _merge_complementary_week_patterns (df : list schedule_record)
  : list schedule_record :=
  flat_map (fun k => merged_records_of (group_of k df)) (group_keys df).

End Exploration.
(** ** Facts about the string primitives *)

Module PyStrFacts.

Import PyStr.

Lemma ascii_eqb_eq (a b : ascii) : ascii_eqb a b = true <-> a = b.
Proof. apply Ascii.eqb_eq. Qed.

Lemma upper_char_not_lower (c : ascii) : is_lower (upper_char c) = false.
Proof. destruct c as [[] [] [] [] [] [] [] []]; reflexivity. Qed.

Lemma upper_char_space (c : ascii) : is_space (upper_char c) = is_space c.
Proof. destruct c as [[] [] [] [] [] [] [] []]; reflexivity. Qed.

Lemma upper_char_fixed (c : ascii) : is_lower c = false -> upper_char c = c.
Proof. unfold upper_char. intros ->. reflexivity. Qed.

Lemma blank_is_space (c : ascii) : is_space c = false -> ascii_eqb c " " = false.
Proof. destruct c as [[] [] [] [] [] [] [] []]; vm_compute; congruence. Qed.

Lemma startswith_In (p s : t) :
  startswith s p = true -> forall c, In c p -> In c s.
Proof.
  revert s. induction p as [|x p IH]; intros s H c Hc; [destruct Hc|].
  destruct s as [|y s]; [discriminate|]. simpl in H.
  apply andb_true_iff in H as [Hxy H]. apply ascii_eqb_eq in Hxy. subst y.
  destruct Hc as [->|Hc]; [left; reflexivity|right; eauto].
Qed.

Lemma endswith_In (p s : t) :
  endswith s p = true -> forall c, In c p -> In c s.
Proof.
  unfold endswith. intros H c Hc. apply in_rev.
  apply (startswith_In _ _ H). apply in_rev in Hc. exact Hc.
Qed.

Lemma lstrip_length (s : t) : (length (lstrip s) <= length s)%nat.
Proof. induction s as [|c s IH]; simpl; [lia|]. destruct (is_space c); simpl; lia. Qed.

Lemma strip_length (s : t) : (length (strip s) <= length s)%nat.
Proof.
  unfold strip, rstrip. rewrite length_rev.
  etransitivity; [apply lstrip_length|]. rewrite length_rev. apply lstrip_length.
Qed.

(** A string that neither starts nor ends with white space. *)
Definition starts_clean (s : t) : bool :=
  match s with
  | c :: _ => negb (is_space c)
  | [] => true
  end.

Definition trimmed (s : t) : bool := starts_clean s && starts_clean (rev s).

Lemma lstrip_clean (s : t) : starts_clean (lstrip s) = true.
Proof.
  induction s as [|c s IH]; simpl; [reflexivity|].
  destruct (is_space c) eqn:E; [exact IH|]. simpl. rewrite E. reflexivity.
Qed.

Lemma lstrip_id (s : t) : starts_clean s = true -> lstrip s = s.
Proof.
  destruct s as [|c s]; simpl; [reflexivity|].
  destruct (is_space c); [discriminate|reflexivity].
Qed.

Lemma lstrip_suffix (s : t) : exists pre, s = pre ++ lstrip s.
Proof.
  induction s as [|c s [pre IH]]; simpl; [exists []; reflexivity|].
  destruct (is_space c).
  - exists (c :: pre). simpl. f_equal. exact IH.
  - exists []. reflexivity.
Qed.

Lemma starts_clean_app (a b : t) :
  starts_clean (a ++ b) = true -> starts_clean a = true.
Proof. destruct a; simpl; auto. Qed.

Lemma strip_trimmed (s : t) : trimmed (strip s) = true.
Proof.
  unfold trimmed, strip, rstrip. rewrite rev_involutive.
  rewrite lstrip_clean, andb_true_r.
  destruct (lstrip_suffix (rev (lstrip s))) as [pre E].
  apply (f_equal (@rev ascii)) in E.
  rewrite rev_involutive, rev_app_distr in E.
  apply (starts_clean_app _ (rev pre)). rewrite <- E. apply lstrip_clean.
Qed.

Lemma strip_id (s : t) : trimmed s = true -> strip s = s.
Proof.
  unfold trimmed, strip, rstrip. intros H.
  apply andb_true_iff in H as [H1 H2].
  rewrite (lstrip_id s H1), (lstrip_id _ H2). apply rev_involutive.
Qed.

Lemma starts_clean_upper (s : t) : starts_clean (upper s) = starts_clean s.
Proof. destruct s as [|c s]; simpl; [reflexivity|]. rewrite upper_char_space. reflexivity. Qed.

Lemma trimmed_upper (s : t) : trimmed (upper s) = trimmed s.
Proof.
  unfold trimmed.
  replace (rev (upper s)) with (upper (rev s)) by (unfold upper; apply map_rev).
  rewrite !starts_clean_upper. reflexivity.
Qed.

Lemma starts_clean_remove_blanks (s : t) :
  starts_clean s = true -> starts_clean (remove_blanks s) = true.
Proof.
  destruct s as [|c s]; simpl; [reflexivity|]. intros H.
  apply negb_true_iff in H. rewrite (blank_is_space c H). simpl.
  rewrite H. reflexivity.
Qed.

Lemma remove_blanks_rev (s : t) : remove_blanks (rev s) = rev (remove_blanks s).
Proof.
  unfold remove_blanks. induction s as [|c s IH]; simpl; [reflexivity|].
  rewrite List.filter_app, IH. simpl.
  destruct (negb (ascii_eqb c " ")); simpl; [reflexivity|apply app_nil_r].
Qed.

Lemma trimmed_remove_blanks (s : t) :
  trimmed s = true -> trimmed (remove_blanks s) = true.
Proof.
  unfold trimmed. intros H. apply andb_true_iff in H as [H1 H2].
  rewrite <- remove_blanks_rev.
  rewrite (starts_clean_remove_blanks _ H1), (starts_clean_remove_blanks _ H2).
  reflexivity.
Qed.

(** Upper-case text without blanks. *)
Definition compact (s : t) : Prop :=
  Forall (fun c => is_lower c = false /\ c <> " "%char) s.

Lemma compact_remove_blanks_upper (s : t) : compact (remove_blanks (upper s)).
Proof.
  unfold compact, remove_blanks, upper.
  induction s as [|c s IH]; cbn [map List.filter]; [constructor|].
  destruct (ascii_eqb (upper_char c) " ") eqn:E; cbn [negb]; [exact IH|].
  constructor; [|exact IH]. split; [apply upper_char_not_lower|].
  intros Hc. rewrite Hc in E. discriminate.
Qed.

Lemma compact_upper (s : t) : compact s -> upper s = s.
Proof.
  unfold upper. induction 1 as [|c s [Hc _] _ IH]; cbn [map]; [reflexivity|].
  rewrite (upper_char_fixed c Hc), IH. reflexivity.
Qed.

Lemma compact_remove_blanks (s : t) : compact s -> remove_blanks s = s.
Proof.
  unfold remove_blanks. induction 1 as [|c s [_ Hc] _ IH]; simpl; [reflexivity|].
  destruct (ascii_eqb c " ") eqn:E; simpl; [|rewrite IH; reflexivity].
  apply ascii_eqb_eq in E. contradiction.
Qed.

Lemma compact_no_blank (s : t) : compact s -> ~ In " "%char s.
Proof.
  intros H Hin. destruct (proj1 (List.Forall_forall _ _) H _ Hin) as [_ H']. auto.
Qed.

Lemma compact_no_lower (s : t) (c : ascii) :
  compact s -> is_lower c = true -> ~ In c s.
Proof.
  intros H Hc Hin. destruct (proj1 (List.Forall_forall _ _) H _ Hin) as [H' _].
  congruence.
Qed.

End PyStrFacts.

(** ** The normaliser on its own output *)

Module NormalizerFacts.

Import PyStr PyStrFacts Matcher.

(** The token ends in one of the street-type words, with at least one
    character before it: the second test of the suffix loop. *)
Definition ends_in_street_type (s : t) : bool :=
  existsb (fun x => endswith s x && (length x <? length s)%nat) street_types.

Lemma no_blank_startswith (s p : t) :
  ~ In " "%char s -> In " "%char p -> startswith s p = false.
Proof.
  intros Hs Hp. destruct (startswith s p) eqn:E; [|reflexivity].
  exfalso. apply Hs. exact (startswith_In _ _ E _ Hp).
Qed.

Lemma no_blank_endswith (s p : t) :
  ~ In " "%char s -> In " "%char p -> endswith s p = false.
Proof.
  intros Hs Hp. destruct (endswith s p) eqn:E; [|reflexivity].
  exfalso. apply Hs. exact (endswith_In _ _ E _ Hp).
Qed.

Lemma strip_prefix_trimmed (ps : list t) (s : t) :
  trimmed s = true -> trimmed (strip_prefix ps s) = true.
Proof.
  intros H. induction ps as [|p ps IH]; simpl; [exact H|].
  destruct (startswith s p); [apply strip_trimmed|exact IH].
Qed.

Lemma strip_direction_trimmed (ds : list t) (s : t) :
  trimmed s = true -> trimmed (strip_direction ds s) = true.
Proof.
  intros H. induction ds as [|d ds IH]; cbn [strip_direction]; [exact H|].
  destruct (endswith s (blank ++ d)); [apply strip_trimmed|].
  destruct (startswith s (d ++ blank)); [apply strip_trimmed|exact IH].
Qed.

Lemma strip_street_type_trimmed (ts : list t) (s : t) :
  trimmed s = true -> trimmed (strip_street_type ts s) = true.
Proof.
  intros H. induction ts as [|x ts IH]; cbn [strip_street_type]; [exact H|].
  destruct (endswith s (blank ++ x)); [apply strip_trimmed|].
  destruct (endswith s x && (length x <? length s)%nat);
    [apply strip_trimmed|exact IH].
Qed.

Lemma extract_trimmed (x : t) : trimmed (extract_street_from_address x) = true.
Proof.
  unfold extract_street_from_address. destruct x as [|c x]; [reflexivity|].
  apply strip_street_type_trimmed, strip_direction_trimmed, strip_prefix_trimmed.
  apply strip_trimmed.
Qed.

Lemma normalize_trimmed (x : t) : trimmed (normalize x) = true.
Proof.
  unfold normalize, normalize_street_name.
  pose proof (extract_trimmed x) as H.
  destruct (extract_street_from_address x) as [|c e]; [reflexivity|].
  apply trimmed_remove_blanks. rewrite trimmed_upper. exact H.
Qed.

Lemma normalize_compact (x : t) : compact (normalize x).
Proof.
  unfold normalize, normalize_street_name.
  destruct (extract_street_from_address x) as [|c e]; [constructor|].
  apply compact_remove_blanks_upper.
Qed.

Lemma normalize_street_name_compact (s : t) :
  compact s -> normalize_street_name s = s.
Proof.
  intros H. unfold normalize_street_name. destruct s as [|c s]; [reflexivity|].
  rewrite (compact_upper _ H). apply compact_remove_blanks. exact H.
Qed.

Lemma normalize_street_name_length (s : t) :
  (length (normalize_street_name s) <= length s)%nat.
Proof.
  unfold normalize_street_name, remove_blanks, upper.
  destruct s as [|c s]; [simpl; lia|].
  etransitivity; [apply List.filter_length_le|]. rewrite length_map. lia.
Qed.

(** The broken number pattern needs a lower-case [d]. *)
Lemma match_street_number_compact (s : t) :
  compact s -> match_street_number s = None.
Proof.
  intros H. unfold match_street_number, re_char.
  destruct s as [|c s]; [reflexivity|].
  destruct (ascii_eqb c "\"); [|reflexivity].
  unfold re_plus. destruct s as [|c' s]; [reflexivity|].
  cbn [run_length]. destruct (ascii_eqb "d" c') eqn:E; [|reflexivity].
  apply ascii_eqb_eq in E. subst c'. exfalso.
  apply (compact_no_lower _ "d"%char H); [reflexivity|]. right. left. reflexivity.
Qed.

Lemma strip_prefix_compact (s : t) :
  compact s -> strip_prefix prefixes s = s.
Proof.
  intros H. pose proof (compact_no_blank _ H) as Hb.
  unfold prefixes. cbn [strip_prefix].
  rewrite !no_blank_startswith; try exact Hb; try reflexivity;
    vm_compute; tauto.
Qed.

Lemma strip_direction_compact (ds : list t) (s : t) :
  compact s -> strip_direction ds s = s.
Proof.
  intros H. pose proof (compact_no_blank _ H) as Hb.
  induction ds as [|d ds IH]; cbn [strip_direction]; [reflexivity|].
  rewrite (no_blank_endswith s (blank ++ d) Hb) by (left; reflexivity).
  rewrite (no_blank_startswith s (d ++ blank) Hb)
    by (apply in_or_app; right; left; reflexivity).
  exact IH.
Qed.

Lemma strip_street_type_compact (ts : list t) (s : t) :
  compact s ->
  Forall (fun x => (0 < length x)%nat) ts ->
  if existsb (fun x => endswith s x && (length x <? length s)%nat) ts
  then (length (strip_street_type ts s) < length s)%nat
  else strip_street_type ts s = s.
Proof.
  intros H Hts. pose proof (compact_no_blank _ H) as Hb.
  induction Hts as [|x ts Hx Hts IH]; cbn [strip_street_type existsb];
    [reflexivity|].
  rewrite (no_blank_endswith s (blank ++ x) Hb) by (left; reflexivity).
  destruct (endswith s x && (length x <? length s)%nat) eqn:E; cbn [orb];
    [|exact IH].
  apply andb_true_iff in E as [_ E]. apply Nat.ltb_lt in E.
  eapply Nat.le_lt_trans; [apply strip_length|].
  unfold drop_back. rewrite length_firstn. lia.
Qed.

Lemma street_types_nonempty : Forall (fun x => (0 < length x)%nat) street_types.
Proof. unfold street_types. repeat constructor. Qed.

(** On a token the extraction reduces to the suffix loop. *)
Lemma extract_of_token (x : t) :
  extract_street_from_address (normalize x) =
  strip_street_type street_types (normalize x).
Proof.
  pose proof (normalize_compact x) as Hc.
  pose proof (normalize_trimmed x) as Ht.
  destruct (normalize x) as [|c s] eqn:E; [reflexivity|].
  unfold extract_street_from_address.
  rewrite (strip_id _ Ht), (match_street_number_compact _ Hc).
  rewrite (compact_upper _ Hc), (strip_id _ Ht).
  rewrite (strip_prefix_compact _ Hc), (strip_direction_compact _ _ Hc).
  reflexivity.
Qed.

End NormalizerFacts.

(** C6, as the code has it.  Normalising a token again leaves it unchanged
    exactly when the token does not end in one of the street-type words
    ([STREET], [ST], [AVENUE], ...) preceded by at least one character:
    [normalize (normalize x) = normalize x] if and only if
    [ends_in_street_type (normalize x) = false]. *)
Theorem normalize_idempotent_iff (x : PyStr.t) :
  Matcher.normalize (Matcher.normalize x) = Matcher.normalize x <->
  NormalizerFacts.ends_in_street_type (Matcher.normalize x) = false.
Proof.
  pose proof (NormalizerFacts.normalize_compact x) as Hc.
  pose proof (NormalizerFacts.strip_street_type_compact
                Matcher.street_types _ Hc
                NormalizerFacts.street_types_nonempty) as H.
  unfold Matcher.normalize at 1.
  rewrite NormalizerFacts.extract_of_token.
  unfold NormalizerFacts.ends_in_street_type.
  destruct (existsb _ Matcher.street_types).
  - split; [|discriminate]. intros E. exfalso.
    pose proof (NormalizerFacts.normalize_street_name_length
                  (Matcher.strip_street_type Matcher.street_types
                     (Matcher.normalize x))) as L.
    rewrite E in L. lia.
  - split; [reflexivity|]. intros _. rewrite H.
    apply NormalizerFacts.normalize_street_name_compact. exact Hc.
Qed.

(** C6, the claim as written fails: the token of "FOREST ST" is "FOREST",
    and normalising "FOREST" again strips the letters "ST". *)
Lemma normalize_not_idempotent :
  Matcher.normalize (Matcher.normalize (py "FOREST ST")) <>
  Matcher.normalize (py "FOREST ST").
Proof. vm_compute. discriminate. Qed.

(** C8, at the failing input: the production extraction keeps the street
    number of "123 MAIN ST" (its number pattern asks for a backslash and
    the letter [d]), so the tokens of "123 MAIN ST" and "MAIN ST" differ;
    the archived extraction, with the pattern [^\d+\s+(.+)], removes it. *)
Theorem extract_keeps_street_number :
  Matcher.extract_street_from_address (py "123 MAIN ST") = py "123 MAIN" /\
  Matcher.extract_street_from_address (py "MAIN ST") = py "MAIN" /\
  Matcher.normalize (py "123 MAIN ST") <> Matcher.normalize (py "MAIN ST") /\
  Archive.extract_street_from_address (py "123 MAIN ST") =
  Archive.extract_street_from_address (py "MAIN ST").
Proof. vm_compute. repeat split; discriminate. Qed.

Example extract_main_st :
  Matcher.extract_street_from_address (py "MAIN ST") = py "MAIN".
Proof. vm_compute. reflexivity. Qed.

Example extract_123_main_st :
  Matcher.extract_street_from_address (py "123 MAIN ST") = py "123 MAIN".
Proof. vm_compute. reflexivity. Qed.

Example archive_extract_123_main_st :
  Archive.extract_street_from_address (py "123 MAIN ST") = py "MAIN ST".
Proof. vm_compute. reflexivity. Qed.

Example normalize_forest :
  Matcher.normalize (py "FOREST ST") = py "FOREST" /\
  Matcher.normalize (py "FOREST") = py "FORE".
Proof. vm_compute. split; reflexivity. Qed.

Example normalize_embarcadero :
  Matcher.normalize (py "The Embarcadero") = py "EMBARCADERO".
Proof. vm_compute. reflexivity. Qed.


(** ** The stages of the matcher *)

Module PipelineFacts.

Import Pipeline.

Lemma Qle_bool_true (x y : Q) : Qle_bool x y = true <-> (x <= y)%Q.
Proof. apply Qle_bool_iff. Qed.

Lemma day_and_time_matches_iff (s : schedule) (wd : day) (t : Q) :
  day_and_time_matches s wd t = true <->
  weekday s = wd /\
  (inject_Z (scheduled_from_hour s) <= t)%Q /\
  (t <= inject_Z (scheduled_to_hour s))%Q.
Proof.
  unfold day_and_time_matches.
  rewrite !andb_true_iff, !Qle_bool_true, bool_decide_eq_true. tauto.
Qed.

(** A Tuesday rule with the window from 8 to 10. *)
Definition rule_8_10 : schedule :=
  {| schedule_id := 2000000; cnn := 1; corridor := py "Mission St";
     limits := py "16th St - 17th St"; cnn_right_left := py "L";
     block_side := py "Odd"; weekday := Tuesday;
     scheduled_from_hour := 8; scheduled_to_hour := 10;
     week1 := 1; week2 := 1; week3 := 1; week4 := 1; week5 := 1;
     line := Some [((37760 # 1000), -(122420 # 1000));
                   ((37761 # 1000), -(122419 # 1000))]%Q |}.

Definition citation_at (hour minute : Z) : citation :=
  {| citation_id := 1;
     latitude := 37760 # 1000; longitude := -(122420 # 1000);
     address := py "2300 MISSION ST";
     datetime := Timestamp Tuesday hour minute |}.

Definition blank_address_citation : citation :=
  {| citation_id := 7; latitude := 37760 # 1000;
     longitude := -(122420 # 1000); address := py "   ";
     datetime := Timestamp Tuesday 9 5 |}.

Definition one_rule_matcher : matcher :=
  build_hybrid_index default_config [rule_8_10].

Example time_of_09_59 : (snd (citation_time (citation_at 9 59)) == 9 + 59 / 60)%Q.
Proof. reflexivity. Qed.

Example kept_at_09_59 :
  day_and_time_candidates one_rule_matcher
    (fst (citation_time (citation_at 9 59)))
    (snd (citation_time (citation_at 9 59))) [0%nat] = [0%nat].
Proof. vm_compute. reflexivity. Qed.

Example dropped_at_10_01 :
  day_and_time_candidates one_rule_matcher
    (fst (citation_time (citation_at 10 1)))
    (snd (citation_time (citation_at 10 1))) [0%nat] = [].
Proof. vm_compute. reflexivity. Qed.

End PipelineFacts.

(** C1, as the code has it.  A candidate of the street stage is kept by
    the day-and-time stage exactly when its rule has the citation's weekday
    and [from_hour <= time <= to_hour]: both bounds are inclusive.  The
    time of a citation with a timestamp is [hour + minute / 60]. *)
Theorem temporal_stage_membership
    (m : Pipeline.matcher) (citation_weekday : day) (citation_time_decimal : Q)
    (street : list nat) (idx : nat) :
  (In idx (Pipeline.day_and_time_candidates
             m citation_weekday citation_time_decimal street) <->
   In idx street /\
  exists s, Pipeline.schedules m !! idx = Some s /\
    weekday (Pipeline.row s) = citation_weekday /\
    (inject_Z (scheduled_from_hour (Pipeline.row s)) <= citation_time_decimal)%Q /\
    (citation_time_decimal <= inject_Z (scheduled_to_hour (Pipeline.row s)))%Q) /\
  (forall (c : citation) (d : day) (hour minute : Z),
     datetime c = Timestamp d hour minute ->
     Pipeline.citation_time c = (d, (inject_Z hour + inject_Z minute / 60)%Q)).
Proof.
  split.
  - unfold Pipeline.day_and_time_candidates. rewrite List.filter_In.
    split.
    + intros [Hin H]. split; [exact Hin|].
      destruct (Pipeline.schedules m !! idx) as [s|]; [|discriminate].
      exists s. split; [reflexivity|].
      apply PipelineFacts.day_and_time_matches_iff. exact H.
    + intros [Hin [s [Hs H]]]. split; [exact Hin|]. rewrite Hs.
      apply PipelineFacts.day_and_time_matches_iff. exact H.
  - intros c d hour minute H. unfold Pipeline.citation_time. rewrite H.
    reflexivity.
Qed.

(** C1, the claim as written fails: a citation at exactly 10:00 on the
    Tuesday rule with the window from 8 to 10 is kept by the stage, although
    its time is not below the end of the window. *)
Lemma temporal_upper_bound_is_inclusive :
  In 0%nat
    (Pipeline.day_and_time_candidates PipelineFacts.one_rule_matcher
       (fst (Pipeline.citation_time (PipelineFacts.citation_at 10 0)))
       (snd (Pipeline.citation_time (PipelineFacts.citation_at 10 0)))
       [0%nat]) /\
  ~ (snd (Pipeline.citation_time (PipelineFacts.citation_at 10 0)) <
     inject_Z (scheduled_to_hour PipelineFacts.rule_8_10))%Q.
Proof.
  split.
  - vm_compute. left. reflexivity.
  - vm_compute. intros H. discriminate H.
Qed.

(** The matcher as the composition of its four stages: the early returns
    on an empty stage agree with filtering an empty list. *)
Lemma hybrid_match_citation_stages
    (geodesic : point -> point -> Q) (m : Pipeline.matcher) (c : citation) :
  Pipeline.hybrid_match_citation geodesic m c =
  Pipeline.sort_by_distance
    (Pipeline.distance_matches geodesic m c
       (Pipeline.day_and_time_candidates m
          (fst (Pipeline.citation_time c)) (snd (Pipeline.citation_time c))
          (Pipeline.street_candidates m (Matcher.normalize (address c))
             (Pipeline.spatial_candidates m (latitude c) (longitude c))))).
Proof.
  unfold Pipeline.hybrid_match_citation.
  change (Matcher.normalize_street_name
            (Matcher.extract_street_from_address (address c)))
    with (Matcher.normalize (address c)).
  set (spatial := Pipeline.spatial_candidates m (latitude c) (longitude c)).
  set (token := Matcher.normalize (address c)).
  case_bool_decide as Hs.
  - rewrite Hs. unfold Pipeline.street_candidates.
    rewrite elements_empty. destruct token; reflexivity.
  - destruct (Pipeline.street_candidates m token spatial) as [|i street] eqn:E;
      [reflexivity|].
    destruct (Pipeline.citation_time c) as [wd t]. cbn [fst snd].
    destruct (Pipeline.day_and_time_candidates m wd t (i :: street)); reflexivity.
Qed.

(** C10.  When the normalised street token of the citation is the empty
    string, the street stage returns every spatial candidate, and the
    matcher hands all of them to the day-and-time stage. *)
Theorem empty_token_keeps_spatial_candidates
    (geodesic : point -> point -> Q) (m : Pipeline.matcher) (c : citation) :
  Matcher.normalize (address c) = [] ->
  Pipeline.street_candidates m (Matcher.normalize (address c))
    (Pipeline.spatial_candidates m (latitude c) (longitude c)) =
  elements (Pipeline.spatial_candidates m (latitude c) (longitude c)) /\
  Pipeline.hybrid_match_citation geodesic m c =
  Pipeline.sort_by_distance
    (Pipeline.distance_matches geodesic m c
       (Pipeline.day_and_time_candidates m
          (fst (Pipeline.citation_time c)) (snd (Pipeline.citation_time c))
          (elements (Pipeline.spatial_candidates m (latitude c) (longitude c))))).
Proof.
  intros H. rewrite hybrid_match_citation_stages, H. split; reflexivity.
Qed.

(** With a token, the street stage keeps the candidates whose normalised
    corridor contains the token, is contained in it, or equals it. *)
Lemma street_stage_with_token
    (m : Pipeline.matcher) (token : PyStr.t) (spatial : gset nat) (idx : nat) :
  token <> [] ->
  (In idx (Pipeline.street_candidates m token spatial) <->
   idx ∈ spatial /\
   exists s, Pipeline.schedules m !! idx = Some s /\
     Pipeline.street_matches token (Pipeline.normalized_corridor s) = true).
Proof.
  intros Hne. destruct token as [|a token]; [congruence|].
  unfold Pipeline.street_candidates. rewrite List.filter_In.
  rewrite <- list_elem_of_In, elem_of_elements.
  split.
  - intros [Hin H]. split; [exact Hin|].
    destruct (Pipeline.schedules m !! idx) as [s|]; [|discriminate].
    exists s. split; [reflexivity|exact H].
  - intros [Hin [s [Hs H]]]. split; [exact Hin|]. rewrite Hs. exact H.
Qed.

Lemma empty_token_keeps_spatial_candidates_witness :
  Matcher.normalize (address PipelineFacts.blank_address_citation) = [] /\
  length (Pipeline.hybrid_match_citation Geodesic.flat_distance
            PipelineFacts.one_rule_matcher PipelineFacts.blank_address_citation) = 1%nat.
Proof.
  split; [vm_compute; reflexivity|].
  rewrite (proj2 (empty_token_keeps_spatial_candidates Geodesic.flat_distance
                    PipelineFacts.one_rule_matcher PipelineFacts.blank_address_citation
                    ltac:(vm_compute; reflexivity))).
  vm_compute. reflexivity.
Defined.

Example spatial_candidates_of_the_rule :
  elements (Pipeline.spatial_candidates PipelineFacts.one_rule_matcher
       (37760 # 1000) (-(122420 # 1000))) = [0%nat].
Proof. vm_compute. reflexivity. Qed.

(** ** The distance of a citation to a schedule line *)

Module DistanceFacts.

Lemma distance_leb_refl (a : distance) : distance_leb a a = true.
Proof. destruct a; simpl; [apply Qle_bool_iff, Qle_refl|reflexivity]. Qed.

Lemma distance_leb_trans (a b c : distance) :
  distance_leb a b = true -> distance_leb b c = true -> distance_leb a c = true.
Proof.
  destruct a, b, c; simpl; try congruence.
  rewrite !Qle_bool_iff. apply Qle_trans.
Qed.

Lemma distance_leb_total (a b : distance) :
  distance_leb a b = false -> distance_leb b a = true.
Proof.
  destruct a, b; simpl; try congruence.
  intros H. apply Qle_bool_iff. apply Qlt_le_weak, Qnot_le_lt.
  intros Hle. apply Qle_bool_iff in Hle. congruence.
Qed.

Lemma distance_min_case (a b : distance) :
  (distance_leb a b = true /\ distance_min a b = a) \/
  (distance_leb a b = false /\ distance_min a b = b).
Proof.
  unfold distance_min, distance_ltb.
  destruct (distance_leb a b); [left|right]; split; reflexivity.
Qed.

Lemma distance_min_le_l (a b : distance) : distance_leb (distance_min a b) a = true.
Proof.
  destruct (distance_min_case a b) as [[_ ->]|[H ->]];
    [apply distance_leb_refl|apply distance_leb_total, H].
Qed.

Lemma distance_min_le_r (a b : distance) : distance_leb (distance_min a b) b = true.
Proof.
  destruct (distance_min_case a b) as [[H ->]|[_ ->]];
    [exact H|apply distance_leb_refl].
Qed.

Section VertexLoop.

Variable geodesic : point -> point -> Q.
Variable p : point.

(** The loop of [calculate_distance_to_schedule] from an arbitrary
    running minimum. *)
Definition vertex_loop (coords : list point) (acc : distance) : distance :=
  fold_left (fun m c => distance_min m (Meters (geodesic p c))) coords acc.

Lemma vertex_loop_lower (coords : list point) (acc : distance) :
  distance_leb (vertex_loop coords acc) acc = true /\
  forall v, In v coords ->
    distance_leb (vertex_loop coords acc) (Meters (geodesic p v)) = true.
Proof.
  revert acc. induction coords as [|c coords IH]; intros acc; simpl.
  - split; [apply distance_leb_refl|tauto].
  - destruct (IH (distance_min acc (Meters (geodesic p c)))) as [H1 H2].
    split.
    + eapply distance_leb_trans; [exact H1|apply distance_min_le_l].
    + intros v [<-|Hv]; [|exact (H2 v Hv)].
      eapply distance_leb_trans; [exact H1|apply distance_min_le_r].
Qed.

Lemma vertex_loop_attained (coords : list point) (acc : distance) :
  vertex_loop coords acc = acc \/
  exists v, In v coords /\ vertex_loop coords acc = Meters (geodesic p v).
Proof.
  revert acc. induction coords as [|c coords IH]; intros acc; simpl.
  - left. reflexivity.
  - destruct (IH (distance_min acc (Meters (geodesic p c)))) as [E|[v [Hv E]]].
    + destruct (distance_min_case acc (Meters (geodesic p c))) as [[_ M]|[_ M]];
        rewrite M in E |- *.
      * left. exact E.
      * right. exists c. split; [left; reflexivity|exact E].
    + right. exists v. split; [right; exact Hv|exact E].
Qed.

Lemma calculate_distance_is_vertex_loop (coords : list point) :
  Pipeline.calculate_distance_to_schedule geodesic p coords =
  vertex_loop coords Infinite.
Proof. destruct coords; reflexivity. Qed.

End VertexLoop.

Lemma min_of_le (d : Q) (ds : list Q) :
  (ArchiveDistance.min_of d ds <= d)%Q /\
  forall x, In x ds -> (ArchiveDistance.min_of d ds <= x)%Q.
Proof.
  unfold ArchiveDistance.min_of. revert d.
  induction ds as [|y ds IH]; intros d; simpl.
  - split; [apply Qle_refl|tauto].
  - destruct (Qle_bool d y) eqn:E.
    + apply Qle_bool_iff in E. destruct (IH d) as [H1 H2]. split; [exact H1|].
      intros x [<-|Hx]; [eapply Qle_trans; eauto|auto].
    + assert (y <= d)%Q as Hyd.
      { apply Qlt_le_weak, Qnot_le_lt. intros H.
        apply Qle_bool_iff in H. congruence. }
      destruct (IH y) as [H1 H2]. split; [eapply Qle_trans; eauto|].
      intros x [<-|Hx]; [exact H1|auto].
Qed.

Lemma laws_flat_distance : Geodesic.laws Geodesic.flat_distance.
Proof.
  split; unfold Geodesic.flat_distance.
  - intros p q H1 H2. rewrite H1, H2.
    assert (fst q - fst q == 0)%Q as -> by ring.
    assert (snd q - snd q == 0)%Q as -> by ring. reflexivity.
  - intros p q H.
    apply Qlt_le_trans with (Qabs (fst p - fst q) + 0)%Q.
    + rewrite Qplus_0_r.
      destruct (Qle_lt_or_eq _ _ (Qabs_nonneg (fst p - fst q))) as [Hlt|Heq];
        [exact Hlt|].
      exfalso. apply H.
      pose proof (Qle_Qabs (fst p - fst q)) as H1.
      pose proof (Qle_Qabs (- (fst p - fst q))) as H2.
      rewrite Qabs_opp in H2. lra.
    + apply Qplus_le_r, Qabs_nonneg.
Qed.

End DistanceFacts.

(** C9, as the code has it.  The distance of the production matcher is the
    smallest geodesic distance from the citation to a vertex of the
    polyline (infinite for an empty polyline): it is attained at a vertex
    and is below the distance to every vertex.  A candidate gives a match
    exactly when this distance is at most [max_distance_meters]. *)
Theorem distance_stage_metric
    (geodesic : point -> point -> Q) (p : point) (coords : list point)
    (m : Pipeline.matcher) (c : citation) (idx : nat) :
  match coords with
  | [] => Pipeline.calculate_distance_to_schedule geodesic p coords = Infinite
  | _ => exists v, In v coords /\
           Pipeline.calculate_distance_to_schedule geodesic p coords =
           Meters (geodesic p v)
  end /\
  (forall v, In v coords ->
     distance_leb (Pipeline.calculate_distance_to_schedule geodesic p coords)
                  (Meters (geodesic p v)) = true) /\
  (is_Some (Pipeline.distance_match geodesic m c idx) <->
   exists s, Pipeline.schedules m !! idx = Some s /\
     distance_leb
       (Pipeline.calculate_distance_to_schedule geodesic
          (latitude c, longitude c) (Pipeline.parsed_coords s))
       (Meters (Pipeline.max_distance_meters (Pipeline.cfg m))) = true).
Proof.
  split; [|split].
  - destruct coords as [|v0 coords]; [reflexivity|].
    rewrite DistanceFacts.calculate_distance_is_vertex_loop.
    destruct (DistanceFacts.vertex_loop_attained geodesic p (v0 :: coords) Infinite)
      as [E|H]; [|exact H].
    exfalso.
    pose proof (proj2 (DistanceFacts.vertex_loop_lower geodesic p
                         (v0 :: coords) Infinite) v0 (or_introl eq_refl)) as L.
    rewrite E in L. discriminate L.
  - rewrite DistanceFacts.calculate_distance_is_vertex_loop.
    apply DistanceFacts.vertex_loop_lower.
  - unfold Pipeline.distance_match.
    destruct (Pipeline.schedules m !! idx) as [s|].
    + destruct (distance_leb _ _) eqn:E.
      * split; [intros _; exists s; auto|intros _; eexists; reflexivity].
      * split; [intros [x Hx]; discriminate|].
        intros [s' [Hs H]]. injection Hs as <-. congruence.
    + split; [intros [x Hx]; discriminate|].
      intros [s' [Hs _]]. discriminate.
Qed.

(** C9, the claim as written fails.  Whatever the geodesic distance is,
    as long as it obeys [Geodesic.laws], the distance of the production
    matcher is not the minimum over the five sample points of each
    segment: for the citation at (37.5, -122) and the segment from
    (37, -122) to (38, -122) the sample at one half is the citation itself,
    while both vertices are half a degree away. *)
Lemma vertex_distance_is_not_the_sampled_distance :
  ~ exists geodesic : point -> point -> Q,
      Geodesic.laws geodesic /\
      forall (p : point) (coords : list point),
        (2 <= length coords)%nat ->
        Geodesic.distance_eq
          (Pipeline.calculate_distance_to_schedule geodesic p coords)
          (ArchiveDistance.calculate_distance_to_schedule geodesic p coords).
Proof.
  intros [g [[Hzero Hpos] H]].
  set (p := ((375 # 10), -(122 # 1))%Q : point).
  set (v0 := ((37 # 1), -(122 # 1))%Q : point).
  set (v1 := ((38 # 1), -(122 # 1))%Q : point).
  specialize (H p [v0; v1] ltac:(simpl; lia)).
  assert (0 < g p v0)%Q as P0 by (apply Hpos; vm_compute; discriminate).
  assert (0 < g p v1)%Q as P1 by (apply Hpos; vm_compute; discriminate).
  assert (g p (ArchiveDistance.interpolate v0 v1 (1 # 2)) == 0)%Q as Z
    by (apply Hzero; vm_compute; reflexivity).
  cbn [Pipeline.calculate_distance_to_schedule fold_left] in H.
  cbn [ArchiveDistance.calculate_distance_to_schedule
         ArchiveDistance.segments_min] in H.
  unfold ArchiveDistance._point_to_line_segment_distance in H.
  change (point_eqb v0 v1) with false in H. cbn iota in H.
  match type of H with
  | context [ArchiveDistance.min_of ?d ?ds] =>
      pose proof (proj2 (DistanceFacts.min_of_le d ds)
                    (g p (ArchiveDistance.interpolate v0 v1 (1 # 2)))
                    ltac:(simpl; tauto)) as L;
      set (sampled := ArchiveDistance.min_of d ds) in *
  end.
  change (distance_min Infinite (Meters sampled)) with (Meters sampled) in H.
  change (distance_min Infinite (Meters (g p v0))) with (Meters (g p v0)) in H.
  destruct (DistanceFacts.distance_min_case (Meters (g p v0)) (Meters (g p v1)))
    as [[_ M]|[_ M]]; rewrite M in H; simpl in H; lra.
Qed.

(** ** Rounding to binary64 *)

Module FloatFacts.

Import Float.

Lemma pow2_pos (e : Z) : (0 < pow2 e)%Q.
Proof. apply Qpower_0_lt. reflexivity. Qed.

Lemma pow2_add (a b : Z) : (pow2 (a + b) == pow2 a * pow2 b)%Q.
Proof. apply Qpower_plus. discriminate. Qed.

Lemma pow2_Z (n : Z) : 0 <= n -> (inject_Z (2 ^ n) == pow2 n)%Q.
Proof. intros H. apply (Zpower_Qpower 2 n H). Qed.

(** [ilog2] does not overshoot. *)
Lemma ilog2_lower (x : Q) : (0 < x)%Q -> (pow2 (ilog2 x) <= x)%Q.
Proof.
  intros Hx. unfold ilog2.
  destruct (Qle_bool _ x) eqn:E; [apply Qle_bool_iff, E|].
  destruct x as [n d]. cbn [Qnum Qden].
  assert (0 < n) as Hn by (unfold Qlt in Hx; simpl in Hx; lia).
  pose proof (Z.log2_spec n Hn) as [Hn1 _].
  pose proof (Z.log2_spec (Z.pos d) ltac:(lia)) as [_ Hd2].
  pose proof (Z.log2_nonneg n). pose proof (Z.log2_nonneg (Z.pos d)).
  replace (Z.log2 n - Z.log2 (Z.pos d) - 1)
    with (Z.log2 n + - (Z.succ (Z.log2 (Z.pos d)))) by lia.
  rewrite pow2_add. unfold pow2 at 2. rewrite Qpower_opp.
  fold (pow2 (Z.succ (Z.log2 (Z.pos d)))).
  rewrite <- !pow2_Z by lia.
  set (A := 2 ^ Z.log2 n) in *. set (B := 2 ^ Z.succ (Z.log2 (Z.pos d))) in *.
  assert (0 < B) by lia.
  rewrite (Qmake_Qdiv n d).
  apply Qle_shift_div_l; [change 0%Q with (inject_Z 0); rewrite <- Zlt_Qlt; lia|].
  assert (inject_Z A * / inject_Z B * inject_Z (Z.pos d) ==
          inject_Z (A * Z.pos d) / inject_Z B)%Q as ->.
  { rewrite inject_Z_mult. field.
    intros E0. revert E0. unfold Qeq. simpl. lia. }
  apply Qle_shift_div_r; [change 0%Q with (inject_Z 0); rewrite <- Zlt_Qlt; lia|].
  rewrite <- inject_Z_mult, <- Zle_Qle. nia.
Qed.

(** Rounding to an integer moves a number by a half at most. *)
Lemma rint_close (x : Q) : (Qabs (inject_Z (rint x) - x) <= 1 # 2)%Q.
Proof.
  unfold rint. pose proof (Qfloor_le x) as H1. pose proof (Qlt_floor x) as H2.
  rewrite inject_Z_plus in H2. change (inject_Z 1) with 1%Q in H2.
  apply Qabs_Qle_condition.
  destruct (Qcompare (x - inject_Z (Qfloor x)) (1 # 2)) eqn:E.
  - apply Qeq_alt in E. destruct (Z.even (Qfloor x));
      rewrite ?inject_Z_plus; change (inject_Z 1) with 1%Q; split; lra.
  - apply Qlt_alt in E. split; lra.
  - apply Qgt_alt in E. rewrite inject_Z_plus. change (inject_Z 1) with 1%Q.
    split; lra.
Qed.

Lemma Qabs_positive (x : Q) : ~ (x == 0)%Q -> (0 < Qabs x)%Q.
Proof.
  intros Hx. destruct (Qlt_le_dec 0 (Qabs x)) as [H|H]; [exact H|].
  exfalso. apply Hx. apply Qabs_Qle_condition in H. lra.
Qed.

(** The error of one rounding: relative [u], or [eta] for a subnormal
    result. *)
Lemma round_close (x : Q) : (Qabs (round x - x) <= u * Qabs x + eta)%Q.
Proof.
  pose proof (pow2_pos (-53)) as Hu. pose proof (pow2_pos (-1075)) as He.
  fold u in Hu. fold eta in He.
  pose proof (Qabs_nonneg x) as Hax.
  unfold round. destruct (Qeq_bool x 0) eqn:E0.
  - apply Qeq_bool_iff in E0.
    assert (Qabs (0 - x) == 0)%Q as ->.
    { rewrite E0. reflexivity. }
    nra.
  - assert (~ x == 0)%Q as Hx0.
    { intros H. apply Qeq_bool_iff in H. congruence. }
    pose proof (Qabs_positive x Hx0) as Hpos.
    set (e := Z.max (ilog2 (Qabs x)) (-1022)).
    set (ulp := pow2 (e - 52)).
    assert (0 < ulp)%Q as Hulp by apply pow2_pos.
    pose proof (rint_close (x / ulp)) as Hr.
    set (m := inject_Z (rint (x / ulp))) in *.
    assert (m * ulp - x == (m - x / ulp) * ulp)%Q as -> by (field; lra).
    rewrite Qabs_Qmult, (Qabs_pos ulp) by lra.
    assert (ulp * (1 # 2) == pow2 (e - 53))%Q as Hhalf.
    { replace (e - 53) with ((e - 52) + -1) by lia. rewrite pow2_add.
      reflexivity. }
    assert (pow2 (e - 53) <= u * Qabs x + eta)%Q as Hb.
    { unfold e. destruct (Z.max_spec (ilog2 (Qabs x)) (-1022)) as [[_ ->]|[_ ->]].
      - change (-1022 - 53) with (-1075). fold eta. nra.
      - replace (ilog2 (Qabs x) - 53) with (ilog2 (Qabs x) + -53) by lia.
        rewrite pow2_add. fold u.
        pose proof (ilog2_lower (Qabs x) Hpos). nra. }
    assert (Qabs (m - x / ulp) * ulp <= ulp * (1 # 2))%Q by nra.
    lra.
Qed.

(** The same for a number of bounded magnitude. *)
Lemma round_near (x B : Q) :
  (Qabs x <= B)%Q ->
  (Qabs (round x - x) <= u * B + eta)%Q /\ (Qabs (round x) <= B + (u * B + eta))%Q.
Proof.
  intros HB. pose proof (round_close x) as H.
  pose proof (pow2_pos (-53)) as Hu. fold u in Hu.
  assert (Qabs (round x - x) <= u * B + eta)%Q as H1 by nra.
  split; [exact H1|].
  apply Qabs_Qle_condition in H1. apply Qabs_Qle_condition in HB.
  apply Qabs_Qle_condition. lra.
Qed.

(** Two rounded quotients by [g] are at most [r] apart when the dividends
    are [r * g] apart with room for the two roundings. *)
Lemma quotients_close (x y g B : Q) (r : Z) :
  (0 < g)%Q -> (g <= 1000000)%Q ->
  (Qabs x <= B)%Q -> (Qabs y <= B)%Q ->
  (Qabs (x - y) + 2 * (u * B + eta * 1000000) <= inject_Z r * g)%Q ->
  (Qabs (div x g - div y g) <= inject_Z r)%Q.
Proof.
  intros Hg Hg' Hx Hy H. unfold div.
  pose proof (pow2_pos (-53)) as Hu. pose proof (pow2_pos (-1075)) as He.
  fold u in Hu. fold eta in He.
  assert (forall z, (Qabs z <= B)%Q ->
            (Qabs (round (z / g) * g - z) <= u * B + eta * 1000000)%Q) as Hone.
  { intros z Hz. pose proof (round_close (z / g)) as Hr.
    assert (round (z / g) * g - z == (round (z / g) - z / g) * g)%Q as ->
      by (field; lra).
    rewrite Qabs_Qmult, (Qabs_pos g) by lra.
    assert (Qabs (z / g) * g == Qabs z)%Q as Hq.
    { rewrite <- (Qabs_pos g) at 2 by lra. rewrite <- Qabs_Qmult.
      apply Qabs_wd. field. lra. }
    pose proof (Qabs_nonneg (z / g)).
    assert (Qabs (round (z / g) - z / g) * g <= u * (Qabs (z / g) * g) + eta * g)%Q
      by nra.
    rewrite Hq in *. nra. }
  pose proof (Hone x Hx) as Ex. pose proof (Hone y Hy) as Ey.
  set (a := round (x / g)) in *. set (b := round (y / g)) in *.
  apply Qabs_Qle_condition in Ex, Ey.
  assert (Qabs (x - y) <= inject_Z r * g - 2 * (u * B + eta * 1000000))%Q as H'
    by lra.
  apply Qabs_Qle_condition in H'.
  apply Qabs_Qle_condition. split.
  - assert (- inject_Z r * g <= (a - b) * g)%Q by lra. nra.
  - assert ((a - b) * g <= inject_Z r * g)%Q by lra. nra.
Qed.

(** The float projections against the exact ones, for coordinates in
    degrees. *)
Lemma lat_meters_near (lat : Q) :
  (Qabs lat <= 90)%Q ->
  (Qabs (Pipeline.lat_meters lat - lat * 111000) <= 1 # 100000000)%Q /\
  (Qabs (Pipeline.lat_meters lat) <= 10000000)%Q.
Proof.
  intros H. unfold Pipeline.lat_meters, mul.
  assert (Qabs (lat * 111000) <= 9990000)%Q as HB.
  { rewrite Qabs_Qmult. change (Qabs 111000) with 111000%Q.
    pose proof (Qabs_nonneg lat). lra. }
  destruct (round_near _ _ HB) as [H1 H2].
  assert (u * 9990000 + eta <= 1 # 100000000)%Q as Hc
    by (vm_compute; discriminate).
  split; lra.
Qed.

Lemma lon_meters_near (lon : Q) :
  (Qabs lon <= 180)%Q ->
  (Qabs (Pipeline.lon_meters lon - lon * 111000 * (794 # 1000))
     <= 1 # 100000000)%Q /\
  (Qabs (Pipeline.lon_meters lon) <= 20000000)%Q.
Proof.
  intros H. unfold Pipeline.lon_meters, mul, lit.
  assert (Qabs (lon * 111000) <= 19980000)%Q as HB.
  { rewrite Qabs_Qmult. change (Qabs 111000) with 111000%Q.
    pose proof (Qabs_nonneg lon). lra. }
  destruct (round_near _ _ HB) as [H1 H2].
  set (m := round (lon * 111000)) in *.
  set (c := round (794 # 1000)).
  assert (Qabs (c - (794 # 1000)) <= 1 # 10000000000000000)%Q as Hc
    by (vm_compute; discriminate).
  assert (0 <= c <= 1)%Q as Hc01 by (split; vm_compute; discriminate).
  assert (u * 19980000 + eta <= 3 # 1000000000)%Q as He1
    by (vm_compute; discriminate).
  assert (Qabs m <= 19980001)%Q as Hm by lra.
  assert (Qabs (m * c) <= 19980001)%Q as Hmc.
  { rewrite Qabs_Qmult, (Qabs_pos c) by lra. pose proof (Qabs_nonneg m). nra. }
  destruct (round_near _ _ Hmc) as [H3 H4].
  assert (u * 19980001 + eta <= 3 # 1000000000)%Q as He2
    by (vm_compute; discriminate).
  assert (Qabs (m * c - lon * 111000 * (794 # 1000)) <= 5 # 1000000000)%Q as H5.
  { assert (m * c - lon * 111000 * (794 # 1000)
            == m * (c - (794 # 1000)) + (794 # 1000) * (m - lon * 111000))%Q
      as -> by ring.
    eapply Qle_trans; [apply Qabs_triangle|].
    rewrite !Qabs_Qmult. change (Qabs (794 # 1000)) with (794 # 1000)%Q.
    pose proof (Qabs_nonneg m). pose proof (Qabs_nonneg (c - (794 # 1000))).
    pose proof (Qabs_nonneg (m - lon * 111000)). nra. }
  split.
  - assert (round (m * c) - lon * 111000 * (794 # 1000)
            == (round (m * c) - m * c) + (m * c - lon * 111000 * (794 # 1000)))%Q
      as -> by ring.
    eapply Qle_trans; [apply Qabs_triangle|]. lra.
  - lra.
Qed.

(** What the code computes at the values 37.3 and -122.4396941021626,
    -122.43855946626726 with cells of 100 m. *)
Example cell_of_37_3 :
  fst (Pipeline.lat_lon_to_grid Pipeline.default_config (lit (373 # 10)) 0)
  = 41402.
Proof. vm_compute. reflexivity. Qed.

Example cells_two_apart :
  snd (Pipeline.lat_lon_to_grid Pipeline.default_config 0
         (lit (-(1224396941021626 # 10000000000000)))) = -107911 /\
  snd (Pipeline.lat_lon_to_grid Pipeline.default_config 0
         (lit (-(12243855946626726 # 100000000000000)))) = -107909.
Proof. vm_compute. split; reflexivity. Qed.

End FloatFacts.

(** ** The spatial grid *)

Module GridFacts.

Import Pipeline.

Lemma Qtrunc_nonneg (x : Q) : (0 <= x)%Q -> Qtrunc x = Qfloor x.
Proof.
  destruct x as [n d]. unfold Qle, Qtrunc, Qfloor. simpl. intros H.
  apply Z.quot_div_nonneg; lia.
Qed.

Lemma Qtrunc_nonpos (x : Q) : (x <= 0)%Q -> Qtrunc x = Qceiling x.
Proof.
  destruct x as [n d]. unfold Qle, Qtrunc, Qceiling, Qfloor. simpl. intros H.
  rewrite <- (Z.quot_div_nonneg (- n) (Z.pos d)) by lia.
  rewrite Z.quot_opp_l by lia. lia.
Qed.

Lemma Qfloor_unique (n : Z) (x : Q) :
  (inject_Z n <= x)%Q -> (x < inject_Z (n + 1))%Q -> Qfloor x = n.
Proof.
  intros H1 H2. apply Z.le_antisymm.
  - assert (inject_Z (Qfloor x) < inject_Z (n + 1))%Q as H
      by (eapply Qle_lt_trans; [apply Qfloor_le|exact H2]).
    rewrite <- Zlt_Qlt in H. lia.
  - rewrite <- (Qfloor_Z n). apply Qfloor_resp_le. exact H1.
Qed.

Lemma Qfloor_add_Z (x : Q) (r : Z) : Qfloor (x + inject_Z r) = Qfloor x + r.
Proof.
  apply Qfloor_unique.
  - rewrite inject_Z_plus. apply Qplus_le_l, Qfloor_le.
  - replace (Qfloor x + r + 1) with ((Qfloor x + 1) + r) by lia.
    rewrite inject_Z_plus. apply Qplus_lt_l, Qlt_floor.
Qed.

Lemma Qceiling_add_Z (x : Q) (r : Z) : Qceiling (x + inject_Z r) = Qceiling x + r.
Proof.
  unfold Qceiling.
  rewrite (Qfloor_comp (- (x + inject_Z r)) (- x + inject_Z (- r))).
  - rewrite Qfloor_add_Z. lia.
  - rewrite inject_Z_opp. ring.
Qed.

Lemma Qfloor_le_ceiling (x : Q) : Qfloor x <= Qceiling x.
Proof. rewrite Zle_Qle. apply Qle_floor_ceiling. Qed.

Lemma Qtrunc_mono (x y : Q) : (x <= y)%Q -> Qtrunc x <= Qtrunc y.
Proof.
  intros H. destruct (Qlt_le_dec x 0) as [Hx|Hx].
  - rewrite (Qtrunc_nonpos x) by lra.
    destruct (Qlt_le_dec y 0) as [Hy|Hy].
    + rewrite (Qtrunc_nonpos y) by lra. apply Qceiling_resp_le, H.
    + rewrite (Qtrunc_nonneg y Hy).
      pose proof (Qceiling_resp_le x 0 ltac:(lra)) as Hc.
      pose proof (Qfloor_resp_le 0 y Hy) as Hf.
      change (Qceiling 0) with 0 in Hc. change (Qfloor 0) with 0 in Hf. lia.
  - rewrite (Qtrunc_nonneg x Hx), (Qtrunc_nonneg y) by lra.
    apply Qfloor_resp_le, H.
Qed.

Lemma Qtrunc_shift (x : Q) (r : Z) :
  0 <= r -> Qtrunc (x + inject_Z r) <= Qtrunc x + r.
Proof.
  intros Hr. assert (0 <= inject_Z r)%Q as Hr'.
  { change 0%Q with (inject_Z 0). rewrite <- Zle_Qle. exact Hr. }
  destruct (Qlt_le_dec x 0) as [Hx|Hx].
  - rewrite (Qtrunc_nonpos x) by lra.
    destruct (Qlt_le_dec (x + inject_Z r) 0) as [Hs|Hs].
    + rewrite Qtrunc_nonpos by lra. rewrite Qceiling_add_Z. lia.
    + rewrite (Qtrunc_nonneg _ Hs), Qfloor_add_Z.
      pose proof (Qfloor_le_ceiling x). lia.
  - rewrite (Qtrunc_nonneg x Hx), Qtrunc_nonneg by lra.
    rewrite Qfloor_add_Z. lia.
Qed.

Lemma Qtrunc_close (x y : Q) (r : Z) :
  0 <= r -> (x <= y)%Q -> (y <= x + inject_Z r)%Q ->
  0 <= Qtrunc y - Qtrunc x <= r.
Proof.
  intros Hr H1 H2.
  pose proof (Qtrunc_mono x y H1).
  pose proof (Qtrunc_mono y _ H2).
  pose proof (Qtrunc_shift x r Hr). lia.
Qed.

(** Two numbers at most [r] apart truncate to integers at most [r] apart. *)
Lemma Qtrunc_within (x y : Q) (r : Z) :
  0 <= r -> (Qabs (x - y) <= inject_Z r)%Q ->
  - r <= Qtrunc y - Qtrunc x <= r.
Proof.
  intros Hr H. apply Qabs_diff_Qle_condition in H. destruct H as [H1 H2].
  destruct (Qlt_le_dec y x) as [Hyx|Hxy].
  - pose proof (Qtrunc_close y x r Hr ltac:(lra) ltac:(lra)). lia.
  - pose proof (Qtrunc_close x y r Hr Hxy H2). lia.
Qed.

Lemma radius_nonneg (g bound : Q) (r : Z) :
  (0 < g)%Q -> (0 <= bound)%Q -> (bound <= inject_Z r * g)%Q -> 0 <= r.
Proof.
  intros Hg Hb H. destruct (Z_lt_le_dec r 0) as [Hr|Hr]; [|exact Hr].
  exfalso. assert (inject_Z r <= inject_Z (-1))%Q as Hq
    by (rewrite <- Zle_Qle; lia).
  change (inject_Z (-1)) with (-1)%Q in Hq. nra.
Qed.

Lemma In_offsets (r d : Z) : In d (offsets r) <-> - r <= d <= r.
Proof.
  unfold offsets. rewrite in_map_iff. split.
  - intros [k [<- Hk]]. apply in_seq in Hk. lia.
  - intros H. exists (Z.to_nat (d + r)). split; [lia|]. apply in_seq. lia.
Qed.

(** The union over a list of cells. *)
Lemma elem_of_foldl_union {A} (f : A -> gset nat) (l : list A)
    (acc : gset nat) (x : nat) :
  x ∈ foldl (fun acc d => acc ∪ f d) acc l <->
  x ∈ acc \/ exists d, In d l /\ x ∈ f d.
Proof.
  revert acc. induction l as [|a l IH]; intros acc; simpl.
  - split; [auto|]. intros [H|[d [[] _]]]. exact H.
  - rewrite IH, elem_of_union. split.
    + intros [[H|H]|[d [Hd H]]]; [auto|right; exists a; auto|right; exists d; auto].
    + intros [H|[d [[<-|Hd] H]]]; [auto|auto|right; exists d; auto].
Qed.

Lemma elem_of_foldl_union2 {A B} (f : A -> B -> gset nat) (l1 : list A)
    (l2 : list B) (acc : gset nat) (x : nat) :
  x ∈ foldl (fun acc a => foldl (fun acc b => acc ∪ f a b) acc l2) acc l1 <->
  x ∈ acc \/ exists a b, In a l1 /\ In b l2 /\ x ∈ f a b.
Proof.
  revert acc. induction l1 as [|a l1 IH]; intros acc; simpl.
  - split; [auto|]. intros [H|[a [b [[] _]]]]. exact H.
  - rewrite IH, elem_of_foldl_union. split.
    + intros [[H|[b [Hb H]]]|[a' [b [Ha [Hb H]]]]].
      * auto.
      * right. exists a, b. auto.
      * right. exists a', b. auto.
    + intros [H|[a' [b [[<-|Ha] [Hb H]]]]].
      * auto.
      * left. right. exists b. auto.
      * right. exists a', b. auto.
Qed.

(** Stage 1 returns the indices stored in the cells of the block. *)
Lemma elem_of_spatial_candidates (m : matcher) (lat lon : Q) (idx : nat) :
  idx ∈ spatial_candidates m lat lon <->
  exists dx dy,
    - grid_search_radius (cfg m) <= dx <= grid_search_radius (cfg m) /\
    - grid_search_radius (cfg m) <= dy <= grid_search_radius (cfg m) /\
    In idx (default [] (spatial_grid m !!
              ((lat_lon_to_grid (cfg m) lat lon).1 + dx,
               (lat_lon_to_grid (cfg m) lat lon).2 + dy))).
Proof.
  unfold spatial_candidates.
  destruct (lat_lon_to_grid (cfg m) lat lon) as [gx gy]. cbn [fst snd].
  rewrite (elem_of_foldl_union2
             (fun dx dy => list_to_set
                (default [] (spatial_grid m !! (gx + dx, gy + dy))))).
  split.
  - intros [H|[dx [dy [Hx [Hy H]]]]]; [set_solver|].
    exists dx, dy. rewrite <- !In_offsets.
    rewrite elem_of_list_to_set, list_elem_of_In in H. auto.
  - intros [dx [dy [Hx [Hy H]]]]. right. exists dx, dy.
    rewrite !In_offsets, elem_of_list_to_set, list_elem_of_In. auto.
Qed.

Lemma grid_append_same (cell : Z * Z) (idx : nat) (g : gmap (Z * Z) (list nat)) :
  In idx (default [] (grid_append cell idx g !! cell)).
Proof.
  unfold grid_append. rewrite lookup_insert_eq. simpl.
  apply in_or_app. right. left. reflexivity.
Qed.

Lemma grid_append_keeps (cell cell' : Z * Z) (idx i : nat)
    (g : gmap (Z * Z) (list nat)) :
  In i (default [] (g !! cell')) ->
  In i (default [] (grid_append cell idx g !! cell')).
Proof.
  unfold grid_append. intros H. destruct (decide (cell = cell')) as [->|Hne].
  - rewrite lookup_insert_eq. simpl. apply in_or_app. left. exact H.
  - rewrite lookup_insert_ne by exact Hne. exact H.
Qed.

Lemma build_grid_keeps (c : config) (l : list indexed_schedule) (start : nat)
    (g : gmap (Z * Z) (list nat)) (cell : Z * Z) (i : nat) :
  In i (default [] (g !! cell)) ->
  In i (default [] (build_grid c l start g !! cell)).
Proof.
  revert start g. induction l as [|s l IH]; intros start g H; simpl; [exact H|].
  apply IH. destruct (parsed_coords s) as [|[la lo] rest]; [exact H|].
  apply grid_append_keeps, H.
Qed.

(** Every schedule with a first vertex is stored in the cell of that
    vertex, under its position in the table. *)
Lemma build_grid_places (c : config) (l : list indexed_schedule) (start : nat)
    (g : gmap (Z * Z) (list nat)) (i : nat) (s : indexed_schedule)
    (la lo : Q) (rest : list point) :
  l !! i = Some s -> parsed_coords s = (la, lo) :: rest ->
  In (start + i)%nat
     (default [] (build_grid c l start g !! lat_lon_to_grid c la lo)).
Proof.
  revert start g i. induction l as [|s0 l IH]; intros start g i Hi Hs;
    [discriminate|].
  destruct i as [|i]; simpl in Hi |- *.
  - injection Hi as ->. rewrite Hs, Nat.add_0_r.
    apply build_grid_keeps, grid_append_same.
  - replace (start + S i)%nat with (S start + i)%nat by lia.
    apply IH; assumption.
Qed.

End GridFacts.

(** C2, as the code has it.  The index stores a schedule under the cell of
    its first vertex only, and the cells are computed in floating point.
    For coordinates in degrees (latitudes up to 90, longitudes up to 180 in
    absolute value) and cells between 1 m and 1000 km: when
    [max_distance_meters <= grid_search_radius * grid_size_meters] and the
    first vertex of a schedule is, on each axis of the flat projection
    ([lat * 111000] and [lon * 111000 * 0.794], as real numbers), at most
    [max_distance_meters] less a micrometre away from the query point, the
    schedule is among the spatial candidates.  The micrometre covers the
    rounding of the float operations. *)
Theorem grid_finds_near_first_vertex
    (c : Pipeline.config) (schedule_df : list schedule) (lat lon : Q)
    (idx : nat) (s : Pipeline.indexed_schedule) (vlat vlon : Q)
    (rest : list point) :
  (1 <= Pipeline.grid_size_meters c)%Q ->
  (Pipeline.grid_size_meters c <= 1000000)%Q ->
  (Pipeline.max_distance_meters c <=
   inject_Z (Pipeline.grid_search_radius c) * Pipeline.grid_size_meters c)%Q ->
  (Qabs lat <= 90)%Q -> (Qabs vlat <= 90)%Q ->
  (Qabs lon <= 180)%Q -> (Qabs vlon <= 180)%Q ->
  Pipeline.schedules (Pipeline.build_hybrid_index c schedule_df) !! idx = Some s ->
  Pipeline.parsed_coords s = (vlat, vlon) :: rest ->
  (Qabs (lat * 111000 - vlat * 111000) <=
   Pipeline.max_distance_meters c - (1 # 1000000))%Q ->
  (Qabs (lon * 111000 * (794 # 1000) - vlon * 111000 * (794 # 1000)) <=
   Pipeline.max_distance_meters c - (1 # 1000000))%Q ->
  idx ∈ Pipeline.spatial_candidates
          (Pipeline.build_hybrid_index c schedule_df) lat lon.
Proof.
  intros Hg1 Hg2 Hmax Hlat90 Hvlat90 Hlon180 Hvlon180 Hs Hv Hlat Hlon.
  set (g := Pipeline.grid_size_meters c) in *.
  set (maxd := Pipeline.max_distance_meters c) in *.
  set (r := Pipeline.grid_search_radius c) in *.
  assert (0 < g)%Q as Hg by lra.
  assert (0 <= r) as Hr.
  { apply (GridFacts.radius_nonneg g maxd); [exact Hg| |exact Hmax].
    pose proof (Qabs_nonneg (lat * 111000 - vlat * 111000)). lra. }
  assert (2 * (Float.u * 20000000 + Float.eta * 1000000) <= 1 # 10000000)%Q
    as Hround by (vm_compute; discriminate).
  pose proof (FloatFacts.pow2_pos (-53)) as Hu. fold Float.u in Hu.
  destruct (FloatFacts.lat_meters_near lat Hlat90) as [La Lb].
  destruct (FloatFacts.lat_meters_near vlat Hvlat90) as [Va Vb].
  destruct (FloatFacts.lon_meters_near lon Hlon180) as [Lc Ld].
  destruct (FloatFacts.lon_meters_near vlon Hvlon180) as [Vc Vd].
  assert (Qabs (Float.div (Pipeline.lat_meters lat) g
                - Float.div (Pipeline.lat_meters vlat) g) <= inject_Z r)%Q as Hx.
  { apply (FloatFacts.quotients_close _ _ g 20000000 r Hg Hg2); [lra|lra|].
    assert (Qabs (Pipeline.lat_meters lat - Pipeline.lat_meters vlat)
            <= maxd - (1 # 1000000) + (2 # 100000000))%Q.
    { apply Qabs_Qle_condition in La, Va, Hlat.
      apply Qabs_Qle_condition. lra. }
    lra. }
  assert (Qabs (Float.div (Pipeline.lon_meters lon) g
                - Float.div (Pipeline.lon_meters vlon) g) <= inject_Z r)%Q as Hy.
  { apply (FloatFacts.quotients_close _ _ g 20000000 r Hg Hg2); [lra|lra|].
    assert (Qabs (Pipeline.lon_meters lon - Pipeline.lon_meters vlon)
            <= maxd - (1 # 1000000) + (2 # 100000000))%Q.
    { apply Qabs_Qle_condition in Lc, Vc, Hlon.
      apply Qabs_Qle_condition. lra. }
    lra. }
  apply (GridFacts.Qtrunc_within _ _ _ Hr) in Hx, Hy.
  apply GridFacts.elem_of_spatial_candidates.
  cbn [Pipeline.build_hybrid_index Pipeline.cfg Pipeline.spatial_grid
         Pipeline.schedules] in Hs |- *.
  unfold Pipeline.lat_lon_to_grid at 1 2. cbn [fst snd]. fold g r.
  set (qx := Qtrunc (Float.div (Pipeline.lat_meters lat) g)) in *.
  set (qy := Qtrunc (Float.div (Pipeline.lon_meters lon) g)) in *.
  set (vx := Qtrunc (Float.div (Pipeline.lat_meters vlat) g)) in *.
  set (vy := Qtrunc (Float.div (Pipeline.lon_meters vlon) g)) in *.
  exists (vx - qx), (vy - qy). split; [lia|]. split; [lia|].
  replace (qx + (vx - qx), qy + (vy - qy)) with (Pipeline.lat_lon_to_grid c vlat vlon)
    by (unfold Pipeline.lat_lon_to_grid; fold g vx vy; f_equal; lia).
  exact (GridFacts.build_grid_places c _ 0 ∅ idx s vlat vlon rest Hs Hv).
Qed.

(** A query point some 55 m north and 44 m east of the first vertex of the
    rule. *)
Lemma grid_finds_near_first_vertex_witness :
  0%nat ∈ Pipeline.spatial_candidates
            (Pipeline.build_hybrid_index
               {| Pipeline.max_distance_meters := 100;
                  Pipeline.grid_size_meters := 100;
                  Pipeline.grid_search_radius := 1 |}
               [PipelineFacts.rule_8_10])
            (377605 # 10000) (-(1224195 # 10000)).
Proof.
  eapply (grid_finds_near_first_vertex
            {| Pipeline.max_distance_meters := 100;
               Pipeline.grid_size_meters := 100;
               Pipeline.grid_search_radius := 1 |}
            [PipelineFacts.rule_8_10] (377605 # 10000) (-(1224195 # 10000)) 0
            _ (37760 # 1000) (-(122420 # 1000)) _).
  - vm_compute. discriminate.
  - vm_compute. discriminate.
  - vm_compute. discriminate.
  - vm_compute. discriminate.
  - vm_compute. discriminate.
  - vm_compute. discriminate.
  - vm_compute. discriminate.
  - reflexivity.
  - reflexivity.
  - vm_compute. discriminate.
  - vm_compute. discriminate.
Defined.

(** A schedule whose line starts at (37.70, -122.42) and ends at
    (37.80, -122.42). *)
Definition long_rule : schedule :=
  {| schedule_id := 2000001; cnn := 2; corridor := py "Bayshore Blvd";
     limits := py "Start - End"; cnn_right_left := py "R";
     block_side := py "East"; weekday := Monday;
     scheduled_from_hour := 6; scheduled_to_hour := 8;
     week1 := 1; week2 := 1; week3 := 1; week4 := 1; week5 := 1;
     line := Some [((3770 # 100), -(12242 # 100));
                   ((3780 # 100), -(12242 # 100))]%Q |}.

(** C2, the claim as written fails.  Whatever the geodesic distance is, as
    long as it obeys [Geodesic.laws], the grid has false negatives: with
    [max_distance_meters = grid_search_radius * grid_size_meters = 100] a
    query at the last vertex of [long_rule] is at distance zero from its
    line, and the schedule is not among the spatial candidates, because it
    is stored under the cell of its first vertex, a tenth of a degree
    away. *)
Lemma grid_misses_line_far_from_first_vertex :
  ~ exists geodesic : point -> point -> Q,
      Geodesic.laws geodesic /\
      forall (c : Pipeline.config) (schedule_df : list schedule) (lat lon : Q)
             (idx : nat) (s : Pipeline.indexed_schedule) (v : point),
        (0 < Pipeline.grid_size_meters c)%Q ->
        (Pipeline.max_distance_meters c <=
         inject_Z (Pipeline.grid_search_radius c) *
         Pipeline.grid_size_meters c)%Q ->
        Pipeline.schedules (Pipeline.build_hybrid_index c schedule_df) !! idx
          = Some s ->
        In v (Pipeline.parsed_coords s) ->
        (geodesic (lat, lon) v <= Pipeline.max_distance_meters c)%Q ->
        idx ∈ Pipeline.spatial_candidates
                (Pipeline.build_hybrid_index c schedule_df) lat lon.
Proof.
  intros [g [[Hzero _] H]].
  set (c := {| Pipeline.max_distance_meters := 100;
               Pipeline.grid_size_meters := 100;
               Pipeline.grid_search_radius := 1 |}).
  set (v := ((3780 # 100), -(12242 # 100))%Q : point).
  specialize (H c [long_rule] (3780 # 100)%Q (-(12242 # 100))%Q 0%nat
                _ v ltac:(reflexivity) ltac:(vm_compute; discriminate)
                ltac:(reflexivity) ltac:(right; left; reflexivity)).
  assert (g ((3780 # 100)%Q, (-(12242 # 100))%Q) v == 0)%Q as Z
    by (apply Hzero; reflexivity).
  specialize (H ltac:(rewrite Z; vm_compute; discriminate)).
  apply elem_of_elements in H.
  assert (elements (Pipeline.spatial_candidates
                      (Pipeline.build_hybrid_index c [long_rule])
                      (3780 # 100) (-(12242 # 100))) = []) as E
    by (vm_compute; reflexivity).
  rewrite E in H. apply elem_of_nil in H. exact H.
Qed.

(** ** Grouping in the schedule cleaners *)

Module CleanerFacts.

Import Cleaner.

Definition key_of (c : combined_row) : location_key := location_of (combined c).

Lemma combine_group_key (k : location_key) (rows : list normalized_row)
    (c : combined_row) :
  combine_group (group_of k rows) = Some c -> key_of c = k.
Proof.
  unfold combine_group. destruct (group_of k rows) as [|r rest] eqn:E;
    [discriminate|].
  intros [= <-]. unfold key_of, location_of; cbn.
  assert (In r (group_of k rows)) as H by (rewrite E; left; reflexivity).
  apply List.filter_In in H. destruct H as [_ H].
  apply bool_decide_eq_true in H. exact H.
Qed.

Lemma group_of_nonempty (k : location_key) (rows : list normalized_row) :
  In k (map location_of rows) -> group_of k rows <> [].
Proof.
  intros H. apply in_map_iff in H. destruct H as [r [Hk Hr]].
  assert (In r (group_of k rows)) as Hin.
  { apply List.filter_In. split; [exact Hr|]. apply bool_decide_eq_true. exact Hk. }
  intros E. rewrite E in Hin. exact Hin.
Qed.

Lemma columns_iff_key (corridor limits side block_side : PyStr.t)
    (from_hour to_hour : Z) (x : normalized_row) :
  Corridor x = Some corridor /\ Limits x = Some limits /\
  CNNRightLeft x = Some side /\ BlockSide x = Some block_side /\
  FromHour x = Some from_hour /\ ToHour x = Some to_hour <->
  location_of x = (Some corridor, Some limits, Some side, Some block_side,
                   Some from_hour, Some to_hour).
Proof.
  unfold location_of. split.
  - intros (-> & -> & -> & -> & -> & ->). reflexivity.
  - intros [= -> -> -> -> -> ->]. repeat split.
Qed.

(** ['max'] gives a value of the column that no row of the group exceeds. *)
Lemma fold_max_spec (f : normalized_row -> Z) (rest : list normalized_row)
    (a : Z) :
  a <= fold_left (fun m x => Z.max m (f x)) rest a /\
  (forall x, In x rest -> f x <= fold_left (fun m x => Z.max m (f x)) rest a) /\
  (fold_left (fun m x => Z.max m (f x)) rest a = a \/
   exists x, In x rest /\ fold_left (fun m x => Z.max m (f x)) rest a = f x).
Proof.
  revert a. induction rest as [|y rest IH]; intros a; cbn [fold_left].
  - split; [lia|]. split; [intros x []|left; reflexivity].
  - destruct (IH (Z.max a (f y))) as (H1 & H2 & H3). split; [lia|]. split.
    + intros x [<-|Hx]; [lia|apply H2, Hx].
    + destruct H3 as [H3|(x & Hx & H3)].
      * destruct (Z.max_spec a (f y)) as [[_ E]|[_ E]].
        -- right. exists y. split; [left; reflexivity|congruence].
        -- left. congruence.
      * right. exists x. split; [right; exact Hx|exact H3].
Qed.

Lemma agg_max_spec (f : normalized_row -> Z) (r : normalized_row)
    (rest : list normalized_row) :
  (forall x, In x (r :: rest) -> f x <= agg_max f r rest) /\
  (exists x, In x (r :: rest) /\ agg_max f r rest = f x).
Proof.
  unfold agg_max. destruct (fold_max_spec f rest (f r)) as (H1 & H2 & H3).
  split.
  - intros x [<-|Hx]; [exact H1|apply H2, Hx].
  - destruct H3 as [H3|(x & Hx & H3)].
    + exists r. split; [left; reflexivity|exact H3].
    + exists x. split; [right; exact Hx|exact H3].
Qed.

Lemma omap_cons_eq {A B} (f : A -> option B) (x : A) (l : list A) :
  omap f (x :: l) =
  match f x with
  | Some y => y :: omap f l
  | None => omap f l
  end.
Proof. reflexivity. Qed.

Section OneRowPerKey.

Variable rows : list normalized_row.

Definition row_for (k : location_key) : option combined_row :=
  combine_group (group_of k rows).

Lemma filter_omap_absent (k : location_key) (keys : list location_key) :
  ~ In k keys ->
  List.filter (fun c => bool_decide (key_of c = k)) (omap row_for keys) = [].
Proof.
  induction keys as [|k0 keys IH]; intros H; [reflexivity|].
  rewrite omap_cons_eq.
  destruct (row_for k0) as [c0|] eqn:E.
  - cbn [List.filter]. rewrite (combine_group_key _ _ _ E).
    rewrite bool_decide_eq_false_2 by (intros ->; apply H; left; reflexivity).
    apply IH. intros Hin. apply H. right. exact Hin.
  - apply IH. intros Hin. apply H. right. exact Hin.
Qed.

Lemma filter_omap_present (k : location_key) (keys : list location_key) :
  List.NoDup keys -> In k keys ->
  List.filter (fun c => bool_decide (key_of c = k)) (omap row_for keys) =
  match row_for k with
  | Some c => [c]
  | None => []
  end.
Proof.
  induction 1 as [|k0 keys Hnotin Hnd IH]; intros Hin; [destruct Hin|].
  rewrite omap_cons_eq. destruct (decide (k0 = k)) as [->|Hne].
  - destruct (row_for k) as [c|] eqn:E.
    + cbn [List.filter]. rewrite (combine_group_key _ _ _ E).
      rewrite bool_decide_eq_true_2 by reflexivity.
      rewrite filter_omap_absent by exact Hnotin. reflexivity.
    + apply filter_omap_absent. exact Hnotin.
  - destruct Hin as [Heq|Hin]; [contradiction|].
    destruct (row_for k0) as [c0|] eqn:E.
    + cbn [List.filter]. rewrite (combine_group_key _ _ _ E).
      rewrite bool_decide_eq_false_2 by exact Hne. apply IH, Hin.
    + apply IH, Hin.
Qed.

End OneRowPerKey.

Lemma NoDup_remove_dups_list {A} `{EqDecision A} (l : list A) :
  List.NoDup (remove_dups l).
Proof. apply NoDup_ListNoDup, NoDup_remove_dups. Qed.

Lemma In_remove_dups {A} `{EqDecision A} (l : list A) (x : A) :
  In x (remove_dups l) <-> In x l.
Proof. rewrite <- !list_elem_of_In. apply elem_of_remove_dups. Qed.

Lemma In_group_keys (rows : list normalized_row) (k : location_key) :
  In k (group_keys rows) <->
  In k (map location_of rows) /\ complete k = true.
Proof.
  unfold group_keys. rewrite <- (list_elem_of_In _ k), merge_sort_Permutation.
  rewrite list_elem_of_In, In_remove_dups, List.filter_In. reflexivity.
Qed.

Lemma NoDup_group_keys (rows : list normalized_row) :
  List.NoDup (group_keys rows).
Proof.
  unfold group_keys. apply NoDup_ListNoDup. rewrite merge_sort_Permutation.
  apply NoDup_remove_dups.
Qed.

(** The five flags as a number. *)
Definition mask5 (a b c d e : Z) : Z := 16 * a + 8 * b + 4 * c + 2 * d + e.

Lemma is_flag_cases (z : Z) : is_flag z = true -> z = 0 \/ z = 1.
Proof. unfold is_flag. intros H. apply orb_true_iff in H. lia. Qed.

Lemma is_flag_max (a b : Z) :
  is_flag a = true -> is_flag b = true -> is_flag (Z.max a b) = true.
Proof.
  intros Ha Hb. destruct (is_flag_cases a Ha), (is_flag_cases b Hb); subst;
    reflexivity.
Qed.

Lemma mask5_lor (a b c d e a' b' c' d' e' : Z) :
  is_flag a = true -> is_flag b = true -> is_flag c = true ->
  is_flag d = true -> is_flag e = true ->
  is_flag a' = true -> is_flag b' = true -> is_flag c' = true ->
  is_flag d' = true -> is_flag e' = true ->
  mask5 (Z.max a a') (Z.max b b') (Z.max c c') (Z.max d d') (Z.max e e') =
  Z.lor (mask5 a b c d e) (mask5 a' b' c' d' e').
Proof.
  intros Ha Hb Hc Hd He Ha' Hb' Hc' Hd' He'.
  destruct (is_flag_cases a Ha), (is_flag_cases b Hb), (is_flag_cases c Hc),
    (is_flag_cases d Hd), (is_flag_cases e He); subst;
  destruct (is_flag_cases a' Ha'), (is_flag_cases b' Hb'),
    (is_flag_cases c' Hc'), (is_flag_cases d' Hd'), (is_flag_cases e' He');
  subst; reflexivity.
Qed.

Lemma week_flags_ok_iff (r : normalized_row) :
  week_flags_ok r = true <->
  is_flag (Week1 r) = true /\ is_flag (Week2 r) = true /\
  is_flag (Week3 r) = true /\ is_flag (Week4 r) = true /\
  is_flag (Week5 r) = true.
Proof. unfold week_flags_ok. rewrite !andb_true_iff. tauto. Qed.

(** The running maxima of the five week columns are the bitwise OR of the
    bitmasks. *)
Lemma fold_max_mask (rest : list normalized_row) (a b c d e : Z) :
  is_flag a = true -> is_flag b = true -> is_flag c = true ->
  is_flag d = true -> is_flag e = true ->
  forallb week_flags_ok rest = true ->
  mask5 (fold_left (fun m x => Z.max m (Week1 x)) rest a)
        (fold_left (fun m x => Z.max m (Week2 x)) rest b)
        (fold_left (fun m x => Z.max m (Week3 x)) rest c)
        (fold_left (fun m x => Z.max m (Week4 x)) rest d)
        (fold_left (fun m x => Z.max m (Week5 x)) rest e) =
  fold_left Z.lor (map week_bitmask rest) (mask5 a b c d e).
Proof.
  revert a b c d e. induction rest as [|r rest IH];
    intros a b c d e Ha Hb Hc Hd He Hok; [reflexivity|].
  cbn [forallb] in Hok. apply andb_true_iff in Hok as [Hr Hok].
  apply week_flags_ok_iff in Hr. destruct Hr as (H1 & H2 & H3 & H4 & H5).
  cbn [fold_left map]. rewrite IH by (try apply is_flag_max; assumption).
  f_equal. apply mask5_lor; assumption.
Qed.

(** Two raw rows for the same block, side, hours and weekday: the first
    sweeps in weeks 1 and 3, the second in week 4. *)
Definition row_weeks (w1 w2 w3 w4 w5 : Z) (id : Z) : raw_row :=
  {| raw_CNN := 8753000; raw_Corridor := Some (py "Mission St");
     raw_Limits := Some (py "16th St  -  17th St");
     raw_CNNRightLeft := Some (py "L"); raw_BlockSide := Some (py "East");
     raw_FromHour := Some 8; raw_ToHour := Some 10;
     raw_Line := Some (py "LINESTRING (-122.42 37.76, -122.419 37.761)");
     raw_WeekDay := py "Tues";
     raw_Week1 := w1; raw_Week2 := w2; raw_Week3 := w3; raw_Week4 := w4;
     raw_Week5 := w5; raw_Holidays := 0; raw_BlockSweepID := id |}.

Definition row_10100 : raw_row := row_weeks 1 0 1 0 0 1.
Definition row_00010 : raw_row := row_weeks 0 0 0 1 0 2.
Definition row_10101 : raw_row := row_weeks 1 0 1 0 1 3.

(** A third row of the same block, side and hours, for Thursday. *)
Definition row_thursday : raw_row :=
  {| raw_CNN := 8753000; raw_Corridor := Some (py "Mission St");
     raw_Limits := Some (py "16th St  -  17th St");
     raw_CNNRightLeft := Some (py "L"); raw_BlockSide := Some (py "East");
     raw_FromHour := Some 8; raw_ToHour := Some 10;
     raw_Line := None; raw_WeekDay := py "Thu";
     raw_Week1 := 0; raw_Week2 := 0; raw_Week3 := 1; raw_Week4 := 0;
     raw_Week5 := 0; raw_Holidays := 0; raw_BlockSweepID := 7 |}.

(** The same row with no text in [Limits]. *)
Definition row_without_limits : raw_row :=
  {| raw_CNN := 8753000; raw_Corridor := Some (py "Mission St");
     raw_Limits := None;
     raw_CNNRightLeft := Some (py "L"); raw_BlockSide := Some (py "East");
     raw_FromHour := Some 8; raw_ToHour := Some 10;
     raw_Line := None; raw_WeekDay := py "Thu";
     raw_Week1 := 0; raw_Week2 := 0; raw_Week3 := 1; raw_Week4 := 0;
     raw_Week5 := 0; raw_Holidays := 0; raw_BlockSweepID := 8 |}.
Definition row_01010 : raw_row := row_weeks 0 1 0 1 0 4.

Example complementary_rows_merge :
  map d_week_bitmask (clean_schedule_data_day_specific [row_10101; row_01010])
  = [31].
Proof. vm_compute. reflexivity. Qed.

Example three_rows_merge :
  map d_week_bitmask
    (clean_schedule_data_day_specific [row_10100; row_00010; row_01010])
  = [30].
Proof. vm_compute. reflexivity. Qed.

(** A row with a null cell in its key is in no group of the simple
    cleaner; the day-specific cleaner reads the cell as the text [nan] and
    keeps the row. *)
Example null_key_cell_simple :
  map (fun c => RecordCount (clean c))
    (clean_schedule_data_simple [row_10100; row_without_limits]) = [1%nat].
Proof. vm_compute. reflexivity. Qed.

Example null_key_cell_day_specific :
  map (fun r => (d_limits r, d_weekday r))
    (clean_schedule_data_day_specific [row_10100; row_without_limits])
  = [(Some (py "16th St  -  17th St"), Tuesday); (Some (py "nan"), Thursday)].
Proof. vm_compute. reflexivity. Qed.

(** The groups come in the order of their keys. *)
Example groups_sorted_by_key :
  map (fun r => (d_limits r, d_weekday r))
    (clean_schedule_data_day_specific [row_without_limits; row_10100])
  = [(Some (py "16th St  -  17th St"), Tuesday); (Some (py "nan"), Thursday)].
Proof. vm_compute. reflexivity. Qed.

End CleanerFacts.

(** C4, as the code has it.  Both cleaners group the normalised rows by
    (corridor, limits, side of the centerline, block side, from hour, to
    hour).  The rows that share one value in each of these six columns,
    whatever their number and their week patterns, give exactly one
    combined row with these six values: it counts the rows of the group,
    and in each of the seven weekday columns, the five week columns and the
    holiday column it carries the maximum of the column over the rows of
    the group; for week columns that hold 0/1 flags the bitmask of the
    combined row is the bitwise OR of the bitmasks of all the rows. *)
Theorem groupby_merges_whole_group
    (rows : list Cleaner.normalized_row)
    (corridor limits side block_side : PyStr.t) (from_hour to_hour : Z)
    (r : Cleaner.normalized_row) (rest : list Cleaner.normalized_row) :
  List.filter
    (fun x => bool_decide
       (Cleaner.Corridor x = Some corridor /\
        Cleaner.Limits x = Some limits /\
        Cleaner.CNNRightLeft x = Some side /\
        Cleaner.BlockSide x = Some block_side /\
        Cleaner.FromHour x = Some from_hour /\
        Cleaner.ToHour x = Some to_hour)) rows = r :: rest ->
  exists c : Cleaner.combined_row,
    List.filter
      (fun c' => bool_decide
         (Cleaner.Corridor (Cleaner.combined c') = Some corridor /\
          Cleaner.Limits (Cleaner.combined c') = Some limits /\
          Cleaner.CNNRightLeft (Cleaner.combined c') = Some side /\
          Cleaner.BlockSide (Cleaner.combined c') = Some block_side /\
          Cleaner.FromHour (Cleaner.combined c') = Some from_hour /\
          Cleaner.ToHour (Cleaner.combined c') = Some to_hour))
      (Cleaner.groupby_agg rows) = [c] /\
    Cleaner.RecordCount c = S (length rest) /\
    (forall column : Cleaner.normalized_row -> Z,
       In column
          [Cleaner.is_Monday; Cleaner.is_Tuesday; Cleaner.is_Wednesday;
           Cleaner.is_Thursday; Cleaner.is_Friday; Cleaner.is_Saturday;
           Cleaner.is_Sunday; Cleaner.Week1; Cleaner.Week2; Cleaner.Week3;
           Cleaner.Week4; Cleaner.Week5; Cleaner.Holidays] ->
       (forall x, In x (r :: rest) ->
                  column x <= column (Cleaner.combined c)) /\
       (exists x, In x (r :: rest) /\
                  column (Cleaner.combined c) = column x)) /\
    (forallb Cleaner.week_flags_ok (r :: rest) = true ->
     Cleaner.week_bitmask (Cleaner.combined c) =
     fold_left Z.lor (map Cleaner.week_bitmask rest) (Cleaner.week_bitmask r)).
Proof.
  intros E.
  set (k := (Some corridor, Some limits, Some side, Some block_side,
             Some from_hour, Some to_hour) : Cleaner.location_key).
  rewrite (List.filter_ext _ (fun x => bool_decide (Cleaner.location_of x = k))
             (fun x => bool_decide_ext _ _ (CleanerFacts.columns_iff_key _ _ _ _ _ _ x)))
    in E.
  rewrite (List.filter_ext _ (fun c' => bool_decide (CleanerFacts.key_of c' = k))
             (fun c' => bool_decide_ext _ _
                          (CleanerFacts.columns_iff_key _ _ _ _ _ _
                             (Cleaner.combined c')))).
  change (Cleaner.group_of k rows = r :: rest) in E.
  assert (In k (Cleaner.group_keys rows)) as Hk.
  { apply CleanerFacts.In_group_keys. split; [|reflexivity].
    assert (In r (Cleaner.group_of k rows)) as H by (rewrite E; left; reflexivity).
    apply List.filter_In in H. destruct H as [Hr Hkey].
    apply bool_decide_eq_true in Hkey. apply in_map_iff. exists r. auto. }
  unfold Cleaner.groupby_agg.
  pose proof (CleanerFacts.filter_omap_present rows k (Cleaner.group_keys rows)
                (CleanerFacts.NoDup_group_keys rows) Hk) as F.
  unfold CleanerFacts.row_for in F at 2. rewrite E in F.
  cbn [Cleaner.combine_group] in F.
  eexists. split; [exact F|]. split; [reflexivity|]. split.
  - intros column Hin. cbn [In] in Hin.
    repeat (destruct Hin as [<-|Hin];
            [exact (CleanerFacts.agg_max_spec _ r rest)|]).
    destruct Hin.
  - intros Hok. cbn [forallb] in Hok. apply andb_true_iff in Hok as [Hr Hok].
    apply CleanerFacts.week_flags_ok_iff in Hr.
    destruct Hr as (H1 & H2 & H3 & H4 & H5).
    unfold Cleaner.week_bitmask at 1. cbn. unfold Cleaner.agg_max.
    exact (CleanerFacts.fold_max_mask rest _ _ _ _ _ H1 H2 H3 H4 H5 Hok).
Qed.

Lemma groupby_merges_whole_group_witness :
  exists c : Cleaner.combined_row,
    Cleaner.groupby_agg
      (map Cleaner.normalize_row_simple
         [CleanerFacts.row_10100; CleanerFacts.row_thursday;
          CleanerFacts.row_00010]) = [c] /\
    Cleaner.RecordCount c = 3%nat /\
    Cleaner.is_Tuesday (Cleaner.combined c) = 1 /\
    Cleaner.is_Thursday (Cleaner.combined c) = 1 /\
    Cleaner.week_bitmask (Cleaner.combined c) = 22.
Proof.
  destruct (groupby_merges_whole_group
              (map Cleaner.normalize_row_simple
                 [CleanerFacts.row_10100; CleanerFacts.row_thursday;
                  CleanerFacts.row_00010])
              (py "Mission St") (py "16th St  -  17th St") (py "L") (py "East")
              8 10
              (Cleaner.normalize_row_simple CleanerFacts.row_10100)
              [Cleaner.normalize_row_simple CleanerFacts.row_thursday;
               Cleaner.normalize_row_simple CleanerFacts.row_00010]
              ltac:(vm_compute; reflexivity))
    as (c & Hc & Hn & _ & Hm).
  exists c.
  assert (Cleaner.groupby_agg
            (map Cleaner.normalize_row_simple
               [CleanerFacts.row_10100; CleanerFacts.row_thursday;
                CleanerFacts.row_00010]) = [c]) as Hall
    by (rewrite <- Hc; vm_compute; reflexivity).
  split; [exact Hall|]. split; [exact Hn|].
  assert (Cleaner.week_bitmask (Cleaner.combined c) = 22) as Hmask
    by (rewrite (Hm ltac:(vm_compute; reflexivity)); vm_compute; reflexivity).
  split; [|split; [|exact Hmask]]; injection Hall as <-; reflexivity.
Defined.

(** C4, the claim as written fails.  Two rows for the same block, side,
    hours and weekday with the week patterns 10100 and 00010 (OR = 10110,
    neither 11111 nor 11110) do not stay separate: each cleaner returns a
    single rule, with the bitmask 10110 = 22. *)
Lemma non_complementary_rows_are_merged :
  map Cleaner.d_week_bitmask
    (Cleaner.clean_schedule_data_day_specific
       [CleanerFacts.row_10100; CleanerFacts.row_00010]) = [22] /\
  map (fun c => Cleaner.week_bitmask (Cleaner.combined (Cleaner.clean c)))
    (Cleaner.clean_schedule_data_simple
       [CleanerFacts.row_10100; CleanerFacts.row_00010]) = [22].
Proof. vm_compute. split; reflexivity. Qed.

(** ** The archived estimates *)

Module EstimateFacts.

Import ArchiveEstimates.

Lemma relevant_matches_incl (g : list archived_match) (m : archived_match) :
  In m (relevant_matches g) -> In m g.
Proof.
  unfold relevant_matches, during_schedule_matches.
  destruct (3 <=? _)%nat; intros H; apply List.filter_In in H; tauto.
Qed.

Lemma estimate_of_group_spec (np_mean : list Q -> Q) (k : Z)
    (g : list archived_match) (st : estimate) :
  estimate_of_group np_mean k g = Some st ->
  e_schedule_id st = k /\
  e_citation_count st = length (relevant_matches g) /\
  (3 <= length (relevant_matches g))%nat.
Proof.
  unfold estimate_of_group.
  destruct (length (relevant_matches g) <? 3)%nat eqn:E; [discriminate|].
  apply Nat.ltb_ge in E.
  destruct g as [|first g']; [discriminate|].
  destruct (map a_citation_hour (relevant_matches (first :: g'))); [discriminate|].
  intros [= <-]. cbn. auto.
Qed.

Lemma estimate_of_group_some (np_mean : list Q -> Q) (k : Z)
    (g : list archived_match) :
  (3 <= length (relevant_matches g))%nat ->
  exists st, estimate_of_group np_mean k g = Some st.
Proof.
  intros H. unfold estimate_of_group.
  destruct (length (relevant_matches g) <? 3)%nat eqn:E;
    [apply Nat.ltb_lt in E; lia|].
  destruct (relevant_matches g) as [|m rel] eqn:R; [simpl in H; lia|].
  assert (In m g) as Hm by (apply relevant_matches_incl; rewrite R; left; reflexivity).
  destruct g as [|first g']; [destruct Hm|].
  cbn [map]. eexists. reflexivity.
Qed.

Lemma In_schedule_ids (matches_df : list archived_match) (id : Z) :
  In id (schedule_ids matches_df) <-> In id (map a_schedule_id matches_df).
Proof.
  unfold schedule_ids. rewrite <- !list_elem_of_In.
  rewrite merge_sort_Permutation. apply elem_of_remove_dups.
Qed.

(** During: within the window, both ends included.  After: up to two
    hours past its end. *)
Lemma calculate_time_relevance_cases (citation_hour from_hour to_hour : Z) :
  (calculate_time_relevance citation_hour from_hour to_hour = DURING_SCHEDULE
   <-> from_hour <= citation_hour <= to_hour) /\
  (calculate_time_relevance citation_hour from_hour to_hour = AFTER_SCHEDULE
   <-> ~ from_hour <= citation_hour <= to_hour /\
       to_hour < citation_hour <= to_hour + 2).
Proof.
  unfold calculate_time_relevance.
  destruct (from_hour <=? citation_hour) eqn:E1;
    destruct (citation_hour <=? to_hour) eqn:E2;
    destruct (to_hour <? citation_hour) eqn:E3;
    destruct (citation_hour <=? to_hour + 2) eqn:E4;
    destruct (citation_hour <? from_hour) eqn:E5;
    destruct (from_hour - 1 <=? citation_hour) eqn:E6;
    cbn [andb]; split; split; intros H; try discriminate H; try reflexivity;
    lia.
Qed.

(** *** Counting the matches by their hours *)

Lemma filter_filter_and {A} (P Q : A -> bool) (l : list A) :
  List.filter Q (List.filter P l) = List.filter (fun x => P x && Q x) l.
Proof.
  induction l as [|x l IH]; [reflexivity|]. cbn [List.filter].
  destruct (P x); cbn [List.filter andb]; [|exact IH].
  destruct (Q x); rewrite IH; reflexivity.
Qed.

Lemma length_filter_or {A} (P Q : A -> bool) (l : list A) :
  (forall x, In x l -> P x = true -> Q x = false) ->
  length (List.filter (fun x => P x || Q x) l)
  = (length (List.filter P l) + length (List.filter Q l))%nat.
Proof.
  induction l as [|x l IH]; intros H; [reflexivity|]. cbn [List.filter].
  pose proof (H x (or_introl eq_refl)) as Hx.
  rewrite <- Nat.add_comm in IH.
  destruct (P x) eqn:EP.
  - rewrite (Hx eq_refl). cbn [orb length].
    rewrite IH by (intros y Hy; apply H; right; exact Hy). lia.
  - destruct (Q x); cbn [orb length];
      rewrite IH by (intros y Hy; apply H; right; exact Hy); lia.
Qed.

Section ByHours.

Variable matches_df : list archived_match.
Variable id : Z.

Hypothesis relevance_of_hours :
  forall m, In m matches_df ->
    a_time_relevance m =
    calculate_time_relevance (a_citation_hour m) (a_schedule_from_hour m)
      (a_schedule_to_hour m).

(** The matches of the schedule within its window, and those up to two
    hours past its end. *)
Definition during : list archived_match :=
  List.filter
    (fun m => bool_decide
       (a_schedule_id m = id /\
        a_schedule_from_hour m <= a_citation_hour m <= a_schedule_to_hour m))
    matches_df.

Definition after : list archived_match :=
  List.filter
    (fun m => bool_decide
       (a_schedule_id m = id /\
        ~ a_schedule_from_hour m <= a_citation_hour m <= a_schedule_to_hour m /\
        a_schedule_to_hour m < a_citation_hour m <= a_schedule_to_hour m + 2))
    matches_df.

Lemma during_length :
  length (during_schedule_matches (group_of id matches_df)) = length during.
Proof.
  unfold during_schedule_matches, group_of, during.
  rewrite filter_filter_and. f_equal. apply List.filter_ext_in.
  intros m Hm. rewrite <- bool_decide_and. apply bool_decide_ext.
  rewrite (relevance_of_hours m Hm).
  rewrite (proj1 (calculate_time_relevance_cases _ _ _)). reflexivity.
Qed.

Lemma during_or_after_length :
  length (List.filter
            (fun m => bool_decide (a_time_relevance m = DURING_SCHEDULE)
                      || bool_decide (a_time_relevance m = AFTER_SCHEDULE))
            (group_of id matches_df))
  = (length during + length after)%nat.
Proof.
  rewrite length_filter_or.
  - f_equal; [exact during_length|].
    unfold group_of, after. rewrite filter_filter_and. f_equal.
    apply List.filter_ext_in. intros m Hm.
    rewrite <- bool_decide_and. apply bool_decide_ext.
    rewrite (relevance_of_hours m Hm).
    rewrite (proj2 (calculate_time_relevance_cases _ _ _)). reflexivity.
  - intros m _ H. apply bool_decide_eq_true in H.
    apply bool_decide_eq_false. rewrite H. discriminate.
Qed.

Lemma relevant_length :
  length (relevant_matches (group_of id matches_df))
  = if (3 <=? length during)%nat then length during
    else (length during + length after)%nat.
Proof.
  unfold relevant_matches. rewrite during_length.
  destruct (3 <=? length during)%nat;
    [exact during_length|exact during_or_after_length].
Qed.

End ByHours.

(** Three matches of schedule 7 (window 8 to 10): two within the window and
    one an hour past its end. *)
Definition two_during_one_after : list archived_match :=
  [match_at 1 7 8 8 10; match_at 2 7 9 8 10; match_at 3 7 11 8 10].

Example fallback_reaches_three :
  map e_citation_count
    (calculate_estimated_citation_times Float.mean_in_order
       two_during_one_after) = [3%nat].
Proof. vm_compute. reflexivity. Qed.

(** Matches outside the window and its two hours do not count. *)
Example outside_matches_do_not_count :
  calculate_estimated_citation_times Float.mean_in_order
    [match_at 1 7 5 8 10; match_at 2 7 13 8 10; match_at 3 7 14 8 10] = [].
Proof. vm_compute. reflexivity. Qed.

End EstimateFacts.

(** C5, as the code has it.  Take a table of matches in which the
    relevance of every match is the one of its hour against its window, and
    a schedule.  Its matches "during" are those with
    from_hour <= hour <= to_hour, its matches "after" those past the window
    with to_hour < hour <= to_hour + 2.  The schedule has a row in the
    estimates exactly when the matches during and after are three or more
    together.  The count of the row is the number of matches during the
    window when they are three or more, and the number of matches during
    and after it otherwise; it is at least three in every row.  A schedule
    below the threshold has no row. *)
Theorem estimates_need_three_relevant_matches
    (np_mean : list Q -> Q)
    (matches_df : list ArchiveEstimates.archived_match) (id : Z) :
  (forall m, In m matches_df ->
     ArchiveEstimates.a_time_relevance m =
     ArchiveEstimates.calculate_time_relevance
       (ArchiveEstimates.a_citation_hour m)
       (ArchiveEstimates.a_schedule_from_hour m)
       (ArchiveEstimates.a_schedule_to_hour m)) ->
  let during :=
    List.filter
      (fun m => bool_decide
         (ArchiveEstimates.a_schedule_id m = id /\
          ArchiveEstimates.a_schedule_from_hour m
            <= ArchiveEstimates.a_citation_hour m
            <= ArchiveEstimates.a_schedule_to_hour m)) matches_df in
  let after :=
    List.filter
      (fun m => bool_decide
         (ArchiveEstimates.a_schedule_id m = id /\
          ~ ArchiveEstimates.a_schedule_from_hour m
              <= ArchiveEstimates.a_citation_hour m
              <= ArchiveEstimates.a_schedule_to_hour m /\
          ArchiveEstimates.a_schedule_to_hour m
            < ArchiveEstimates.a_citation_hour m
            <= ArchiveEstimates.a_schedule_to_hour m + 2)) matches_df in
  ((exists st,
      In st (ArchiveEstimates.calculate_estimated_citation_times np_mean matches_df) /\
      ArchiveEstimates.e_schedule_id st = id) <->
   (3 <= length during + length after)%nat) /\
  (forall st,
     In st (ArchiveEstimates.calculate_estimated_citation_times np_mean matches_df) ->
     ArchiveEstimates.e_schedule_id st = id ->
     ((3 <= length during)%nat ->
      ArchiveEstimates.e_citation_count st = length during) /\
     ((length during < 3)%nat ->
      ArchiveEstimates.e_citation_count st
      = (length during + length after)%nat) /\
     (3 <= ArchiveEstimates.e_citation_count st)%nat).
Proof.
  intros Hrel during after.
  change during with (EstimateFacts.during matches_df id).
  change after with (EstimateFacts.after matches_df id).
  clear during after.
  pose proof (EstimateFacts.relevant_length matches_df id Hrel) as Hlen.
  assert ((3 <= length (ArchiveEstimates.relevant_matches
                          (ArchiveEstimates.group_of id matches_df)))%nat <->
          (3 <= length (EstimateFacts.during matches_df id)
                + length (EstimateFacts.after matches_df id))%nat) as Hthree.
  { rewrite Hlen.
    destruct (3 <=? length (EstimateFacts.during matches_df id))%nat eqn:E.
    - apply Nat.leb_le in E. lia.
    - reflexivity. }
  unfold ArchiveEstimates.calculate_estimated_citation_times.
  split; [split|].
  - intros [st [Hin Hid]].
    apply list_elem_of_In, list_elem_of_omap in Hin.
    destruct Hin as [k [_ Hst]].
    apply EstimateFacts.estimate_of_group_spec in Hst.
    destruct Hst as (Hk & _ & H3). apply Hthree. congruence.
  - intros H3. apply Hthree in H3.
    destruct (EstimateFacts.estimate_of_group_some np_mean id _ H3) as [st Hst].
    exists st. split.
    + apply list_elem_of_In, list_elem_of_omap. exists id. split; [|exact Hst].
      apply list_elem_of_In, EstimateFacts.In_schedule_ids.
      destruct (ArchiveEstimates.relevant_matches
                  (ArchiveEstimates.group_of id matches_df)) as [|m rel] eqn:R;
        [simpl in H3; lia|].
      assert (In m (ArchiveEstimates.group_of id matches_df)) as Hm
        by (apply EstimateFacts.relevant_matches_incl; rewrite R; left; reflexivity).
      apply List.filter_In in Hm. destruct Hm as [Hm Hk].
      apply bool_decide_eq_true in Hk. apply in_map_iff. exists m. auto.
    + apply EstimateFacts.estimate_of_group_spec in Hst. tauto.
  - intros st Hin Hid.
    apply list_elem_of_In, list_elem_of_omap in Hin.
    destruct Hin as [k [_ Hst]].
    apply EstimateFacts.estimate_of_group_spec in Hst.
    destruct Hst as (Hk & Hc & H3). rewrite Hk in Hid.
    rewrite Hid, Hlen in Hc. rewrite Hid, Hlen in H3. rewrite Hc.
    destruct (3 <=? length (EstimateFacts.during matches_df id))%nat eqn:E;
      [apply Nat.leb_le in E|apply Nat.leb_gt in E];
      (split; [intros ?; lia || reflexivity|]);
      (split; [intros ?; lia || reflexivity|exact H3]).
Qed.

Lemma estimates_need_three_relevant_matches_witness :
  exists st,
    In st (ArchiveEstimates.calculate_estimated_citation_times
             Float.mean_in_order EstimateFacts.two_during_one_after) /\
    ArchiveEstimates.e_schedule_id st = 7.
Proof.
  apply (proj1 (estimates_need_three_relevant_matches Float.mean_in_order
                  EstimateFacts.two_during_one_after 7
                  ltac:(intros m [<-|[<-|[<-|[]]]]; reflexivity))).
  vm_compute. lia.
Defined.

(** C5, the claim as written fails: a schedule with two matches during its
    window and none after it gets no row at all, where the claim has a row
    with a citation count of zero. *)
Lemma below_threshold_group_is_dropped :
  ArchiveEstimates.calculate_estimated_citation_times Float.mean_in_order
    [ArchiveEstimates.match_at 1 7 8 8 10; ArchiveEstimates.match_at 2 7 9 8 10]
  = [].
Proof. vm_compute. reflexivity. Qed.

(** ** The left join of the aggregation *)

Module AggregatorFacts.

Import Aggregator.

Lemma foldl_lookup_In (schedules_df : list schedule) (m : gmap Z schedule)
    (id : Z) (s : schedule) :
  foldl (fun m s => <[schedule_id s := s]> m) m schedules_df !! id = Some s ->
  m !! id = Some s \/ In s schedules_df.
Proof.
  revert m. induction schedules_df as [|s0 l IH]; intros m H; simpl in H;
    [left; exact H|].
  destruct (IH _ H) as [H'|H']; [|right; right; exact H'].
  destruct (decide (schedule_id s0 = id)) as [<-|Hne].
  - rewrite lookup_insert_eq in H'. injection H' as ->. right. left. reflexivity.
  - rewrite lookup_insert_ne in H' by exact Hne. left. exact H'.
Qed.

Lemma schedule_lookup_In (schedules_df : list schedule) (id : Z) (s : schedule) :
  schedule_lookup schedules_df !! id = Some s -> In s schedules_df.
Proof.
  intros H. apply foldl_lookup_In in H. destruct H as [H|H]; [|exact H].
  rewrite lookup_empty in H. discriminate.
Qed.

Section DictUpdate.

Context {V : Type}.
Variables (f : V -> V) (default : V) (k : group_key).

Lemma dict_update_keys_present (d : list (group_key * V)) :
  In k (map fst d) -> map fst (dict_update f default k d) = map fst d.
Proof.
  induction d as [|[k' v] d IH]; intros H; [destruct H|].
  cbn [dict_update]. destruct (decide (k' = k)) as [->|Hne]; [reflexivity|].
  cbn [map fst]. f_equal. apply IH. destruct H as [H|H]; [contradiction|exact H].
Qed.

Lemma dict_update_keys_absent (d : list (group_key * V)) :
  ~ In k (map fst d) -> map fst (dict_update f default k d) = map fst d ++ [k].
Proof.
  induction d as [|[k' v] d IH]; intros H; [reflexivity|].
  cbn [dict_update]. destruct (decide (k' = k)) as [->|Hne].
  - exfalso. apply H. left. reflexivity.
  - cbn [map fst app]. f_equal. apply IH. intros Hin. apply H. right. exact Hin.
Qed.

Lemma dict_update_Forall (P : group_key * V -> Prop) (d : list (group_key * V)) :
  (forall v, P (k, f v)) -> List.Forall P d ->
  List.Forall P (dict_update f default k d).
Proof.
  intros Hf. induction 1 as [|[k' v] d Hkv Hd IH]; cbn [dict_update].
  - constructor; [apply Hf|constructor].
  - destruct (decide (k' = k)) as [->|Hne]; constructor; auto.
Qed.

Lemma dict_update_NoDup (d : list (group_key * V)) :
  List.NoDup (map fst d) -> List.NoDup (map fst (dict_update f default k d)).
Proof.
  intros H. destruct (in_dec (fun a b => decide (a = b)) k (map fst d)) as [Hin|Hout].
  - rewrite dict_update_keys_present by exact Hin. exact H.
  - rewrite dict_update_keys_absent by exact Hout.
    apply List.NoDup_app; [exact H|constructor; [intros []|constructor]|].
    intros a Ha [<-|[]]. contradiction.
Qed.

End DictUpdate.

(** What the loop over the matches maintains: the keys are distinct, each
    is the key of a schedule of the table, and each group has its
    [schedule_info]. *)
Definition groups_ok (schedules_df : list schedule)
    (groups : list (group_key * group_data)) : Prop :=
  List.NoDup (map fst groups) /\
  List.Forall (fun kg => In (fst kg) (map key_of schedules_df) /\
                         is_Some (schedule_info (snd kg))) groups.

Lemma aggregation_groups_ok (schedules_df : list schedule)
    (matches_df : list match_row) :
  groups_ok schedules_df
    (aggregation_groups (schedule_lookup schedules_df) matches_df).
Proof.
  unfold aggregation_groups.
  assert (groups_ok schedules_df []) as H0
    by (split; constructor).
  revert H0. generalize (@nil (group_key * group_data)).
  induction matches_df as [|m l IH]; intros groups H; [exact H|].
  cbn [foldl]. apply IH.
  destruct (schedule_lookup schedules_df !! mr_schedule_id m) as [s|] eqn:E;
    [|exact H].
  destruct H as [Hnd Hall]. split.
  - apply dict_update_NoDup, Hnd.
  - apply dict_update_Forall; [|exact Hall].
    intros v. cbn [fst snd]. split.
    + apply in_map, (schedule_lookup_In _ _ _ E).
    + unfold record_match. cbn. destruct (schedule_info v); eexists; reflexivity.
Qed.

Lemma rows_of_groups_ids (schedules_df : list schedule)
    (groups : list (group_key * group_data)) :
  List.Forall (fun kg => In (fst kg) (map key_of schedules_df) /\
                         is_Some (schedule_info (snd kg))) groups ->
  map clean_id (omap (fun kg => row_of_group (fst kg) (snd kg)) groups) =
  map fst groups.
Proof.
  induction 1 as [|[k g] groups [_ [info Hinfo]] _ IH]; [reflexivity|].
  rewrite CleanerFacts.omap_cons_eq. cbn [fst snd] in *.
  unfold row_of_group at 1. rewrite Hinfo. cbn [map clean_id fst].
  f_equal. exact IH.
Qed.

Lemma update_first_ids (key : group_key) (f : aggregated_row -> aggregated_row)
    (rows : list aggregated_row) :
  (forall r, clean_id (f r) = clean_id r) ->
  map clean_id (update_first key f rows) = map clean_id rows.
Proof.
  intros Hf. induction rows as [|r rows IH]; [reflexivity|].
  cbn [update_first]. destruct (decide (clean_id r = key)); cbn [map].
  - rewrite Hf. reflexivity.
  - rewrite IH. reflexivity.
Qed.

Lemma has_row_In (key : group_key) (rows : list aggregated_row) :
  has_row key rows = true <-> In key (map clean_id rows).
Proof.
  unfold has_row. rewrite existsb_exists, in_map_iff. split.
  - intros [r [Hr H]]. apply bool_decide_eq_true in H. exists r. auto.
  - intros [r [H Hr]]. exists r. split; [exact Hr|].
    apply bool_decide_eq_true. exact H.
Qed.

(** The identifiers after one step of the loop over the schedules. *)
Lemma add_schedule_ids (without : gset group_key) (rows : list aggregated_row)
    (s : schedule) :
  map clean_id (add_schedule without rows s) =
  if bool_decide (key_of s ∈ without) && negb (has_row (key_of s) rows)
  then map clean_id rows ++ [key_of s]
  else map clean_id rows.
Proof.
  unfold add_schedule. destruct (bool_decide (key_of s ∈ without)); [|reflexivity].
  destruct (has_row (key_of s) rows); cbn [andb negb].
  - apply update_first_ids. reflexivity.
  - rewrite map_app. reflexivity.
Qed.

Lemma add_schedules_ids (without : gset group_key) (l : list schedule)
    (rows : list aggregated_row) :
  List.NoDup (map clean_id rows) ->
  List.NoDup (map clean_id (foldl (add_schedule without) rows l)) /\
  forall k, In k (map clean_id (foldl (add_schedule without) rows l)) <->
            In k (map clean_id rows) \/ (k ∈ without /\ In k (map key_of l)).
Proof.
  revert rows. induction l as [|s l IH]; intros rows Hnd; cbn [foldl].
  - split; [exact Hnd|]. intros k. cbn [map]. simpl. tauto.
  - pose proof (add_schedule_ids without rows s) as Hids.
    assert (List.NoDup (map clean_id (add_schedule without rows s))) as Hnd'.
    { rewrite Hids.
      destruct (bool_decide (key_of s ∈ without)); [|exact Hnd].
      destruct (has_row (key_of s) rows) eqn:Hr; cbn [andb negb]; [exact Hnd|].
      apply List.NoDup_app; [exact Hnd|constructor; [intros []|constructor]|].
      intros a Ha [<-|[]]. apply has_row_In in Ha. congruence. }
    destruct (IH _ Hnd') as [H1 H2]. split; [exact H1|].
    intros k. rewrite H2, Hids. cbn [map In].
    destruct (bool_decide (key_of s ∈ without)) eqn:Hw.
    + apply bool_decide_eq_true in Hw.
      destruct (has_row (key_of s) rows) eqn:Hr; cbn [andb negb].
      * apply has_row_In in Hr. split.
        -- intros [H|[Hk H]]; tauto.
        -- intros [H|[Hk [H|H]]]; [tauto| |tauto].
           subst k. left. exact Hr.
      * rewrite in_app_iff. cbn [In]. split.
        -- intros [[H|[<-|[]]]|[Hk H]]; tauto.
        -- intros [H|[Hk [<-|H]]]; tauto.
    + apply bool_decide_eq_false in Hw. cbn [andb]. split.
      * intros [H|[Hk H]]; [tauto|]. right. split; [exact Hk|]. right. exact H.
      * intros [H|[Hk [<-|H]]]; [tauto|contradiction|tauto].
Qed.

(** *** The key text and the columns it is printed from *)

Lemma uint_no_underscore (d : Decimal.uint) :
  ~ In "_"%char (list_ascii_of_string (NilEmpty.string_of_uint d)).
Proof.
  induction d; cbn [NilEmpty.string_of_uint list_ascii_of_string In];
    try tauto; intros [H|H]; try discriminate H; exact (IHd H).
Qed.

Lemma str_of_int_no_underscore (z : Z) : ~ In "_"%char (str_of_int z).
Proof.
  unfold str_of_int.
  assert (forall d, ~ In "_"%char
                      (list_ascii_of_string (NilZero.string_of_uint d))) as H.
  { intros d. destruct d; try apply uint_no_underscore.
    cbn. intros [H|[]]. discriminate H. }
  destruct (Z.to_int z) as [d|d]; cbn [NilZero.string_of_int];
    [apply H|].
  cbn [list_ascii_of_string In]. intros [E|E]; [discriminate E|exact (H d E)].
Qed.

Lemma str_of_int_inj (z z' : Z) : str_of_int z = str_of_int z' -> z = z'.
Proof.
  unfold str_of_int. intros H.
  apply (f_equal string_of_list_ascii) in H.
  rewrite !string_of_list_ascii_of_string in H.
  apply (f_equal NilZero.int_of_string) in H.
  assert (forall n, Z.to_int n <> Decimal.Pos Decimal.Nil /\
                    Z.to_int n <> Decimal.Neg Decimal.Nil) as Hn.
  { intros [|p|p]; cbn; split; try discriminate;
      intros [= E]; exact (Unsigned.to_uint_nonnil p E). }
  rewrite !NilZero.isi in H by apply Hn.
  injection H as H. apply to_int_inj, H.
Qed.

(** Two texts that are split by their first underscore. *)
Lemma split_at_underscore (a a' x x' : PyStr.t) :
  ~ In "_"%char a -> ~ In "_"%char a' ->
  a ++ "_"%char :: x = a' ++ "_"%char :: x' -> a = a' /\ x = x'.
Proof.
  revert a'. induction a as [|c a IH]; intros [|c' a'] Ha Ha' H;
    cbn [app] in H.
  - injection H as ->. auto.
  - injection H as <- _. exfalso. apply Ha'. left. reflexivity.
  - injection H as -> _. exfalso. apply Ha. left. reflexivity.
  - injection H as -> H.
    destruct (IH a' (fun E => Ha (or_intror E)) (fun E => Ha' (or_intror E)) H)
      as [-> ->].
    auto.
Qed.

(** A week column that holds a flag. *)
Definition is_bit (w : Z) : Prop := w = 0 \/ w = 1.

Lemma length_str_of_bit (w : Z) : is_bit w -> length (str_of_int w) = 1%nat.
Proof. intros [->| ->]; reflexivity. Qed.

(** The columns that make the group of a schedule, and of a row. *)
Definition group_columns (s : schedule) : Z * PyStr.t * Z * Z * Z * Z * Z :=
  (cnn s, cnn_right_left s, week1 s, week2 s, week3 s, week4 s, week5 s).

Definition row_columns (r : aggregated_row) : Z * PyStr.t * Z * Z * Z * Z * Z :=
  (ag_cnn r, ag_cnn_right_left r, ag_week1 r, ag_week2 r, ag_week3 r,
   ag_week4 r, ag_week5 r).

Definition bits (s : schedule) : Prop :=
  is_bit (week1 s) /\ is_bit (week2 s) /\ is_bit (week3 s) /\
  is_bit (week4 s) /\ is_bit (week5 s).

Lemma key_of_columns (s s' : schedule) :
  group_columns s = group_columns s' -> key_of s = key_of s'.
Proof.
  unfold group_columns, key_of, create_week_pattern_string.
  intros [= -> -> -> -> -> -> ->]. reflexivity.
Qed.

(** On schedules whose week columns are flags, the key text determines the
    columns. *)
Lemma key_of_inj (s s' : schedule) :
  bits s -> bits s' -> key_of s = key_of s' ->
  group_columns s = group_columns s'.
Proof.
  intros (B1 & B2 & B3 & B4 & B5) (B1' & B2' & B3' & B4' & B5') H.
  unfold key_of, create_week_pattern_string in H.
  change (py "_") with ["_"%char] in H. cbn [app] in H.
  apply split_at_underscore in H; try apply str_of_int_no_underscore.
  destruct H as [Hc H]. apply str_of_int_inj in Hc.
  change ("_"%char :: ?x) with (["_"%char] ++ x) in H.
  rewrite !(app_assoc (cnn_right_left _) ["_"%char]) in H.
  assert (forall t : schedule, bits t ->
            length (str_of_int (week1 t) ++ str_of_int (week2 t)
                    ++ str_of_int (week3 t) ++ str_of_int (week4 t)
                    ++ str_of_int (week5 t)) = 5%nat) as Hlen.
  { intros t (T1 & T2 & T3 & T4 & T5). rewrite !length_app.
    rewrite !length_str_of_bit by assumption. reflexivity. }
  apply app_inj_2 in H;
    [|rewrite !Hlen by (repeat split; assumption); reflexivity].
  destruct H as [Hs H]. apply app_inj_tail in Hs. destruct Hs as [Hs _].
  apply app_inj_1 in H; [|rewrite !length_str_of_bit by assumption; reflexivity].
  destruct H as [H1 H].
  apply app_inj_1 in H; [|rewrite !length_str_of_bit by assumption; reflexivity].
  destruct H as [H2 H].
  apply app_inj_1 in H; [|rewrite !length_str_of_bit by assumption; reflexivity].
  destruct H as [H3 H].
  apply app_inj_1 in H; [|rewrite !length_str_of_bit by assumption; reflexivity].
  destruct H as [H4 H5].
  apply str_of_int_inj in H1, H2, H3, H4, H5.
  unfold group_columns. congruence.
Qed.

(** *** Every row is the row of a schedule of the table *)

Definition row_of_table (schedules_df : list schedule) (r : aggregated_row)
  : Prop :=
  exists s, In s schedules_df /\ clean_id r = key_of s /\
            row_columns r = group_columns s.

Lemma dict_update_Forall_step {V} (f : V -> V) (default : V) (k : group_key)
    (P : group_key * V -> Prop) (d : list (group_key * V)) :
  P (k, f default) -> (forall v, P (k, v) -> P (k, f v)) ->
  List.Forall P d -> List.Forall P (dict_update f default k d).
Proof.
  intros H0 Hf. induction 1 as [|[k' v] d Hkv Hd IH]; cbn [dict_update].
  - constructor; [exact H0|constructor].
  - destruct (decide (k' = k)) as [->|Hne]; constructor; auto.
Qed.

(** The schedule that a group keeps has the key of the group. *)
Lemma aggregation_groups_info (schedules_df : list schedule)
    (matches_df : list match_row) :
  List.Forall
    (fun kg => exists info,
       schedule_info (snd kg) = Some info /\ In info schedules_df /\
       key_of info = fst kg)
    (aggregation_groups (schedule_lookup schedules_df) matches_df).
Proof.
  unfold aggregation_groups.
  assert (List.Forall
            (fun kg : group_key * group_data => exists info,
               schedule_info (snd kg) = Some info /\ In info schedules_df /\
               key_of info = fst kg) []) as H0 by constructor.
  revert H0. generalize (@nil (group_key * group_data)).
  induction matches_df as [|m l IH]; intros groups H; [exact H|].
  cbn [foldl]. apply IH.
  destruct (schedule_lookup schedules_df !! mr_schedule_id m) as [s|] eqn:E;
    [|exact H].
  pose proof (schedule_lookup_In _ _ _ E) as Hs.
  apply dict_update_Forall_step; [| |exact H].
  - exists s. cbn. auto.
  - intros v (info & Hi & Hin & Hk). exists info. cbn [fst snd] in *.
    unfold record_match. cbn. rewrite Hi. auto.
Qed.

Lemma rows_of_groups_table (schedules_df : list schedule)
    (groups : list (group_key * group_data)) :
  List.Forall
    (fun kg => exists info,
       schedule_info (snd kg) = Some info /\ In info schedules_df /\
       key_of info = fst kg) groups ->
  List.Forall (row_of_table schedules_df)
    (omap (fun kg => row_of_group (fst kg) (snd kg)) groups).
Proof.
  induction 1 as [|[k g] groups (info & Hi & Hin & Hk) _ IH]; [constructor|].
  rewrite CleanerFacts.omap_cons_eq. cbn [fst snd] in *.
  unfold row_of_group at 1. rewrite Hi. constructor; [|exact IH].
  exists info. cbn. auto.
Qed.

Lemma update_first_Forall (P : aggregated_row -> Prop) (key : group_key)
    (f : aggregated_row -> aggregated_row) (rows : list aggregated_row) :
  (forall r, P r -> P (f r)) ->
  List.Forall P rows -> List.Forall P (update_first key f rows).
Proof.
  intros Hf. induction 1 as [|r rows Hr Hrows IH]; cbn [update_first];
    [constructor|].
  destruct (decide (clean_id r = key)); constructor; auto.
Qed.

Lemma add_schedules_table (schedules_df : list schedule)
    (without : gset group_key) (l : list schedule) (rows : list aggregated_row) :
  incl l schedules_df ->
  List.Forall (row_of_table schedules_df) rows ->
  List.Forall (row_of_table schedules_df) (foldl (add_schedule without) rows l).
Proof.
  revert rows. induction l as [|s l IH]; intros rows Hl Hrows; cbn [foldl];
    [exact Hrows|].
  apply IH; [intros x Hx; apply Hl; right; exact Hx|].
  unfold add_schedule. destruct (bool_decide (key_of s ∈ without)); [|exact Hrows].
  destruct (has_row (key_of s) rows).
  - apply update_first_Forall; [|exact Hrows].
    intros r (s' & H1 & H2 & H3). exists s'. auto.
  - apply List.Forall_app. split; [exact Hrows|].
    constructor; [|constructor]. exists s.
    split; [apply Hl; left; reflexivity|]. split; reflexivity.
Qed.

Lemma aggregate_rows_of_table (matches_df : list match_row)
    (schedules_df : list schedule) :
  List.Forall (row_of_table schedules_df)
    (aggregate_from_matches matches_df schedules_df).
Proof.
  unfold aggregate_from_matches.
  apply add_schedules_table; [intros x Hx; exact Hx|].
  apply rows_of_groups_table, aggregation_groups_info.
Qed.

(** The identifiers of the result: pairwise distinct, and exactly the key
    texts of the table. *)
Lemma aggregate_clean_ids (matches_df : list match_row)
    (schedules_df : list schedule) :
  List.NoDup (map clean_id (aggregate_from_matches matches_df schedules_df)) /\
  forall k,
    In k (map clean_id (aggregate_from_matches matches_df schedules_df)) <->
    In k (map key_of schedules_df).
Proof.
  unfold aggregate_from_matches.
  destruct (aggregation_groups_ok schedules_df matches_df) as [Hnd Hall].
  set (groups := aggregation_groups (schedule_lookup schedules_df) matches_df) in *.
  pose proof (rows_of_groups_ids schedules_df groups Hall) as Hids.
  set (rows0 := omap (fun kg => row_of_group (fst kg) (snd kg)) groups) in *.
  set (without := (list_to_set (map key_of schedules_df)
                   ∖ list_to_set (map fst groups) : gset group_key)).
  destruct (add_schedules_ids without schedules_df rows0
              ltac:(rewrite Hids; exact Hnd)) as [H1 H2].
  split; [exact H1|].
  intros k. rewrite H2, Hids. unfold without.
  rewrite elem_of_difference, !elem_of_list_to_set, !list_elem_of_In.
  split.
  - intros [H|[_ H]]; [|exact H].
    apply in_map_iff in H. destruct H as [[k' g] [<- Hin]].
    exact (proj1 (proj1 (List.Forall_forall _ _) Hall _ Hin)).
  - intros H.
    destruct (in_dec (fun a b => decide (a = b)) k (map fst groups)); tauto.
Qed.

Lemma NoDup_map_transfer {A B C} (f : A -> B) (g : A -> C) (l : list A) :
  (forall x y, In x l -> In y l -> f x = f y -> g x = g y) ->
  List.NoDup (map g l) -> List.NoDup (map f l).
Proof.
  induction l as [|a l IH]; intros H Hnd; [constructor|].
  cbn [map] in *. inversion Hnd as [|? ? Ha Hl]; subst. constructor.
  - intros Hin. apply Ha. apply in_map_iff in Hin.
    destruct Hin as (y & Hy & Hyl). apply in_map_iff. exists y. split; [|exact Hyl].
    apply H; [right; exact Hyl|left; reflexivity|exact Hy].
  - apply IH; [|exact Hl]. intros x y Hx Hy. apply H; right; assumption.
Qed.

(** Three schedules in two groups: the first two differ in the weekday
    only, the third has another week pattern; the last two have no line. *)
Definition rule_thursday : schedule :=
  {| schedule_id := 2000001; cnn := 1; corridor := py "Mission St";
     limits := py "16th St - 17th St"; cnn_right_left := py "L";
     block_side := py "Odd"; weekday := Thursday;
     scheduled_from_hour := 8; scheduled_to_hour := 10;
     week1 := 1; week2 := 1; week3 := 1; week4 := 1; week5 := 1;
     line := None |}.

Definition rule_weeks_1_3 : schedule :=
  {| schedule_id := 2000002; cnn := 1; corridor := py "Mission St";
     limits := py "16th St - 17th St"; cnn_right_left := py "L";
     block_side := py "Odd"; weekday := Tuesday;
     scheduled_from_hour := 12; scheduled_to_hour := 14;
     week1 := 1; week2 := 0; week3 := 1; week4 := 0; week5 := 0;
     line := None |}.

Definition two_groups : list schedule :=
  [PipelineFacts.rule_8_10; rule_thursday; rule_weeks_1_3].

(** Week columns that are no flags can print to the same key text. *)
Example keys_of_other_numbers_collide :
  key_of {| schedule_id := 1; cnn := 30; corridor := py "A"; limits := py "B";
            cnn_right_left := py "L"; block_side := py "Odd";
            weekday := Monday; scheduled_from_hour := 8;
            scheduled_to_hour := 10;
            week1 := 10; week2 := 1; week3 := 1; week4 := 1; week5 := 1;
            line := None |}
  = key_of {| schedule_id := 2; cnn := 30; corridor := py "A"; limits := py "B";
              cnn_right_left := py "L"; block_side := py "Odd";
              weekday := Monday; scheduled_from_hour := 8;
              scheduled_to_hour := 10;
              week1 := 1; week2 := 0; week3 := 1; week4 := 1; week5 := 11;
              line := None |}.
Proof. vm_compute. reflexivity. Qed.

End AggregatorFacts.

(** C3.  For a schedule table that has rows and whose week columns hold
    flags (0 or 1), the result of the aggregation has exactly one row for
    each distinct group (cnn, cnn_right_left, week1, ..., week5) of the
    table: the group columns of the rows are pairwise distinct, they are
    exactly the group columns of the schedules, and the number of rows is
    the number of distinct groups; this holds for any list of matches (the
    empty one too) and whatever the geometry of the schedules. *)
Theorem left_join_completeness
    (matches_df : list Aggregator.match_row) (schedules_df : list schedule) :
  schedules_df <> [] ->
  (forall s, In s schedules_df ->
     (week1 s = 0 \/ week1 s = 1) /\ (week2 s = 0 \/ week2 s = 1) /\
     (week3 s = 0 \/ week3 s = 1) /\ (week4 s = 0 \/ week4 s = 1) /\
     (week5 s = 0 \/ week5 s = 1)) ->
  List.NoDup
    (map (fun r => (Aggregator.ag_cnn r, Aggregator.ag_cnn_right_left r,
                    Aggregator.ag_week1 r, Aggregator.ag_week2 r,
                    Aggregator.ag_week3 r, Aggregator.ag_week4 r,
                    Aggregator.ag_week5 r))
       (Aggregator.aggregate_from_matches matches_df schedules_df)) /\
  (forall g,
     In g (map (fun r => (Aggregator.ag_cnn r, Aggregator.ag_cnn_right_left r,
                          Aggregator.ag_week1 r, Aggregator.ag_week2 r,
                          Aggregator.ag_week3 r, Aggregator.ag_week4 r,
                          Aggregator.ag_week5 r))
             (Aggregator.aggregate_from_matches matches_df schedules_df)) <->
     In g (map (fun s => (cnn s, cnn_right_left s, week1 s, week2 s, week3 s,
                          week4 s, week5 s)) schedules_df)) /\
  length (Aggregator.aggregate_from_matches matches_df schedules_df) =
  length (remove_dups
            (map (fun s => (cnn s, cnn_right_left s, week1 s, week2 s, week3 s,
                            week4 s, week5 s)) schedules_df)).
Proof.
  intros _ Hbits.
  change (fun r => (Aggregator.ag_cnn r, Aggregator.ag_cnn_right_left r,
                    Aggregator.ag_week1 r, Aggregator.ag_week2 r,
                    Aggregator.ag_week3 r, Aggregator.ag_week4 r,
                    Aggregator.ag_week5 r))
    with AggregatorFacts.row_columns.
  change (fun s => (cnn s, cnn_right_left s, week1 s, week2 s, week3 s,
                    week4 s, week5 s))
    with AggregatorFacts.group_columns.
  destruct (AggregatorFacts.aggregate_clean_ids matches_df schedules_df)
    as [Hnd Hids].
  pose proof (AggregatorFacts.aggregate_rows_of_table matches_df schedules_df)
    as Htab.
  set (rows := Aggregator.aggregate_from_matches matches_df schedules_df) in *.
  assert (forall r, In r rows ->
            exists s, In s schedules_df /\
                      Aggregator.clean_id r = Aggregator.key_of s /\
                      AggregatorFacts.row_columns r
                      = AggregatorFacts.group_columns s) as Hrow
    by (intros r Hr; exact (proj1 (List.Forall_forall _ _) Htab r Hr)).
  assert (List.NoDup (map AggregatorFacts.row_columns rows)) as H1.
  { apply (AggregatorFacts.NoDup_map_transfer _ Aggregator.clean_id);
      [|exact Hnd].
    intros x y Hx Hy E.
    destruct (Hrow x Hx) as (sx & _ & Kx & Cx).
    destruct (Hrow y Hy) as (sy & _ & Ky & Cy).
    rewrite Kx, Ky. apply AggregatorFacts.key_of_columns. congruence. }
  assert (forall g, In g (map AggregatorFacts.row_columns rows) <->
                    In g (map AggregatorFacts.group_columns schedules_df)) as H2.
  { intros g. rewrite !in_map_iff. split.
    - intros (r & <- & Hr). destruct (Hrow r Hr) as (s & Hs & _ & C).
      exists s. auto.
    - intros (s & <- & Hs).
      assert (In (Aggregator.key_of s) (map Aggregator.clean_id rows)) as Hk
        by (apply Hids, in_map, Hs).
      apply in_map_iff in Hk. destruct Hk as (r & Kr & Hr).
      destruct (Hrow r Hr) as (s' & Hs' & K' & C').
      exists r. split; [|exact Hr]. rewrite C'.
      apply AggregatorFacts.key_of_inj; [apply Hbits, Hs'|apply Hbits, Hs|].
      congruence. }
  split; [exact H1|]. split; [exact H2|].
  rewrite <- (length_map AggregatorFacts.row_columns).
  apply Permutation_length, Stdlib.Sorting.Permutation.NoDup_Permutation;
    [exact H1|apply CleanerFacts.NoDup_remove_dups_list|].
  intros g. rewrite H2, CleanerFacts.In_remove_dups. reflexivity.
Qed.

Lemma left_join_completeness_witness :
  length (Aggregator.aggregate_from_matches
            [{| Aggregator.mr_schedule_id := 2000000;
                Aggregator.mr_citation_time := 9 |}]
            AggregatorFacts.two_groups) = 2%nat.
Proof.
  rewrite (proj2 (proj2 (left_join_completeness
                           [{| Aggregator.mr_schedule_id := 2000000;
                               Aggregator.mr_citation_time := 9 |}]
                           AggregatorFacts.two_groups
                           ltac:(discriminate)
                           ltac:(intros s [<-|[<-|[<-|[]]]]; vm_compute; tauto)))).
  vm_compute. reflexivity.
Defined.

Example aggregate_without_matches :
  map Aggregator.citation_count
    (Aggregator.aggregate_from_matches []
       [PipelineFacts.rule_8_10; long_rule]) = [0%nat; 0%nat].
Proof. vm_compute. reflexivity. Qed.

(** ** The confidence score *)

Module ScorerFacts.

Import PyStr Scorer.

Lemma digit_parses (c : ascii) (d : Decimal.uint) :
  is_digit c = true -> exists d', uint_of_char c (Some d) = Some d'.
Proof.
  destruct c as [[] [] [] [] [] [] [] []]; intros H; vm_compute in H;
    try discriminate H; eexists; reflexivity.
Qed.

Lemma digits_parse (ds : t) :
  forallb is_digit ds = true ->
  exists d, NilEmpty.uint_of_string (string_of_list_ascii ds) = Some d.
Proof.
  induction ds as [|c ds IH]; intros H; [exists Decimal.Nil; reflexivity|].
  cbn [forallb] in H. apply andb_true_iff in H as [Hc H].
  destruct (IH H) as [d Hd]. cbn [string_of_list_ascii NilEmpty.uint_of_string].
  rewrite Hd. apply digit_parses, Hc.
Qed.

Lemma firstn_run_length (cls : ascii -> bool) (s : t) :
  forallb cls (firstn (run_length cls s) s) = true.
Proof.
  induction s as [|c s IH]; [reflexivity|]. cbn [run_length].
  destruct (cls c) eqn:E; [|reflexivity].
  cbn [firstn forallb]. rewrite E, IH. reflexivity.
Qed.

Lemma leading_digits_are_digits (s : t) :
  forallb is_digit (leading_digits s) = true.
Proof. apply firstn_run_length. Qed.

(** A number written without a leading zero is printed as it was read,
    and is not zero. *)
Lemma str_of_int_of_digits (c : ascii) (ds : t) :
  forallb is_digit (c :: ds) = true -> c <> "0"%char ->
  str_of_int (int_of_digits (c :: ds)) = c :: ds /\
  int_of_digits (c :: ds) <> 0%N.
Proof.
  intros Hd Hc. destruct (digits_parse _ Hd) as [d Hp].
  unfold int_of_digits, str_of_int. rewrite Hp.
  pose proof (NilEmpty.sus _ _ Hp) as Hs.
  assert (Decimal.unorm d = d /\ d <> Decimal.Nil /\ Decimal.unorm d <> Decimal.zero)
    as (Hu & Hn & Hz).
  { cbn [string_of_list_ascii NilEmpty.uint_of_string] in Hp.
    destruct (NilEmpty.uint_of_string (string_of_list_ascii ds)) as [d0|];
      [|discriminate Hp].
    apply uint_of_char_spec in Hp.
    destruct Hp as [[E _]|Hp]; [contradiction|].
    repeat (destruct Hp as [[_ ->]|Hp]; [repeat split; discriminate|]).
    destruct Hp as [_ ->]. repeat split; discriminate. }
  split.
  - rewrite DecimalN.Unsigned.to_of, Hu.
    replace (NilZero.string_of_uint d) with (NilEmpty.string_of_uint d)
      by (destruct d; [contradiction|..]; reflexivity).
    rewrite Hs. apply list_ascii_of_string_of_list_ascii.
  - intros E. apply Hz.
    change 0%N with (N.of_uint Decimal.zero) in E.
    apply DecimalN.Unsigned.of_iff in E. exact E.
Qed.

(** Without a leading zero, the test of the source is the literal one. *)
Lemma number_in_result_literal (original_address returned_address : t) :
  startswith (leading_digits (strip original_address)) (py "0") = false ->
  number_in_result original_address returned_address =
  ScoreSpec.number_appears_literally original_address returned_address.
Proof.
  unfold number_in_result, ScoreSpec.number_appears_literally,
    extract_street_number.
  pose proof (leading_digits_are_digits (strip original_address)) as Hd.
  destruct (leading_digits (strip original_address)) as [|c ds];
    [reflexivity|].
  intros H0.
  assert (c <> "0"%char) as Hc.
  { intros ->. destruct ds; vm_compute in H0; discriminate H0. }
  destruct (str_of_int_of_digits c ds Hd Hc) as [Hs Hn].
  destruct (N.eqb_spec (int_of_digits (c :: ds)) 0); [contradiction|].
  rewrite Hs. reflexivity.
Qed.

Lemma score_cases (original_address returned_address : t) :
  fst (validate_geocoding_result original_address returned_address) =
  ScoreSpec.points (street_in_result original_address returned_address) 40
  + ScoreSpec.points (number_in_result original_address returned_address) 50
  + ScoreSpec.points (negb (is_general returned_address)) 10.
Proof.
  unfold validate_geocoding_result, ScoreSpec.points. cbn [fst].
  destruct (street_in_result _ _), (number_in_result _ _),
    (negb (is_general _)); reflexivity.
Qed.

Example street_match_alone :
  validate_geocoding_result (py "MAIN ST")
    (py "Main, Mission District, San Francisco") = (40, LOW).
Proof. vm_compute. reflexivity. Qed.

Example street_and_number_match :
  validate_geocoding_result (py "123 MAIN ST")
    (py "123 Main St, San Francisco, CA") = (90, HIGH).
Proof. vm_compute. reflexivity. Qed.

Example all_three :
  validate_geocoding_result (py "123 MAIN ST") (py "123 Main St") = (100, HIGH).
Proof. vm_compute. reflexivity. Qed.

Example number_zero :
  validate_geocoding_result (py "0 MAIN ST") (py "0 Main St") = (50, MEDIUM).
Proof. vm_compute. reflexivity. Qed.

End ScorerFacts.

(** C7, as the code has it.  For an original address whose leading street
    number, if it has one, is written without a leading zero, the score is
    the sum of 40 if the street core of the original appears in the
    upper-cased returned string, 50 if the street number appears digit for
    digit in the returned string, and 10 if the upper-cased returned string
    contains none of the markers [AVENUE,], [STREET,], [BOULEVARD,],
    [DISTRICT,], [NEIGHBORHOOD,] and [SAN FRANCISCO]; the score lies
    between 0 and 100; the tier is HIGH from 80, MEDIUM from 50 and LOW
    below; and a geocoder without a result gives FAILED. *)
Theorem confidence_score_and_tiers (original_address returned_address : PyStr.t) :
  PyStr.startswith
    (Scorer.leading_digits (PyStr.strip original_address)) (py "0") = false ->
  fst (Scorer.validate_geocoding_result original_address returned_address) =
    ScoreSpec.points
      (PyStr.contains (PyStr.upper returned_address)
         (PyStr.strip (Scorer.orig_core original_address))) 40
    + ScoreSpec.points
        (ScoreSpec.number_appears_literally original_address returned_address) 50
    + ScoreSpec.points
        (negb (existsb (PyStr.contains (PyStr.upper returned_address))
                 Scorer.general_markers)) 10 /\
  0 <= fst (Scorer.validate_geocoding_result original_address returned_address)
    <= 100 /\
  (80 <= fst (Scorer.validate_geocoding_result original_address returned_address)
   -> snd (Scorer.validate_geocoding_result original_address returned_address)
      = Scorer.HIGH) /\
  (50 <= fst (Scorer.validate_geocoding_result original_address returned_address)
      < 80
   -> snd (Scorer.validate_geocoding_result original_address returned_address)
      = Scorer.MEDIUM) /\
  (fst (Scorer.validate_geocoding_result original_address returned_address) < 50
   -> snd (Scorer.validate_geocoding_result original_address returned_address)
      = Scorer.LOW) /\
  Scorer.g_confidence (Scorer.process_citation original_address None)
    = Scorer.FAILED.
Proof.
  intros H0.
  pose proof (ScorerFacts.score_cases original_address returned_address) as Hs.
  rewrite (ScorerFacts.number_in_result_literal _ returned_address H0) in Hs.
  split; [exact Hs|].
  assert (snd (Scorer.validate_geocoding_result original_address returned_address)
          = Scorer.confidence_of_score
              (fst (Scorer.validate_geocoding_result
                      original_address returned_address))) as Ht
    by reflexivity.
  rewrite Ht. unfold Scorer.confidence_of_score.
  set (score := fst (Scorer.validate_geocoding_result
                       original_address returned_address)) in *.
  split.
  - rewrite Hs. unfold ScoreSpec.points.
    destruct (Scorer.street_in_result _ _),
      (ScoreSpec.number_appears_literally _ _), (negb _); lia.
  - repeat split.
    + intros H. destruct (80 <=? score) eqn:E; [reflexivity|lia].
    + intros H. destruct (80 <=? score) eqn:E; [lia|].
      destruct (50 <=? score) eqn:E'; [reflexivity|lia].
    + intros H. destruct (80 <=? score) eqn:E; [lia|].
      destruct (50 <=? score) eqn:E'; [lia|reflexivity].
Qed.

Lemma confidence_score_and_tiers_witness :
  fst (Scorer.validate_geocoding_result (py "123 MAIN ST")
         (py "123 Main St, San Francisco, CA")) = 40 + 50 + 0.
Proof.
  rewrite (proj1 (confidence_score_and_tiers (py "123 MAIN ST")
                    (py "123 Main St, San Francisco, CA")
                    ltac:(vm_compute; reflexivity))).
  vm_compute. reflexivity.
Defined.

(** C7, the claim as written fails.  The returned address
    "123 Main St, San Francisco, CA" is no district or neighbourhood level
    reference, so the claim adds 10 to the 40 and the 50 of the street and
    number matches and has 100; the code finds the marker [SAN FRANCISCO]
    in it and scores 90. *)
Lemma general_markers_include_the_city :
  ScoreSpec.district_or_neighborhood_reference
    (py "123 Main St, San Francisco, CA") = false /\
  fst (Scorer.validate_geocoding_result (py "123 MAIN ST")
         (py "123 Main St, San Francisco, CA")) = 90 /\
  ScoreSpec.points
    (Scorer.street_in_result (py "123 MAIN ST")
       (py "123 Main St, San Francisco, CA")) 40
  + ScoreSpec.points
      (ScoreSpec.number_appears_literally (py "123 MAIN ST")
         (py "123 Main St, San Francisco, CA")) 50
  + ScoreSpec.points
      (negb (ScoreSpec.district_or_neighborhood_reference
               (py "123 Main St, San Francisco, CA"))) 10 = 100.
Proof. vm_compute. repeat split; reflexivity. Qed.

(** * Further properties of the code *)

(** ** Counting the rows of groups *)

Module CountFacts.

Lemma list_sum_cons (x : nat) (l : list nat) :
  list_sum (x :: l) = (x + list_sum l)%nat.
Proof. reflexivity. Qed.

Section Partition.

Context {A K : Type} `{EqDecision K}.
Variable f : A -> K.

Lemma count_zero (k : K) (ids : list K) :
  ~ In k ids ->
  list_sum (map (fun i => if bool_decide (k = i) then 1%nat else 0%nat) ids)
  = 0%nat.
Proof.
  induction ids as [|i ids IH]; [reflexivity|]. intros Hk.
  cbn [map]. rewrite list_sum_cons. rewrite IH by (intros H'; apply Hk; right; exact H').
  rewrite bool_decide_eq_false_2; [reflexivity|].
  intros ->. apply Hk. left. reflexivity.
Qed.

(** Among distinct keys, a given one is met once. *)
Lemma count_one (k : K) (ids : list K) :
  List.NoDup ids -> In k ids ->
  list_sum (map (fun i => if bool_decide (k = i) then 1%nat else 0%nat) ids)
  = 1%nat.
Proof.
  induction 1 as [|i ids Hi Hnd IH]; [intros []|].
  cbn [map]. rewrite list_sum_cons. intros [->|Hin].
  - rewrite bool_decide_eq_true_2 by reflexivity.
    rewrite count_zero by exact Hi. reflexivity.
  - rewrite IH by exact Hin.
    rewrite bool_decide_eq_false_2; [reflexivity|].
    intros ->. exact (Hi Hin).
Qed.

(** The groups of distinct keys split a list all of whose keys occur. *)
Lemma groups_partition (ids : list K) (l : list A) :
  List.NoDup ids ->
  (forall x, In x l -> In (f x) ids) ->
  list_sum
    (map (fun i => length (List.filter (fun x => bool_decide (f x = i)) l)) ids)
  = length l.
Proof.
  intros Hnd. induction l as [|r l IH]; intros Hin.
  - clear Hnd Hin. induction ids as [|i ids IHi]; [reflexivity|].
    cbn [map]. rewrite list_sum_cons, IHi. reflexivity.
  - cbn [length]. rewrite <- (IH (fun r' H' => Hin r' (or_intror H'))).
    pose proof (count_one (f r) ids Hnd (Hin r (or_introl eq_refl))) as Hone.
    assert (forall js,
              list_sum
                (map (fun i =>
                        length (List.filter (fun x => bool_decide (f x = i))
                                  (r :: l))) js)
              = (list_sum
                   (map (fun i => if bool_decide (f r = i)
                                  then 1%nat else 0%nat) js)
                 + list_sum
                     (map (fun i =>
                             length (List.filter
                                       (fun x => bool_decide (f x = i)) l)) js))%nat)
      as Hsplit.
    { induction js as [|i js IHj]; [reflexivity|].
      cbn [map]. rewrite !list_sum_cons, IHj. cbn [List.filter].
      destruct (bool_decide (f r = i)); cbn [length]; lia. }
    rewrite Hsplit, Hone. reflexivity.
Qed.

End Partition.

End CountFacts.

(** ** Street tokens *)

(** The token that the corridor stage compares is upper-case text without
    blanks, and it neither starts nor ends with white space. *)
Theorem normalize_token_shape (x : PyStr.t) :
  (forall c, In c (Matcher.normalize x) ->
             PyStr.is_lower c = false /\ c <> " "%char) /\
  PyStr.strip (Matcher.normalize x) = Matcher.normalize x /\
  PyStr.upper (Matcher.normalize x) = Matcher.normalize x.
Proof.
  pose proof (NormalizerFacts.normalize_compact x) as Hc.
  split; [|split].
  - intros c Hin. exact (proj1 (List.Forall_forall _ _) Hc c Hin).
  - apply PyStrFacts.strip_id, NormalizerFacts.normalize_trimmed.
  - apply PyStrFacts.compact_upper, Hc.
Qed.

(** [normalize_street_name] is idempotent on every string. *)
Theorem normalize_street_name_idempotent (s : PyStr.t) :
  Matcher.normalize_street_name (Matcher.normalize_street_name s) =
  Matcher.normalize_street_name s.
Proof.
  apply NormalizerFacts.normalize_street_name_compact.
  unfold Matcher.normalize_street_name. destruct s as [|c s]; [constructor|].
  apply PyStrFacts.compact_remove_blanks_upper.
Qed.

Lemma lstrip_all_space (s : PyStr.t) :
  forallb PyStr.is_space s = true -> PyStr.lstrip s = [].
Proof.
  induction s as [|c s IH]; [reflexivity|]. cbn [forallb PyStr.lstrip].
  intros H. apply andb_true_iff in H as [-> H]. exact (IH H).
Qed.

(** An address made of white space only (the empty one too) has the empty
    token, so it is never filtered by street name. *)
Theorem blank_address_has_empty_token (address : PyStr.t) :
  forallb PyStr.is_space address = true ->
  Matcher.extract_street_from_address address = [] /\
  Matcher.normalize address = [].
Proof.
  intros H.
  assert (Matcher.extract_street_from_address address = []) as E.
  { unfold Matcher.extract_street_from_address.
    destruct address as [|c address]; [reflexivity|].
    assert (PyStr.strip (c :: address) = []) as ->.
    { unfold PyStr.strip. rewrite (lstrip_all_space _ H). reflexivity. }
    reflexivity. }
  split; [exact E|]. unfold Matcher.normalize. rewrite E. reflexivity.
Qed.

Lemma blank_address_has_empty_token_witness :
  Matcher.normalize (py "   ") = [].
Proof.
  exact (proj2 (blank_address_has_empty_token (py "   ") eq_refl)).
Defined.

(** ** The index built by [build_hybrid_index] *)

Module IndexFacts.

Import Pipeline.

Definition bucket (grid : gmap (Z * Z) (list nat)) (cell : Z * Z) : list nat :=
  default [] (grid !! cell).

Lemma bucket_grid_append (cell0 cell : Z * Z) (idx i : nat)
    (g : gmap (Z * Z) (list nat)) :
  In i (bucket (grid_append cell0 idx g) cell) <->
  In i (bucket g cell) \/ (cell = cell0 /\ i = idx).
Proof.
  unfold bucket, grid_append. destruct (decide (cell0 = cell)) as [->|Hne].
  - rewrite lookup_insert_eq. simpl. rewrite in_app_iff. simpl.
    split; [intros [H|[<-|[]]]; auto|intros [H|[_ ->]]; auto].
  - rewrite lookup_insert_ne by exact Hne.
    split; [auto|intros [H|[-> _]]; [exact H|contradiction]].
Qed.

(** What the loop that fills the grid stores, and where. *)
Lemma bucket_build_grid (c : config) (l : list indexed_schedule) (start : nat)
    (g : gmap (Z * Z) (list nat)) (cell : Z * Z) (i : nat) :
  In i (bucket (build_grid c l start g) cell) <->
  In i (bucket g cell) \/
  exists j s lat lon rest,
    i = (start + j)%nat /\ l !! j = Some s /\
    parsed_coords s = (lat, lon) :: rest /\ cell = lat_lon_to_grid c lat lon.
Proof.
  revert start g. induction l as [|s0 l IH]; intros start g.
  - cbn [build_grid]. split; [auto|].
    intros [H|(j & s & lat & lon & rest & _ & H & _)]; [exact H|discriminate].
  - cbn [build_grid]. rewrite IH. split.
    + intros [H|(j & s & lat & lon & rest & -> & Hj & Hs & Hc)].
      * destruct (parsed_coords s0) as [|[la lo] rest] eqn:E; [left; exact H|].
        apply bucket_grid_append in H. destruct H as [H|[-> ->]]; [left; exact H|].
        right. exists 0%nat, s0, la, lo, rest.
        repeat split; [lia|exact E].
      * right. exists (S j), s, lat, lon, rest. repeat split; [lia|exact Hj|exact Hs|exact Hc].
    + intros [H|(j & s & lat & lon & rest & -> & Hj & Hs & Hc)].
      * left. destruct (parsed_coords s0) as [|[la lo] rest]; [exact H|].
        apply bucket_grid_append. left. exact H.
      * destruct j as [|j].
        -- cbn in Hj. injection Hj as ->. left. rewrite Hs.
           apply bucket_grid_append. right. split; [exact Hc|lia].
        -- right. exists j, s, lat, lon, rest.
           repeat split; [lia|exact Hj|exact Hs|exact Hc].
Qed.

Lemma built_grid_bucket (c : config) (schedule_df : list schedule)
    (cell : Z * Z) (idx : nat) :
  In idx (default [] (spatial_grid (build_hybrid_index c schedule_df) !! cell)) <->
  exists s lat lon rest,
    schedules (build_hybrid_index c schedule_df) !! idx = Some s /\
    parsed_coords s = (lat, lon) :: rest /\
    cell = lat_lon_to_grid c lat lon.
Proof.
  cbn [build_hybrid_index schedules spatial_grid].
  pose proof (bucket_build_grid c (valid_schedules schedule_df) 0 ∅ cell idx) as H.
  unfold bucket in H. rewrite H. rewrite lookup_empty. simpl.
  split.
  - intros [[]|(j & s & lat & lon & rest & -> & Hj & Hs & Hc)].
    exists s, lat, lon, rest. auto.
  - intros (s & lat & lon & rest & Hj & Hs & Hc). right.
    exists idx, s, lat, lon, rest. auto.
Qed.

End IndexFacts.

(** The grid holds an index in a cell exactly when the index is the
    position of a schedule whose first vertex falls in that cell: no index
    is out of range, none is stored in a second cell. *)
Theorem grid_stores_first_vertex_cell
    (c : Pipeline.config) (schedule_df : list schedule) (cell : Z * Z)
    (idx : nat) :
  In idx (default []
            (Pipeline.spatial_grid (Pipeline.build_hybrid_index c schedule_df)
               !! cell)) <->
  exists s lat lon rest,
    Pipeline.schedules (Pipeline.build_hybrid_index c schedule_df) !! idx = Some s /\
    Pipeline.parsed_coords s = (lat, lon) :: rest /\
    cell = Pipeline.lat_lon_to_grid c lat lon.
Proof. apply IndexFacts.built_grid_bucket. Qed.

(** A schedule is a spatial candidate of a query point exactly when the
    cell of its first vertex is at most [grid_search_radius] cells away
    from the cell of the point, in both directions. *)
Theorem spatial_candidates_are_the_block
    (c : Pipeline.config) (schedule_df : list schedule) (lat lon : Q)
    (idx : nat) :
  idx ∈ Pipeline.spatial_candidates
          (Pipeline.build_hybrid_index c schedule_df) lat lon <->
  exists s vlat vlon rest,
    Pipeline.schedules (Pipeline.build_hybrid_index c schedule_df) !! idx = Some s /\
    Pipeline.parsed_coords s = (vlat, vlon) :: rest /\
    Z.abs ((Pipeline.lat_lon_to_grid c vlat vlon).1
           - (Pipeline.lat_lon_to_grid c lat lon).1)
      <= Pipeline.grid_search_radius c /\
    Z.abs ((Pipeline.lat_lon_to_grid c vlat vlon).2
           - (Pipeline.lat_lon_to_grid c lat lon).2)
      <= Pipeline.grid_search_radius c.
Proof.
  rewrite GridFacts.elem_of_spatial_candidates.
  change (Pipeline.cfg (Pipeline.build_hybrid_index c schedule_df)) with c.
  destruct (Pipeline.lat_lon_to_grid c lat lon) as [qx qy] eqn:Eq. cbn [fst snd].
  split.
  - intros (dx & dy & Hx & Hy & H).
    destruct (proj1 (IndexFacts.built_grid_bucket c schedule_df _ idx) H)
      as (s & vlat & vlon & rest & Hs & Hv & Hc).
    exists s, vlat, vlon, rest. rewrite <- Hc. cbn [fst snd].
    repeat split; [exact Hs|exact Hv|lia|lia].
  - intros (s & vlat & vlon & rest & Hs & Hv & Hx & Hy).
    destruct (Pipeline.lat_lon_to_grid c vlat vlon) as [vx vy] eqn:Ev.
    cbn [fst snd] in Hx, Hy.
    exists (vx - qx), (vy - qy). split; [lia|]. split; [lia|].
    apply (proj2 (IndexFacts.built_grid_bucket c schedule_df _ idx)).
    exists s, vlat, vlon, rest. repeat split; [exact Hs|exact Hv|].
    rewrite Ev. f_equal; lia.
Qed.

(** ** The matches of one citation *)

Module MatchFacts.

Import Pipeline.

(** [a] is at most as far as [b]. *)
Definition by_distance (a b : match_result) : Prop :=
  distance_leb (m_distance_meters a) (m_distance_meters b) = true.

Lemma insert_by_distance_perm (x : match_result) (l : list match_result) :
  Permutation (insert_by_distance x l) (x :: l).
Proof.
  induction l as [|y l IH]; cbn [insert_by_distance]; [reflexivity|].
  destruct (distance_ltb _ _); [|reflexivity].
  rewrite IH. apply perm_swap.
Qed.

Lemma sort_by_distance_perm (l : list match_result) :
  Permutation (sort_by_distance l) l.
Proof.
  unfold sort_by_distance. induction l as [|x l IH]; cbn [fold_right];
    [reflexivity|].
  rewrite insert_by_distance_perm, IH. reflexivity.
Qed.

Lemma In_sort_by_distance (l : list match_result) (r : match_result) :
  In r (sort_by_distance l) <-> In r l.
Proof.
  split; apply Permutation_in;
    [apply sort_by_distance_perm|symmetry; apply sort_by_distance_perm].
Qed.

Lemma insert_by_distance_sorted (x : match_result) (l : list match_result) :
  Sorted by_distance l -> Sorted by_distance (insert_by_distance x l).
Proof.
  induction 1 as [|y l Hs IH Hhd]; cbn [insert_by_distance].
  - constructor; constructor.
  - destruct (distance_ltb (m_distance_meters y) (m_distance_meters x)) eqn:E.
    + assert (by_distance y x) as Hyx.
      { unfold by_distance. unfold distance_ltb in E.
        apply negb_true_iff in E. apply DistanceFacts.distance_leb_total, E. }
      constructor; [exact IH|].
      destruct l as [|z l]; cbn [insert_by_distance].
      * constructor. exact Hyx.
      * destruct (distance_ltb (m_distance_meters z) (m_distance_meters x));
          constructor; [|exact Hyx].
        inversion Hhd. assumption.
    + constructor; [constructor; assumption|]. constructor.
      unfold by_distance. unfold distance_ltb in E.
      apply negb_false_iff in E. exact E.
Qed.

Lemma sort_by_distance_sorted (l : list match_result) :
  Sorted by_distance (sort_by_distance l).
Proof.
  unfold sort_by_distance. induction l as [|x l IH]; cbn [fold_right].
  - constructor.
  - apply insert_by_distance_sorted, IH.
Qed.

Section OneCitation.

Variable geodesic : point -> point -> Q.
Variable m : matcher.
Variable c : citation.

(** The columns of a match of candidate [idx]. *)
Lemma distance_match_Some (idx : nat) (r : match_result) :
  distance_match geodesic m c idx = Some r <->
  exists s,
    schedules m !! idx = Some s /\
    distance_leb
      (calculate_distance_to_schedule geodesic (latitude c, longitude c)
         (parsed_coords s))
      (Meters (max_distance_meters (cfg m))) = true /\
    r = {| m_citation_id := citation_id c;
           m_index := idx;
           m_schedule_id := schedule_id (row s);
           m_cnn := cnn (row s);
           m_corridor := corridor (row s);
           m_limits := limits (row s);
           m_cnn_right_left := cnn_right_left (row s);
           m_block_side := block_side (row s);
           m_distance_meters :=
             calculate_distance_to_schedule geodesic (latitude c, longitude c)
               (parsed_coords s);
           m_weekday := fst (citation_time c);
           m_scheduled_from_hour := scheduled_from_hour (row s);
           m_scheduled_to_hour := scheduled_to_hour (row s);
           m_citation_time := snd (citation_time c) |}.
Proof.
  unfold distance_match. destruct (schedules m !! idx) as [s|].
  - destruct (distance_leb _ _) eqn:E.
    + split.
      * intros [= <-]. exists s. auto.
      * intros (s' & [= <-] & _ & ->). reflexivity.
    + split; [discriminate|]. intros (s' & [= <-] & H & _). congruence.
  - split; [discriminate|]. intros (s' & H & _). discriminate.
Qed.

Lemma In_distance_matches (l : list nat) (r : match_result) :
  In r (distance_matches geodesic m c l) <->
  In (m_index r) l /\ distance_match geodesic m c (m_index r) = Some r.
Proof.
  unfold distance_matches.
  rewrite <- list_elem_of_In, list_elem_of_omap. split.
  - intros (i & Hi & Hr). apply list_elem_of_In in Hi.
    pose proof (proj1 (distance_match_Some i r) Hr) as (s & _ & _ & ->).
    cbn [m_index] in *. split; [exact Hi|exact Hr].
  - intros [Hi Hr]. exists (m_index r). split; [|exact Hr].
    apply list_elem_of_In, Hi.
Qed.

Lemma street_candidates_iff (token : PyStr.t) (spatial : gset nat) (idx : nat) :
  In idx (street_candidates m token spatial) <->
  idx ∈ spatial /\
  (token = [] \/
   exists s, schedules m !! idx = Some s /\
     street_matches token (normalized_corridor s) = true).
Proof.
  destruct token as [|a token].
  - cbn [street_candidates]. rewrite <- list_elem_of_In, elem_of_elements.
    split; [auto|tauto].
  - rewrite (street_stage_with_token m (a :: token) spatial idx) by discriminate.
    split.
    + intros [H1 H2]. auto.
    + intros [H1 [H2|H2]]; [discriminate|auto].
Qed.

Lemma NoDup_map_index_distance_matches (l : list nat) :
  List.NoDup l ->
  List.NoDup (map m_index (distance_matches geodesic m c l)).
Proof.
  unfold distance_matches. induction 1 as [|i l Hi Hnd IH]; [constructor|].
  rewrite CleanerFacts.omap_cons_eq.
  destruct (distance_match geodesic m c i) as [r|] eqn:E; [|exact IH].
  cbn [map]. constructor; [|exact IH].
  pose proof (proj1 (distance_match_Some i r) E) as (s & _ & _ & ->).
  cbn [m_index]. intros Hin. apply in_map_iff in Hin.
  destruct Hin as (r' & Hidx & Hr').
  apply (In_distance_matches l r') in Hr'. destruct Hr' as [Hr' _].
  apply Hi. rewrite <- Hidx. exact Hr'.
Qed.

Lemma NoDup_filter {A} (f : A -> bool) (l : list A) :
  List.NoDup l -> List.NoDup (List.filter f l).
Proof.
  induction 1 as [|x l Hx Hnd IH]; cbn [List.filter]; [constructor|].
  destruct (f x); [|exact IH]. constructor; [|exact IH].
  intros Hin. apply List.filter_In in Hin. tauto.
Qed.

Lemma NoDup_street_candidates (token : PyStr.t) (spatial : gset nat) :
  List.NoDup (street_candidates m token spatial).
Proof.
  assert (List.NoDup (elements spatial)) as H
    by (apply NoDup_ListNoDup, NoDup_elements).
  unfold street_candidates. destruct token; [exact H|].
  apply NoDup_filter, H.
Qed.

End OneCitation.

End MatchFacts.

(** A schedule is among the matches of a citation exactly when it passes
    the four stages: it is a spatial candidate; the citation has no street
    token or the token and the corridor token contain one another; the
    weekdays agree and the time lies in the window, both ends included;
    and the distance to its line is at most [max_distance_meters]. *)
Theorem matched_exactly_when_all_stages_pass
    (geodesic : point -> point -> Q) (m : Pipeline.matcher) (c : citation)
    (idx : nat) :
  (exists r, In r (Pipeline.hybrid_match_citation geodesic m c) /\
             Pipeline.m_index r = idx) <->
  idx ∈ Pipeline.spatial_candidates m (latitude c) (longitude c) /\
  exists s,
    Pipeline.schedules m !! idx = Some s /\
    (Matcher.normalize (address c) = [] \/
     Pipeline.street_matches (Matcher.normalize (address c))
       (Pipeline.normalized_corridor s) = true) /\
    weekday (Pipeline.row s) = fst (Pipeline.citation_time c) /\
    (inject_Z (scheduled_from_hour (Pipeline.row s))
       <= snd (Pipeline.citation_time c))%Q /\
    (snd (Pipeline.citation_time c)
       <= inject_Z (scheduled_to_hour (Pipeline.row s)))%Q /\
    distance_leb
      (Pipeline.calculate_distance_to_schedule geodesic
         (latitude c, longitude c) (Pipeline.parsed_coords s))
      (Meters (Pipeline.max_distance_meters (Pipeline.cfg m))) = true.
Proof.
  rewrite hybrid_match_citation_stages. split.
  - intros (r & Hin & <-).
    apply MatchFacts.In_sort_by_distance, MatchFacts.In_distance_matches in Hin.
    destruct Hin as [Hin Hr].
    apply MatchFacts.distance_match_Some in Hr.
    destruct Hr as (s & Hs & Hd & _).
    unfold Pipeline.day_and_time_candidates in Hin.
    apply List.filter_In in Hin. destruct Hin as [Hin Ht].
    rewrite Hs in Ht. apply PipelineFacts.day_and_time_matches_iff in Ht.
    apply MatchFacts.street_candidates_iff in Hin. destruct Hin as [Hsp Hst].
    split; [exact Hsp|]. exists s. split; [exact Hs|]. split.
    + destruct Hst as [Hst|(s' & Hs' & Hst)]; [left; exact Hst|right].
      rewrite Hs in Hs'. injection Hs' as <-. exact Hst.
    + tauto.
  - intros (Hsp & s & Hs & Hst & Hwd & Hfrom & Hto & Hd).
    pose proof (proj2 (MatchFacts.distance_match_Some geodesic m c idx _)
                  (ex_intro _ s (conj Hs (conj Hd eq_refl)))) as Hr.
    match type of Hr with _ = Some ?r => exists r end.
    split; [|reflexivity].
    apply MatchFacts.In_sort_by_distance, MatchFacts.In_distance_matches.
    cbn [Pipeline.m_index]. split; [|exact Hr].
    unfold Pipeline.day_and_time_candidates. apply List.filter_In. split.
    + apply MatchFacts.street_candidates_iff. split; [exact Hsp|].
      destruct Hst as [Hst|Hst]; [left; exact Hst|right; exists s; auto].
    + rewrite Hs. apply PipelineFacts.day_and_time_matches_iff. auto.
Qed.

(** Every match that is returned carries the weekday and the time of the
    citation, a window that contains this time, and a distance that is at
    most [max_distance_meters]; its identifier is the one of the schedule
    at its index. *)
Theorem matches_are_within_window_and_distance
    (geodesic : point -> point -> Q) (m : Pipeline.matcher) (c : citation)
    (r : Pipeline.match_result) :
  In r (Pipeline.hybrid_match_citation geodesic m c) ->
  Pipeline.m_citation_id r = citation_id c /\
  Pipeline.m_weekday r = fst (Pipeline.citation_time c) /\
  Pipeline.m_citation_time r = snd (Pipeline.citation_time c) /\
  (inject_Z (Pipeline.m_scheduled_from_hour r) <= Pipeline.m_citation_time r)%Q /\
  (Pipeline.m_citation_time r <= inject_Z (Pipeline.m_scheduled_to_hour r))%Q /\
  distance_leb (Pipeline.m_distance_meters r)
    (Meters (Pipeline.max_distance_meters (Pipeline.cfg m))) = true /\
  exists s,
    Pipeline.schedules m !! Pipeline.m_index r = Some s /\
    Pipeline.m_schedule_id r = schedule_id (Pipeline.row s) /\
    weekday (Pipeline.row s) = Pipeline.m_weekday r.
Proof.
  rewrite hybrid_match_citation_stages. intros Hin.
  apply MatchFacts.In_sort_by_distance, MatchFacts.In_distance_matches in Hin.
  destruct Hin as [Hin Hr].
  apply MatchFacts.distance_match_Some in Hr.
  destruct Hr as (s & Hs & Hd & Hr).
  unfold Pipeline.day_and_time_candidates in Hin.
  apply List.filter_In in Hin. destruct Hin as [_ Ht].
  rewrite Hs in Ht. apply PipelineFacts.day_and_time_matches_iff in Ht.
  destruct Ht as (Hwd & Hfrom & Hto).
  rewrite Hr in *. cbn in *.
  repeat split; try assumption; try reflexivity.
  exists s. auto.
Qed.

Lemma matches_are_within_window_and_distance_witness :
  exists r,
    Pipeline.hybrid_match_citation Geodesic.flat_distance
      PipelineFacts.one_rule_matcher (PipelineFacts.citation_at 9 5) = [r] /\
    Pipeline.m_weekday r = Tuesday /\
    distance_leb (Pipeline.m_distance_meters r) (Meters 200) = true.
Proof.
  eexists. split; [vm_compute; reflexivity|].
  match goal with
  | |- Pipeline.m_weekday ?r = _ /\ _ =>
      pose proof (matches_are_within_window_and_distance Geodesic.flat_distance
                    PipelineFacts.one_rule_matcher (PipelineFacts.citation_at 9 5)
                    r ltac:(vm_compute; left; reflexivity)) as H
  end.
  destruct H as (_ & Hw & _ & _ & _ & Hd & _). split; [exact Hw|exact Hd].
Defined.

(** The matches of a citation come in ascending order of distance, and no
    schedule index occurs twice among them. *)
Theorem matches_sorted_without_repeats
    (geodesic : point -> point -> Q) (m : Pipeline.matcher) (c : citation) :
  Sorted MatchFacts.by_distance (Pipeline.hybrid_match_citation geodesic m c) /\
  List.NoDup (map Pipeline.m_index (Pipeline.hybrid_match_citation geodesic m c)).
Proof.
  rewrite hybrid_match_citation_stages. split.
  - apply MatchFacts.sort_by_distance_sorted.
  - eapply Permutation_NoDup.
    + symmetry. apply Permutation_map, MatchFacts.sort_by_distance_perm.
    + apply MatchFacts.NoDup_map_index_distance_matches.
      unfold Pipeline.day_and_time_candidates.
      apply MatchFacts.NoDup_filter, MatchFacts.NoDup_street_candidates.
Qed.

(** ** All citations and the estimates per schedule *)

Module DayEstimateFacts.

Import Pipeline DayEstimates.

Lemma Qle_bool_false (x y : Q) : Qle_bool x y = false -> (y <= x)%Q.
Proof.
  intros H. apply Qlt_le_weak, Qnot_le_lt. intros Hle.
  apply Qle_bool_iff in Hle. congruence.
Qed.

Lemma Qmin_of_spec (x : Q) (xs : list Q) :
  In (Qmin_of x xs) (x :: xs) /\
  forall y, In y (x :: xs) -> (Qmin_of x xs <= y)%Q.
Proof.
  unfold Qmin_of. revert x.
  induction xs as [|z xs IH]; intros x; cbn [fold_left].
  - split; [left; reflexivity|]. intros y [<-|[]]. apply Qle_refl.
  - destruct (Qle_bool x z) eqn:E.
    + apply Qle_bool_iff in E. destruct (IH x) as [[H1|H1] H2].
      * split; [left; exact H1|].
        intros y [<-|[<-|Hy]]; [apply H2; left; reflexivity| |apply H2; right; exact Hy].
        eapply Qle_trans; [apply H2; left; reflexivity|exact E].
      * split; [right; right; exact H1|].
        intros y [<-|[<-|Hy]]; [apply H2; left; reflexivity| |apply H2; right; exact Hy].
        eapply Qle_trans; [apply H2; left; reflexivity|exact E].
    + apply Qle_bool_false in E. destruct (IH z) as [H1 H2].
      split; [right; exact H1|].
      intros y [<-|Hy]; [|exact (H2 y Hy)].
      eapply Qle_trans; [apply H2; left; reflexivity|exact E].
Qed.

Lemma Qmax_of_spec (x : Q) (xs : list Q) :
  In (Qmax_of x xs) (x :: xs) /\
  forall y, In y (x :: xs) -> (y <= Qmax_of x xs)%Q.
Proof.
  unfold Qmax_of. revert x.
  induction xs as [|z xs IH]; intros x; cbn [fold_left].
  - split; [left; reflexivity|]. intros y [<-|[]]. apply Qle_refl.
  - destruct (Qle_bool z x) eqn:E.
    + apply Qle_bool_iff in E. destruct (IH x) as [[H1|H1] H2].
      * split; [left; exact H1|].
        intros y [<-|[<-|Hy]]; [apply H2; left; reflexivity| |apply H2; right; exact Hy].
        eapply Qle_trans; [exact E|apply H2; left; reflexivity].
      * split; [right; right; exact H1|].
        intros y [<-|[<-|Hy]]; [apply H2; left; reflexivity| |apply H2; right; exact Hy].
        eapply Qle_trans; [exact E|apply H2; left; reflexivity].
    + apply Qle_bool_false in E. destruct (IH z) as [H1 H2].
      split; [right; exact H1|].
      intros y [<-|Hy]; [|exact (H2 y Hy)].
      eapply Qle_trans; [exact E|apply H2; left; reflexivity].
Qed.

Lemma match_has_schedule (geodesic : point -> point -> Q) (m : matcher)
    (c : citation) (r : match_result) :
  In r (hybrid_match_citation geodesic m c) ->
  exists s, In s (schedules m) /\ m_schedule_id r = schedule_id (row s).
Proof.
  rewrite hybrid_match_citation_stages. intros Hin.
  apply MatchFacts.In_sort_by_distance, MatchFacts.In_distance_matches in Hin.
  destruct Hin as [_ Hr]. apply MatchFacts.distance_match_Some in Hr.
  destruct Hr as (s & Hs & _ & ->). cbn [m_schedule_id].
  exists s. split; [|reflexivity].
  apply list_elem_of_In. eapply list_elem_of_lookup_2. exact Hs.
Qed.

(** Three times 6.1: the float mean falls below all of them. *)
Example mean_below_minimum :
  (Float.mean_in_order
     [Float.lit (61 # 10); Float.lit (61 # 10); Float.lit (61 # 10)]
   < Float.lit (61 # 10))%Q.
Proof. vm_compute. reflexivity. Qed.

End DayEstimateFacts.

(** The statistics of a row of the estimates: the count is the number of
    matches with the identifier of the row; without such a match the three
    times are [None]; otherwise the minimum and the maximum are times of
    such matches that bound all of them, and the average is the library's
    mean of these times. *)
Theorem estimate_statistics
    (mean : list Q -> Q)
    (m : Pipeline.matcher) (matches_df : list Pipeline.match_result)
    (e : DayEstimates.schedule_estimate) :
  In e (DayEstimates.generate_day_specific_estimates mean m matches_df) ->
  let times :=
    map Pipeline.m_citation_time
      (DayEstimates.matches_of (DayEstimates.se_schedule_id e) matches_df) in
  DayEstimates.se_citation_count e = length times /\
  (times = [] ->
   DayEstimates.se_avg_citation_time e = None /\
   DayEstimates.se_min_citation_time e = None /\
   DayEstimates.se_max_citation_time e = None) /\
  (times <> [] ->
   exists lo hi,
     DayEstimates.se_min_citation_time e = Some lo /\
     DayEstimates.se_max_citation_time e = Some hi /\
     DayEstimates.se_avg_citation_time e = Some (mean times) /\
     In lo times /\ In hi times /\
     (forall t, In t times -> lo <= t /\ t <= hi)%Q).
Proof.
  unfold DayEstimates.generate_day_specific_estimates. intros Hin.
  apply in_map_iff in Hin. destruct Hin as (s & <- & _).
  cbn [DayEstimates.estimate_of DayEstimates.se_schedule_id
       DayEstimates.se_citation_count DayEstimates.se_avg_citation_time
       DayEstimates.se_min_citation_time DayEstimates.se_max_citation_time].
  cbv zeta.
  set (times := map Pipeline.m_citation_time
                  (DayEstimates.matches_of (schedule_id (Pipeline.row s))
                     matches_df)).
  split; [reflexivity|]. destruct times as [|t ts].
  - split; [auto|]. intros H. contradiction H. reflexivity.
  - split; [discriminate|]. intros _.
    destruct (DayEstimateFacts.Qmin_of_spec t ts) as [L1 L2].
    destruct (DayEstimateFacts.Qmax_of_spec t ts) as [U1 U2].
    exists (DayEstimates.Qmin_of t ts), (DayEstimates.Qmax_of t ts).
    repeat split; try assumption; try reflexivity;
      try (apply L2; assumption); try (apply U2; assumption).
Qed.

Lemma estimate_statistics_witness :
  let matches :=
    Pipeline.hybrid_match_citation Geodesic.flat_distance
      PipelineFacts.one_rule_matcher (PipelineFacts.citation_at 9 30) in
  exists e,
    DayEstimates.generate_day_specific_estimates Float.mean_in_order
      PipelineFacts.one_rule_matcher matches = [e] /\
    DayEstimates.se_citation_count e = 1%nat.
Proof.
  intros matches. eexists. split; [vm_compute; reflexivity|].
  match goal with
  | |- DayEstimates.se_citation_count ?e = _ =>
      pose proof (estimate_statistics Float.mean_in_order
                    PipelineFacts.one_rule_matcher matches e
                    ltac:(vm_compute; left; reflexivity)) as H
  end.
  destruct H as [H _]. rewrite H. vm_compute. reflexivity.
Defined.

(** Matching and estimating together: when the indexed schedules have
    distinct identifiers, the citation counts of the estimates add up to
    the number of matches of all citations, so that no match is lost and
    none is counted twice. *)
Theorem every_match_is_counted_once
    (geodesic : point -> point -> Q) (mean : list Q -> Q) (m : Pipeline.matcher)
    (citation_df : list citation) :
  List.NoDup (map (fun s => schedule_id (Pipeline.row s)) (Pipeline.schedules m)) ->
  list_sum
    (map DayEstimates.se_citation_count
       (DayEstimates.generate_day_specific_estimates mean m
          (DayEstimates.process_all_citations geodesic m citation_df)))
  = length (DayEstimates.process_all_citations geodesic m citation_df).
Proof.
  intros Hnd. unfold DayEstimates.generate_day_specific_estimates.
  rewrite map_map.
  rewrite <- (CountFacts.groups_partition Pipeline.m_schedule_id _ _ Hnd).
  - rewrite map_map. f_equal. apply map_ext. intros s.
    cbn [DayEstimates.estimate_of DayEstimates.se_citation_count].
    apply length_map.
  - intros r Hin. unfold DayEstimates.process_all_citations in Hin.
    apply in_flat_map in Hin. destruct Hin as (c & _ & Hin).
    destruct (DayEstimateFacts.match_has_schedule geodesic m c r Hin)
      as (s & Hs & ->).
    apply in_map_iff. exists s. auto.
Qed.

Lemma every_match_is_counted_once_witness :
  list_sum
    (map DayEstimates.se_citation_count
       (DayEstimates.generate_day_specific_estimates
          Float.mean_in_order PipelineFacts.one_rule_matcher
          (DayEstimates.process_all_citations Geodesic.flat_distance
             PipelineFacts.one_rule_matcher
             [PipelineFacts.citation_at 9 30; PipelineFacts.citation_at 11 0;
              PipelineFacts.citation_at 8 0])))
  = length
      (DayEstimates.process_all_citations Geodesic.flat_distance
         PipelineFacts.one_rule_matcher
         [PipelineFacts.citation_at 9 30; PipelineFacts.citation_at 11 0;
          PipelineFacts.citation_at 8 0]).
Proof.
  apply (every_match_is_counted_once Geodesic.flat_distance
           Float.mean_in_order PipelineFacts.one_rule_matcher).
  vm_compute. constructor; [intros []|constructor].
Defined.

(** ** The archived distance against the distance of the production matcher *)

Module ArchiveDistanceFacts.

(** [geodesic] depends on the coordinates of its second point as numbers. *)
Definition respects_coordinates (geodesic : point -> point -> Q) : Prop :=
  forall p q q' : point,
    (fst q == fst q')%Q -> (snd q == snd q')%Q ->
    (geodesic p q == geodesic p q')%Q.

Lemma flat_distance_respects : respects_coordinates Geodesic.flat_distance.
Proof.
  intros p q q' H1 H2. unfold Geodesic.flat_distance.
  rewrite H1, H2. reflexivity.
Qed.

Lemma point_eqb_true (a b : point) :
  point_eqb a b = true -> (fst a == fst b)%Q /\ (snd a == snd b)%Q.
Proof.
  unfold point_eqb. intros H. apply andb_true_iff in H as [H1 H2].
  split; apply Qeq_bool_iff; assumption.
Qed.

Section Sampled.

Variable geodesic : point -> point -> Q.
Hypothesis Hresp : respects_coordinates geodesic.
Variable p : point.

(** The distance to a segment is at most the distance to either end. *)
Lemma segment_le_ends (a b : point) :
  (ArchiveDistance._point_to_line_segment_distance geodesic p a b
     <= geodesic p a)%Q /\
  (ArchiveDistance._point_to_line_segment_distance geodesic p a b
     <= geodesic p b)%Q.
Proof.
  unfold ArchiveDistance._point_to_line_segment_distance.
  destruct (point_eqb a b) eqn:E.
  - apply point_eqb_true in E as [E1 E2].
    split; [apply Qle_refl|]. rewrite (Hresp p a b E1 E2). apply Qle_refl.
  - match goal with
    | |- context [ArchiveDistance.min_of ?d ?ds] =>
        destruct (DistanceFacts.min_of_le d ds) as [H1 H2]
    end.
    split; [exact H1|]. apply H2. left. reflexivity.
Qed.

Lemma segments_min_lower (coords : list point) (acc : distance) :
  distance_leb (ArchiveDistance.segments_min geodesic p coords acc) acc = true /\
  ((2 <= length coords)%nat ->
   forall v, In v coords ->
     distance_leb (ArchiveDistance.segments_min geodesic p coords acc)
       (Meters (geodesic p v)) = true).
Proof.
  revert acc. induction coords as [|p1 coords IH]; intros acc.
  - split; [apply DistanceFacts.distance_leb_refl|]. cbn [length]. lia.
  - destruct coords as [|p2 rest].
    + split; [apply DistanceFacts.distance_leb_refl|]. cbn [length]. lia.
    + cbn [ArchiveDistance.segments_min].
      set (seg := ArchiveDistance._point_to_line_segment_distance geodesic p p1 p2).
      destruct (IH (distance_min acc (Meters seg))) as [H1 H2].
      destruct (segment_le_ends p1 p2) as [S1 S2]. fold seg in S1, S2.
      assert (distance_leb
                (ArchiveDistance.segments_min geodesic p (p2 :: rest)
                   (distance_min acc (Meters seg)))
                (Meters seg) = true) as Hseg.
      { eapply DistanceFacts.distance_leb_trans;
          [exact H1|apply DistanceFacts.distance_min_le_r]. }
      split.
      * eapply DistanceFacts.distance_leb_trans;
          [exact H1|apply DistanceFacts.distance_min_le_l].
      * intros _ v [<-|[<-|Hv]].
        -- eapply DistanceFacts.distance_leb_trans; [exact Hseg|].
           apply Qle_bool_iff, S1.
        -- eapply DistanceFacts.distance_leb_trans; [exact Hseg|].
           apply Qle_bool_iff, S2.
        -- apply H2; [|right; exact Hv].
           destruct rest; [destruct Hv|cbn [length]; lia].
Qed.

Lemma sampled_le_vertex (coords : list point) :
  distance_leb
    (ArchiveDistance.calculate_distance_to_schedule geodesic p coords)
    (Pipeline.calculate_distance_to_schedule geodesic p coords) = true.
Proof.
  destruct coords as [|v0 [|v1 coords]];
    [reflexivity|apply DistanceFacts.distance_leb_refl|].
  rewrite DistanceFacts.calculate_distance_is_vertex_loop.
  cbv beta iota delta [ArchiveDistance.calculate_distance_to_schedule].
  destruct (DistanceFacts.vertex_loop_attained geodesic p (v0 :: v1 :: coords)
              Infinite) as [->|(v & Hv & ->)].
  - destruct (ArchiveDistance.segments_min _ _ _ _); reflexivity.
  - apply (proj2 (segments_min_lower (v0 :: v1 :: coords) Infinite));
      [cbn [length]; lia|exact Hv].
Qed.

End Sampled.

End ArchiveDistanceFacts.

(** The archived matcher, which also samples three inner points of every
    segment, never measures a citation farther from a line than the
    production matcher, which looks at the vertices only: whatever the
    production matcher accepts within a threshold, the archived distance
    accepts too. *)
Theorem sampled_distance_is_at_most_vertex_distance
    (geodesic : point -> point -> Q) (p : point) (coords : list point)
    (threshold : Q) :
  ArchiveDistanceFacts.respects_coordinates geodesic ->
  distance_leb
    (ArchiveDistance.calculate_distance_to_schedule geodesic p coords)
    (Pipeline.calculate_distance_to_schedule geodesic p coords) = true /\
  (distance_leb (Pipeline.calculate_distance_to_schedule geodesic p coords)
     (Meters threshold) = true ->
   distance_leb (ArchiveDistance.calculate_distance_to_schedule geodesic p coords)
     (Meters threshold) = true).
Proof.
  intros Hresp.
  pose proof (ArchiveDistanceFacts.sampled_le_vertex geodesic Hresp p coords) as H.
  split; [exact H|]. intros Ht.
  eapply DistanceFacts.distance_leb_trans; [exact H|exact Ht].
Qed.

Lemma sampled_distance_is_at_most_vertex_distance_witness :
  distance_leb
    (ArchiveDistance.calculate_distance_to_schedule Geodesic.flat_distance
       ((375 # 10), -(122 # 1))%Q
       [((37 # 1), -(122 # 1)); ((38 # 1), -(122 # 1))]%Q)
    (Pipeline.calculate_distance_to_schedule Geodesic.flat_distance
       ((375 # 10), -(122 # 1))%Q
       [((37 # 1), -(122 # 1)); ((38 # 1), -(122 # 1))]%Q) = true.
Proof.
  exact (proj1 (sampled_distance_is_at_most_vertex_distance
                  Geodesic.flat_distance ((375 # 10), -(122 # 1))%Q
                  [((37 # 1), -(122 # 1)); ((38 # 1), -(122 # 1))]%Q 0
                  ArchiveDistanceFacts.flat_distance_respects)).
Defined.

(** ** The tiers of the confidence score *)

(** The tier in terms of the three checks: HIGH needs both the street and
    the street number to be found, whatever the third check says; a result
    with the number but not the street, or with the street alone in a
    returned string that is no general reference, is MEDIUM; everything
    else is LOW.  So an address without a street number is never HIGH, and
    a result that was scored is never FAILED: FAILED stands for a geocoder
    without a result, with the score 0 and no coordinates. *)
Theorem confidence_tier_by_checks (original_address returned_address : PyStr.t) :
  (snd (Scorer.validate_geocoding_result original_address returned_address)
     = Scorer.HIGH <->
   Scorer.street_in_result original_address returned_address = true /\
   Scorer.number_in_result original_address returned_address = true) /\
  (snd (Scorer.validate_geocoding_result original_address returned_address)
     = Scorer.MEDIUM <->
   (Scorer.number_in_result original_address returned_address = true /\
    Scorer.street_in_result original_address returned_address = false) \/
   (Scorer.street_in_result original_address returned_address = true /\
    Scorer.number_in_result original_address returned_address = false /\
    Scorer.is_general returned_address = false)) /\
  (snd (Scorer.validate_geocoding_result original_address returned_address)
     = Scorer.LOW <->
   Scorer.number_in_result original_address returned_address = false /\
   (Scorer.street_in_result original_address returned_address = false \/
    Scorer.is_general returned_address = true)) /\
  (Scorer.extract_street_number original_address = None ->
   snd (Scorer.validate_geocoding_result original_address returned_address)
     <> Scorer.HIGH) /\
  (forall geocode : option Scorer.location,
     Scorer.g_confidence (Scorer.process_citation original_address geocode)
       = Scorer.FAILED <-> geocode = None) /\
  Scorer.process_citation original_address None =
    {| Scorer.g_latitude := None; Scorer.g_longitude := None;
       Scorer.g_returned_address := None;
       Scorer.g_confidence := Scorer.FAILED;
       Scorer.g_confidence_score := 0 |}.
Proof.
  assert (forall r,
            snd (Scorer.validate_geocoding_result original_address r)
            <> Scorer.FAILED) as Hnf.
  { intros r. unfold Scorer.validate_geocoding_result. cbn [snd].
    destruct (Scorer.street_in_result _ _), (Scorer.number_in_result _ _),
      (Scorer.is_general _); vm_compute; discriminate. }
  assert (Scorer.extract_street_number original_address = None ->
          Scorer.number_in_result original_address returned_address = false)
    as Hnone.
  { intros E. unfold Scorer.number_in_result. rewrite E. reflexivity. }
  split; [|split; [|split; [|split; [|split]]]].
  1-3: clear Hnf Hnone; unfold Scorer.validate_geocoding_result; cbn [snd];
    destruct (Scorer.street_in_result original_address returned_address),
      (Scorer.number_in_result original_address returned_address),
      (Scorer.is_general returned_address); vm_compute; intuition congruence.
  - intros E. unfold Scorer.validate_geocoding_result; cbn [snd].
    rewrite (Hnone E).
    destruct (Scorer.street_in_result original_address returned_address),
      (Scorer.is_general returned_address); vm_compute; discriminate.
  - intros geocode. destruct geocode as [l|]; [|split; reflexivity].
    unfold Scorer.process_citation.
    pose proof (Hnf (Scorer.loc_address l)) as H.
    destruct (Scorer.validate_geocoding_result _ _) as [score conf].
    cbn in *. split; [intros E; contradiction|discriminate].
  - reflexivity.
Qed.

(** [extract_street_number] gives no number exactly when the stripped
    address does not start with a digit; a number that was written without
    a leading zero is not zero and prints back as the digits that were
    read, so that the number test looks for these very digits. *)
Theorem street_number_round_trip (address : PyStr.t) :
  (Scorer.extract_street_number address = None <->
   Scorer.leading_digits (PyStr.strip address) = []) /\
  (forall n,
     Scorer.extract_street_number address = Some n ->
     PyStr.startswith (Scorer.leading_digits (PyStr.strip address)) (py "0")
       = false ->
     Scorer.str_of_int n = Scorer.leading_digits (PyStr.strip address) /\
     n <> 0%N).
Proof.
  unfold Scorer.extract_street_number.
  pose proof (ScorerFacts.leading_digits_are_digits (PyStr.strip address)) as Hd.
  destruct (Scorer.leading_digits (PyStr.strip address)) as [|c ds].
  - split; [tauto|]. intros n H. discriminate H.
  - split; [split; discriminate|].
    intros n [= <-] H0. apply ScorerFacts.str_of_int_of_digits; [exact Hd|].
    intros ->. destruct ds; vm_compute in H0; discriminate H0.
Qed.

(** ** The citation counts of the aggregation *)

Module AggregatorCountFacts.

Import Aggregator.

Lemma list_sum_app_one (l : list nat) (n : nat) :
  list_sum (l ++ [n]) = (list_sum l + n)%nat.
Proof. rewrite list_sum_app. cbn. lia. Qed.

(** The identifiers that [schedule_lookup] knows. *)
Lemma foldl_lookup_is_Some (schedules_df : list schedule) (m : gmap Z schedule)
    (id : Z) :
  is_Some (foldl (fun m s => <[schedule_id s := s]> m) m schedules_df !! id) <->
  is_Some (m !! id) \/ In id (map schedule_id schedules_df).
Proof.
  revert m. induction schedules_df as [|s l IH]; intros m; cbn [foldl map In].
  - tauto.
  - rewrite IH. destruct (decide (schedule_id s = id)) as [<-|Hne].
    + rewrite lookup_insert_eq. split; [auto|]. intros _. left. eexists. reflexivity.
    + rewrite lookup_insert_ne by exact Hne. tauto.
Qed.

Lemma schedule_lookup_is_Some (schedules_df : list schedule) (id : Z) :
  is_Some (schedule_lookup schedules_df !! id) <->
  In id (map schedule_id schedules_df).
Proof.
  unfold schedule_lookup. rewrite foldl_lookup_is_Some, lookup_empty.
  split; [intros [[x Hx]|H]; [discriminate|exact H]|auto].
Qed.

(** The number of citation times held by all the groups. *)
Definition total (groups : list (group_key * group_data)) : nat :=
  list_sum (map (fun kg => length (citation_times (snd kg))) groups).

Lemma total_dict_update (s : schedule) (m : match_row) (k : group_key)
    (d : list (group_key * group_data)) :
  total (dict_update (record_match s m) empty_group k d) = S (total d).
Proof.
  unfold total. induction d as [|[k' v] d IH]; cbn [dict_update].
  - reflexivity.
  - destruct (decide (k' = k)) as [->|Hne]; cbn [map snd].
    + rewrite !CountFacts.list_sum_cons. cbn [record_match citation_times].
      rewrite length_app. cbn [length]. lia.
    + rewrite !CountFacts.list_sum_cons, IH. lia.
Qed.

Lemma total_groups (lookup : gmap Z schedule) (matches_df : list match_row)
    (init : list (group_key * group_data)) :
  total (foldl (fun groups m =>
                  match lookup !! mr_schedule_id m with
                  | None => groups
                  | Some s =>
                      dict_update (record_match s m) empty_group (key_of s) groups
                  end) init matches_df)
  = (total init
     + length (List.filter
                 (fun m => bool_decide (is_Some (lookup !! mr_schedule_id m)))
                 matches_df))%nat.
Proof.
  revert init. induction matches_df as [|m l IH]; intros init;
    cbn [foldl List.filter]; [cbn [length]; lia|].
  rewrite IH. destruct (lookup !! mr_schedule_id m) as [s|].
  - rewrite bool_decide_eq_true_2 by (eexists; reflexivity).
    rewrite total_dict_update. cbn [length]. lia.
  - rewrite bool_decide_eq_false_2 by (intros [x Hx]; discriminate).
    reflexivity.
Qed.

Lemma rows_of_groups_counts (groups : list (group_key * group_data)) :
  List.Forall (fun kg => is_Some (schedule_info (snd kg))) groups ->
  list_sum (map citation_count
              (omap (fun kg => row_of_group (fst kg) (snd kg)) groups))
  = total groups.
Proof.
  unfold total. induction 1 as [|[k g] groups [info Hinfo] _ IH]; [reflexivity|].
  rewrite CleanerFacts.omap_cons_eq. cbn [fst snd] in *.
  unfold row_of_group at 1. rewrite Hinfo. cbn [map citation_count snd].
  rewrite !CountFacts.list_sum_cons, IH. reflexivity.
Qed.

Lemma update_first_counts (key : group_key)
    (f : aggregated_row -> aggregated_row) (rows : list aggregated_row) :
  (forall r, citation_count (f r) = citation_count r) ->
  list_sum (map citation_count (update_first key f rows))
  = list_sum (map citation_count rows).
Proof.
  intros Hf. induction rows as [|r rows IH]; [reflexivity|].
  cbn [update_first]. destruct (decide (clean_id r = key)); cbn [map];
    rewrite !CountFacts.list_sum_cons.
  - rewrite Hf. reflexivity.
  - rewrite IH. reflexivity.
Qed.

Lemma add_schedule_counts (without : gset group_key)
    (rows : list aggregated_row) (s : schedule) :
  list_sum (map citation_count (add_schedule without rows s))
  = list_sum (map citation_count rows).
Proof.
  unfold add_schedule. destruct (bool_decide (key_of s ∈ without)); [|reflexivity].
  destruct (has_row (key_of s) rows).
  - apply update_first_counts. reflexivity.
  - rewrite map_app. cbn [map]. rewrite list_sum_app_one.
    cbn [new_row citation_count]. lia.
Qed.

Lemma add_schedules_counts (without : gset group_key) (l : list schedule)
    (rows : list aggregated_row) :
  list_sum (map citation_count (foldl (add_schedule without) rows l))
  = list_sum (map citation_count rows).
Proof.
  revert rows. induction l as [|s l IH]; intros rows; cbn [foldl];
    [reflexivity|].
  rewrite IH. apply add_schedule_counts.
Qed.

End AggregatorCountFacts.

(** For a schedule table with at least one row (the source fails when it
    has no row to write), the citation counts of the aggregated rows add up
    to the number of matches whose schedule identifier occurs in the
    schedule table: each such match is counted in one row, the rows added
    for schedules without citations count none, and a match of an unknown
    schedule is dropped. *)
Theorem citation_counts_add_up
    (matches_df : list Aggregator.match_row) (schedules_df : list schedule) :
  schedules_df <> [] ->
  list_sum (map Aggregator.citation_count
              (Aggregator.aggregate_from_matches matches_df schedules_df))
  = length
      (List.filter
         (fun m => bool_decide
                     (Aggregator.mr_schedule_id m
                        ∈ map schedule_id schedules_df))
         matches_df).
Proof.
  intros _. unfold Aggregator.aggregate_from_matches.
  rewrite AggregatorCountFacts.add_schedules_counts.
  destruct (AggregatorFacts.aggregation_groups_ok schedules_df matches_df)
    as [_ Hall].
  rewrite AggregatorCountFacts.rows_of_groups_counts.
  - unfold Aggregator.aggregation_groups.
    rewrite AggregatorCountFacts.total_groups.
    change (AggregatorCountFacts.total []) with 0%nat. rewrite Nat.add_0_l.
    f_equal. apply List.filter_ext. intros m.
    apply bool_decide_ext. rewrite list_elem_of_In.
    apply AggregatorCountFacts.schedule_lookup_is_Some.
  - eapply List.Forall_impl; [|exact Hall]. intros kg [_ H]. exact H.
Qed.

Lemma citation_counts_add_up_witness :
  list_sum
    (map Aggregator.citation_count
       (Aggregator.aggregate_from_matches
          [{| Aggregator.mr_schedule_id := 2000000;
              Aggregator.mr_citation_time := 9 |};
           {| Aggregator.mr_schedule_id := 5;
              Aggregator.mr_citation_time := 9 |}]
          [PipelineFacts.rule_8_10])) = 1%nat.
Proof.
  rewrite (citation_counts_add_up _ [PipelineFacts.rule_8_10]
             ltac:(discriminate)).
  vm_compute. reflexivity.
Defined.

(** ** The rows of the day-specific cleaner *)

Module CleanerRowFacts.

Import Cleaner.

(** The key columns of a day-specific row. *)
Definition d_key (r : day_row) : location_key :=
  (d_corridor r, d_limits r, d_cnn_right_left r, d_block_side r,
   d_scheduled_from_hour r, d_scheduled_to_hour r).

Lemma number_from_map {A B C} (f : Z -> A -> B) (g : B -> C) (h : A -> C)
    (start : Z) (l : list A) :
  (forall i x, g (f i x) = h x) ->
  map g (number_from f start l) = map h l.
Proof.
  intros H. revert start. induction l as [|x l IH]; intros start;
    [reflexivity|].
  cbn [number_from map]. rewrite H, IH. reflexivity.
Qed.

Lemma length_number_from {A B} (f : Z -> A -> B) (start : Z) (l : list A) :
  length (number_from f start l) = length l.
Proof.
  revert start. induction l as [|x l IH]; intros start; [reflexivity|].
  cbn [number_from length]. rewrite IH. reflexivity.
Qed.

Lemma number_from_ids {A B} (f : Z -> A -> B) (id : B -> Z) (start : Z)
    (l : list A) :
  (forall i x, id (f i x) = i) ->
  map id (number_from f start l)
  = map (fun i => start + Z.of_nat i) (seq 0 (length l)).
Proof.
  intros H. revert start. induction l as [|x l IH]; intros start;
    [reflexivity|].
  cbn [number_from map length seq]. rewrite H, IH. f_equal; [lia|].
  rewrite <- seq_shift, map_map. apply map_ext. intros i. lia.
Qed.

Lemma In_number_from {A B} (f : Z -> A -> B) (start : Z) (l : list A) (y : B) :
  In y (number_from f start l) -> exists i x, In x l /\ y = f i x.
Proof.
  revert start. induction l as [|x l IH]; intros start; [intros []|].
  cbn [number_from]. intros [<-|H].
  - exists start, x. split; [left; reflexivity|reflexivity].
  - destruct (IH _ H) as (i & x' & Hx & ->). exists i, x'.
    split; [right; exact Hx|reflexivity].
Qed.

Section Grouping.

Variable rows : list normalized_row.

Lemma In_groupby_agg (c : combined_row) :
  In c (groupby_agg rows) <->
  exists r rest,
    complete (CleanerFacts.key_of c) = true /\
    group_of (CleanerFacts.key_of c) rows = r :: rest /\
    combine_group (r :: rest) = Some c.
Proof.
  unfold groupby_agg. rewrite <- list_elem_of_In, list_elem_of_omap. split.
  - intros (k & Hin & Hc).
    pose proof (CleanerFacts.combine_group_key _ _ _ Hc) as Hk. rewrite Hk.
    apply list_elem_of_In, CleanerFacts.In_group_keys in Hin.
    destruct (group_of k rows) as [|r rest]; [discriminate|].
    exists r, rest. split; [exact (proj2 Hin)|]. split; [reflexivity|exact Hc].
  - intros (r & rest & Hcomplete & Hg & Hc). exists (CleanerFacts.key_of c).
    split.
    + apply list_elem_of_In, CleanerFacts.In_group_keys.
      split; [|exact Hcomplete].
      assert (In r (group_of (CleanerFacts.key_of c) rows)) as Hr
        by (rewrite Hg; left; reflexivity).
      apply List.filter_In in Hr. destruct Hr as [Hr Hk].
      apply bool_decide_eq_true in Hk. apply in_map_iff. exists r. auto.
    + rewrite Hg. exact Hc.
Qed.

Lemma keys_of_rows (keys : list location_key) :
  (forall k, In k keys -> In k (map location_of rows)) ->
  map CleanerFacts.key_of
    (omap (fun k => combine_group (group_of k rows)) keys) = keys.
Proof.
  induction keys as [|k keys IH]; intros H; [reflexivity|].
  rewrite CleanerFacts.omap_cons_eq.
  destruct (combine_group (group_of k rows)) as [c|] eqn:E.
  - cbn [map]. rewrite (CleanerFacts.combine_group_key _ _ _ E).
    f_equal. apply IH. intros k' Hk'. apply H. right. exact Hk'.
  - exfalso. apply (CleanerFacts.group_of_nonempty k rows);
      [apply H; left; reflexivity|].
    destruct (group_of k rows); [reflexivity|discriminate].
Qed.

Lemma groupby_keys :
  map CleanerFacts.key_of (groupby_agg rows) = group_keys rows.
Proof.
  apply keys_of_rows. intros k Hk.
  exact (proj1 (proj1 (CleanerFacts.In_group_keys rows k) Hk)).
Qed.

Lemma counts_of_rows (keys : list location_key) :
  list_sum (map RecordCount
              (omap (fun k => combine_group (group_of k rows)) keys))
  = list_sum (map (fun k => length (group_of k rows)) keys).
Proof.
  induction keys as [|k keys IH]; [reflexivity|].
  rewrite CleanerFacts.omap_cons_eq. cbn [map].
  rewrite CountFacts.list_sum_cons, <- IH.
  destruct (group_of k rows) as [|r rest]; [reflexivity|].
  cbn [combine_group map RecordCount].
  rewrite CountFacts.list_sum_cons. reflexivity.
Qed.

(** When no row has a null cell in its key, every row is counted. *)
Lemma groupby_counts :
  (forall x, In x rows -> complete (location_of x) = true) ->
  list_sum (map RecordCount (groupby_agg rows)) = length rows.
Proof.
  intros Hcomplete. unfold groupby_agg. rewrite counts_of_rows.
  apply (CountFacts.groups_partition location_of).
  - apply CleanerFacts.NoDup_group_keys.
  - intros x Hx. apply CleanerFacts.In_group_keys.
    split; [apply in_map, Hx|apply Hcomplete, Hx].
Qed.

End Grouping.

Lemma flag_is_flag (b : bool) : is_flag (flag b) = true.
Proof. destruct b; reflexivity. Qed.

(** The maximum of 0/1 flags is a flag, and it is 1 exactly when one of
    them is. *)
Lemma fold_max_flag (f : normalized_row -> Z) (rest : list normalized_row)
    (a : Z) :
  is_flag a = true ->
  (forall x, In x rest -> is_flag (f x) = true) ->
  is_flag (fold_left (fun m x => Z.max m (f x)) rest a) = true /\
  (fold_left (fun m x => Z.max m (f x)) rest a = 1 <->
   a = 1 \/ exists x, In x rest /\ f x = 1).
Proof.
  revert a. induction rest as [|y rest IH]; intros a Ha Hrest; cbn [fold_left].
  - split; [exact Ha|]. split; [auto|]. intros [H|(x & [] & _)]. exact H.
  - assert (is_flag (f y) = true) as Hy by (apply Hrest; left; reflexivity).
    destruct (IH (Z.max a (f y)) (CleanerFacts.is_flag_max _ _ Ha Hy)
                (fun x Hx => Hrest x (or_intror Hx))) as [H1 H2].
    split; [exact H1|]. rewrite H2.
    destruct (CleanerFacts.is_flag_cases _ Ha) as [->| ->],
        (CleanerFacts.is_flag_cases _ Hy) as [Ey|Ey]; rewrite Ey; cbn [Z.max];
      split.
    all: try (intros [H|(x & Hx & Hfx)];
              [discriminate H || (left; exact H) || (right; exists y; split; [left; reflexivity|exact Ey])
              |right; exists x; split; [right; exact Hx|exact Hfx]]).
    all: try (intros [H|(x & [<-|Hx] & Hfx)];
              [discriminate H || (left; reflexivity)
              |congruence || (left; reflexivity)
              |(right; exists x; split; assumption) || (left; reflexivity)]).
Qed.

Lemma agg_max_flag (f : normalized_row -> Z) (r : normalized_row)
    (rest : list normalized_row) :
  (forall x, In x (r :: rest) -> is_flag (f x) = true) ->
  is_flag (agg_max f r rest) = true /\
  (agg_max f r rest = 1 <-> exists x, In x (r :: rest) /\ f x = 1).
Proof.
  intros H. unfold agg_max.
  destruct (fold_max_flag f rest (f r) (H r (or_introl eq_refl))
              (fun x Hx => H x (or_intror Hx))) as [H1 H2].
  split; [exact H1|]. rewrite H2. split.
  - intros [E|(x & Hx & E)]; [exists r|exists x]; split; auto;
      [left; reflexivity|right; exact Hx].
  - intros (x & [<-|Hx] & E); [left; exact E|right; exists x; auto].
Qed.

Lemma day_flag_combined (r : normalized_row) (rest : list normalized_row)
    (c : combined_row) (d : day) :
  combine_group (r :: rest) = Some c ->
  day_flag (combined c) d = agg_max (fun x => day_flag x d) r rest.
Proof. intros [= <-]. destruct d; reflexivity. Qed.

Lemma In_active_days (c : combined_row) (d : day) :
  In d (active_days c) <-> day_flag (combined c) d = 1.
Proof.
  unfold active_days. rewrite List.filter_In, Z.eqb_eq. split; [tauto|].
  intros H. split; [|exact H]. destruct d; cbn; tauto.
Qed.

Lemma NoDup_all_days : List.NoDup all_days.
Proof.
  unfold all_days.
  repeat (constructor; [cbn; intuition discriminate|]). constructor.
Qed.

(** The rows before they are numbered. *)
Definition expanded (cs : list combined_row) : list (combined_row * day) :=
  concat (map (fun c => map (fun d => (c, d)) (active_days c)) cs).

Lemma In_expanded (cs : list combined_row) (c : combined_row) (d : day) :
  In (c, d) (expanded cs) <-> In c cs /\ In d (active_days c).
Proof.
  unfold expanded. rewrite in_concat. split.
  - intros (l & Hl & Hin). apply in_map_iff in Hl. destruct Hl as (c' & <- & Hc').
    apply in_map_iff in Hin. destruct Hin as (d' & [= <- <-] & Hd'). auto.
  - intros [Hc Hd]. exists (map (fun d => (c, d)) (active_days c)). split.
    + apply in_map_iff. exists c. auto.
    + apply in_map_iff. exists d. auto.
Qed.

Lemma NoDup_map_pair {A B} (a : A) (l : list B) :
  List.NoDup l -> List.NoDup (map (fun b => (a, b)) l).
Proof.
  induction 1 as [|b l Hb Hnd IH]; cbn [map]; constructor; [|exact IH].
  intros Hin. apply in_map_iff in Hin. destruct Hin as (b' & [= ->] & Hb').
  exact (Hb Hb').
Qed.

Lemma NoDup_expanded (cs : list combined_row) :
  List.NoDup (map CleanerFacts.key_of cs) ->
  List.NoDup (map (fun cd => (CleanerFacts.key_of (fst cd), snd cd)) (expanded cs)).
Proof.
  unfold expanded. induction cs as [|c cs IH]; intros Hnd; [constructor|].
  inversion Hnd as [|? ? Hc Hcs]; subst.
  cbn [map concat]. rewrite map_app, map_map. cbn [fst snd].
  apply List.NoDup_app.
  - apply NoDup_map_pair, MatchFacts.NoDup_filter, NoDup_all_days.
  - apply IH, Hcs.
  - intros [k d] H1 H2. apply in_map_iff in H1. destruct H1 as (d' & E1 & _).
    apply in_map_iff in H2. destruct H2 as ([c' d''] & E2 & Hin).
    pose proof (f_equal fst E1) as K1. pose proof (f_equal fst E2) as K2.
    cbn [fst snd] in K1, K2.
    apply In_expanded in Hin. destruct Hin as [Hc' _].
    apply Hc. rewrite K1, <- K2. apply in_map, Hc'.
Qed.

(** The day-specific cleaner prints every key cell: none is null. *)
Lemma day_specific_complete (raw : raw_row) :
  complete (location_of (normalize_row_day_specific raw)) = true.
Proof. reflexivity. Qed.

Lemma day_flag_is_flag (raw : raw_row) (d : day) :
  is_flag (day_flag (normalize_row_day_specific raw) d) = true.
Proof. destruct d; apply flag_is_flag. Qed.

Lemma week_flags_are_flags (raw : raw_row) :
  is_flag (Week1 (normalize_row_day_specific raw)) = true /\
  is_flag (Week2 (normalize_row_day_specific raw)) = true /\
  is_flag (Week3 (normalize_row_day_specific raw)) = true /\
  is_flag (Week4 (normalize_row_day_specific raw)) = true /\
  is_flag (Week5 (normalize_row_day_specific raw)) = true /\
  is_flag (Holidays (normalize_row_day_specific raw)) = true.
Proof. repeat split; apply flag_is_flag. Qed.

(** The output of the cleaner, by key and day. *)
Lemma day_specific_keys (df : list raw_row) :
  map (fun r => (d_key r, d_weekday r)) (clean_schedule_data_day_specific df)
  = map (fun cd => (CleanerFacts.key_of (fst cd), snd cd))
      (expanded (groupby_agg (map normalize_row_day_specific df))).
Proof.
  unfold clean_schedule_data_day_specific. apply number_from_map.
  intros i [c d]. reflexivity.
Qed.

(** A raw row whose weekday text names Monday and a holiday. *)
Definition monday_holiday_row : raw_row :=
  {| raw_CNN := 1; raw_Corridor := Some (py "Mission St");
     raw_Limits := Some (py "16th St - 17th St");
     raw_CNNRightLeft := Some (py "L"); raw_BlockSide := Some (py "East");
     raw_FromHour := Some 8; raw_ToHour := Some 10;
     raw_Line := None; raw_WeekDay := py "Mon/Holiday";
     raw_Week1 := 1; raw_Week2 := 1; raw_Week3 := 1; raw_Week4 := 1;
     raw_Week5 := 1; raw_Holidays := 0; raw_BlockSweepID := 5 |}.

End CleanerRowFacts.

(** A weekday text that mentions a holiday is read as Sunday only by both
    cleaners: whatever other day the text names is dropped, and the
    day-specific cleaner sets the holiday flag. *)
Theorem holiday_text_is_sunday_only (raw : Cleaner.raw_row) :
  PyStr.contains (PyStr.upper (Cleaner.raw_WeekDay raw)) (py "HOLIDAY") = true ->
  (forall d,
     Cleaner.day_flag (Cleaner.normalize_row_day_specific raw) d
     = if bool_decide (d = Sunday) then 1 else 0) /\
  (forall d,
     Cleaner.day_flag (Cleaner.normalize_row_simple raw) d
     = if bool_decide (d = Sunday) then 1 else 0) /\
  Cleaner.Holidays (Cleaner.normalize_row_day_specific raw) = 1.
Proof.
  intros H.
  assert (Cleaner.weekday_text (Cleaner.raw_WeekDay raw) = py "SUN/HOLIDAY") as E
    by (unfold Cleaner.weekday_text; rewrite H; reflexivity).
  split; [|split].
  - intros d. unfold Cleaner.normalize_row_day_specific. rewrite E.
    destruct d; vm_compute; reflexivity.
  - intros d. unfold Cleaner.normalize_row_simple. rewrite E.
    destruct d; vm_compute; reflexivity.
  - unfold Cleaner.normalize_row_day_specific. rewrite E.
    vm_compute. reflexivity.
Qed.

Lemma holiday_text_is_sunday_only_witness :
  map (Cleaner.day_flag
         (Cleaner.normalize_row_day_specific CleanerRowFacts.monday_holiday_row))
    [Monday; Sunday] = [0; 1].
Proof.
  cbn [map].
  rewrite !(proj1 (holiday_text_is_sunday_only
                     CleanerRowFacts.monday_holiday_row
                     ltac:(vm_compute; reflexivity))).
  reflexivity.
Defined.

(** When the cleaner has at least one row to write (the source fails
    otherwise), the day-specific table has one row for a location key and a
    weekday exactly when some raw row with that key names that weekday, and
    it never has two: the days of all the raw rows of a location are put
    together before the rows are written. *)
Theorem day_specific_rows_by_location_and_day (df : list Cleaner.raw_row) :
  Cleaner.clean_schedule_data_day_specific df <> [] ->
  List.NoDup (map (fun r => (CleanerRowFacts.d_key r, Cleaner.d_weekday r))
                (Cleaner.clean_schedule_data_day_specific df)) /\
  forall (k : Cleaner.location_key) (d : day),
    In (k, d) (map (fun r => (CleanerRowFacts.d_key r, Cleaner.d_weekday r))
                 (Cleaner.clean_schedule_data_day_specific df)) <->
    exists raw,
      In raw df /\
      Cleaner.location_of (Cleaner.normalize_row_day_specific raw) = k /\
      Cleaner.day_flag (Cleaner.normalize_row_day_specific raw) d = 1.
Proof.
  intros _. rewrite CleanerRowFacts.day_specific_keys.
  set (rows := map Cleaner.normalize_row_day_specific df).
  split.
  - apply CleanerRowFacts.NoDup_expanded.
    rewrite CleanerRowFacts.groupby_keys.
    apply CleanerFacts.NoDup_group_keys.
  - intros k d.
    assert (forall k' r rest,
              Cleaner.group_of k' rows = r :: rest ->
              (Cleaner.agg_max (fun x => Cleaner.day_flag x d) r rest = 1 <->
               exists raw,
                 In raw df /\
                 Cleaner.location_of (Cleaner.normalize_row_day_specific raw) = k' /\
                 Cleaner.day_flag (Cleaner.normalize_row_day_specific raw) d = 1))
      as Hgroup.
    { intros k' r rest Hg.
      assert (forall x, In x (r :: rest) ->
                        In x rows /\ Cleaner.location_of x = k') as Hmem.
      { intros x Hx. rewrite <- Hg in Hx. apply List.filter_In in Hx.
        destruct Hx as [Hx Hk]. apply bool_decide_eq_true in Hk. auto. }
      rewrite (proj2 (CleanerRowFacts.agg_max_flag
                        (fun x => Cleaner.day_flag x d) r rest
                        ltac:(intros x Hx; destruct (Hmem x Hx) as [Hx' _];
                              apply in_map_iff in Hx';
                              destruct Hx' as (raw & <- & _);
                              apply CleanerRowFacts.day_flag_is_flag))).
      split.
      - intros (x & Hx & Hd). destruct (Hmem x Hx) as [Hx' Hk].
        apply in_map_iff in Hx'. destruct Hx' as (raw & <- & Hraw).
        exists raw. auto.
      - intros (raw & Hraw & Hk & Hd).
        exists (Cleaner.normalize_row_day_specific raw). split; [|exact Hd].
        rewrite <- Hg. apply List.filter_In. split; [apply in_map, Hraw|].
        apply bool_decide_eq_true. exact Hk. }
    rewrite in_map_iff. split.
    + intros ([c d'] & E & Hin).
      pose proof (f_equal fst E) as K1. pose proof (f_equal snd E) as K2.
      cbn [fst snd] in K1, K2. subst k d'.
      apply CleanerRowFacts.In_expanded in Hin. destruct Hin as [Hc Hd].
      apply CleanerRowFacts.In_groupby_agg in Hc.
      destruct Hc as (r & rest & _ & Hg & Hc).
      apply CleanerRowFacts.In_active_days in Hd.
      rewrite (CleanerRowFacts.day_flag_combined r rest c d Hc) in Hd.
      exact (proj1 (Hgroup _ r rest Hg) Hd).
    + intros (raw & Hraw & Hk & Hd).
      destruct (Cleaner.group_of k rows) as [|r rest] eqn:Hg.
      { exfalso. apply (CleanerFacts.group_of_nonempty k rows); [|exact Hg].
        apply in_map_iff. exists (Cleaner.normalize_row_day_specific raw).
        split; [exact Hk|apply in_map, Hraw]. }
      destruct (Cleaner.combine_group (r :: rest)) as [c|] eqn:Hc;
        [|discriminate Hc].
      assert (CleanerFacts.key_of c = k) as Hkc.
      { apply (CleanerFacts.combine_group_key k rows). rewrite Hg. exact Hc. }
      exists (c, d). split; [cbn [fst snd]; rewrite Hkc; reflexivity|].
      apply CleanerRowFacts.In_expanded. split.
      * apply CleanerRowFacts.In_groupby_agg. exists r, rest.
        rewrite Hkc. split; [|auto].
        rewrite <- Hk. apply CleanerRowFacts.day_specific_complete.
      * apply CleanerRowFacts.In_active_days.
        rewrite (CleanerRowFacts.day_flag_combined r rest c d Hc).
        apply (proj2 (Hgroup k r rest Hg)). exists raw. auto.
Qed.

Lemma day_specific_rows_by_location_and_day_witness :
  List.NoDup
    (map (fun r => (CleanerRowFacts.d_key r, Cleaner.d_weekday r))
       (Cleaner.clean_schedule_data_day_specific
          [CleanerFacts.row_10100; CleanerRowFacts.monday_holiday_row;
           CleanerFacts.row_00010])).
Proof.
  exact (proj1 (day_specific_rows_by_location_and_day
                  [CleanerFacts.row_10100; CleanerRowFacts.monday_holiday_row;
                   CleanerFacts.row_00010]
                  ltac:(vm_compute; discriminate))).
Defined.

(** When the cleaner has at least one row to write, the identifiers of the
    day-specific table are the consecutive numbers
    from 2000000; in every row the five week columns and the holiday column
    are 0 or 1, whatever numbers the raw week columns hold, so the week
    bitmask lies between 0 and 31, and the record count is at least 1. *)
Theorem day_specific_ids_and_flags (df : list Cleaner.raw_row) :
  Cleaner.clean_schedule_data_day_specific df <> [] ->
  map Cleaner.d_schedule_id (Cleaner.clean_schedule_data_day_specific df)
  = map (fun i => 2000000 + Z.of_nat i)
      (seq 0 (length (Cleaner.clean_schedule_data_day_specific df))) /\
  forall r,
    In r (Cleaner.clean_schedule_data_day_specific df) ->
    Cleaner.is_flag (Cleaner.d_week1 r) = true /\
    Cleaner.is_flag (Cleaner.d_week2 r) = true /\
    Cleaner.is_flag (Cleaner.d_week3 r) = true /\
    Cleaner.is_flag (Cleaner.d_week4 r) = true /\
    Cleaner.is_flag (Cleaner.d_week5 r) = true /\
    Cleaner.is_flag (Cleaner.d_holidays r) = true /\
    0 <= Cleaner.d_week_bitmask r <= 31 /\
    (1 <= Cleaner.d_record_count r)%nat.
Proof.
  intros _. unfold Cleaner.clean_schedule_data_day_specific. split.
  - rewrite CleanerRowFacts.length_number_from.
    apply CleanerRowFacts.number_from_ids. intros i [c d]. reflexivity.
  - intros r Hr. apply CleanerRowFacts.In_number_from in Hr.
    destruct Hr as (i & [c d] & Hin & ->).
    apply (CleanerRowFacts.In_expanded _ c d) in Hin. destruct Hin as [Hc _].
    apply CleanerRowFacts.In_groupby_agg in Hc.
    destruct Hc as (r0 & rest & _ & Hg & Hc).
    assert (forall x, In x (r0 :: rest) ->
                      exists raw, x = Cleaner.normalize_row_day_specific raw)
      as Hmem.
    { intros x Hx. rewrite <- Hg in Hx. apply List.filter_In in Hx.
      destruct Hx as [Hx _]. apply in_map_iff in Hx.
      destruct Hx as (raw & <- & _). exists raw. reflexivity. }
    injection Hc as <-.
    cbn [Cleaner.day_row_of Cleaner.combined Cleaner.RecordCount fst snd
         Cleaner.d_week1 Cleaner.d_week2 Cleaner.d_week3 Cleaner.d_week4
         Cleaner.d_week5 Cleaner.d_holidays Cleaner.d_record_count
         Cleaner.Week1 Cleaner.Week2 Cleaner.Week3 Cleaner.Week4 Cleaner.Week5
         Cleaner.Holidays].
    unfold Cleaner.d_week_bitmask.
    cbn [Cleaner.day_row_of Cleaner.combined fst snd
         Cleaner.d_week1 Cleaner.d_week2 Cleaner.d_week3 Cleaner.d_week4
         Cleaner.d_week5 Cleaner.Week1 Cleaner.Week2 Cleaner.Week3
         Cleaner.Week4 Cleaner.Week5].
    assert (Cleaner.is_flag (Cleaner.agg_max Cleaner.Week1 r0 rest) = true) as H1.
    { apply CleanerRowFacts.agg_max_flag. intros x Hx.
      destruct (Hmem x Hx) as (raw & ->).
      apply (CleanerRowFacts.week_flags_are_flags raw). }
    assert (Cleaner.is_flag (Cleaner.agg_max Cleaner.Week2 r0 rest) = true) as H2.
    { apply CleanerRowFacts.agg_max_flag. intros x Hx.
      destruct (Hmem x Hx) as (raw & ->).
      apply (CleanerRowFacts.week_flags_are_flags raw). }
    assert (Cleaner.is_flag (Cleaner.agg_max Cleaner.Week3 r0 rest) = true) as H3.
    { apply CleanerRowFacts.agg_max_flag. intros x Hx.
      destruct (Hmem x Hx) as (raw & ->).
      apply (CleanerRowFacts.week_flags_are_flags raw). }
    assert (Cleaner.is_flag (Cleaner.agg_max Cleaner.Week4 r0 rest) = true) as H4.
    { apply CleanerRowFacts.agg_max_flag. intros x Hx.
      destruct (Hmem x Hx) as (raw & ->).
      apply (CleanerRowFacts.week_flags_are_flags raw). }
    assert (Cleaner.is_flag (Cleaner.agg_max Cleaner.Week5 r0 rest) = true) as H5.
    { apply CleanerRowFacts.agg_max_flag. intros x Hx.
      destruct (Hmem x Hx) as (raw & ->).
      apply (CleanerRowFacts.week_flags_are_flags raw). }
    assert (Cleaner.is_flag (Cleaner.agg_max Cleaner.Holidays r0 rest) = true) as H6.
    { apply CleanerRowFacts.agg_max_flag. intros x Hx.
      destruct (Hmem x Hx) as (raw & ->).
      apply (CleanerRowFacts.week_flags_are_flags raw). }
    repeat (split; [assumption|]).
    split; [|cbn [length]; lia].
    destruct (CleanerFacts.is_flag_cases _ H1), (CleanerFacts.is_flag_cases _ H2),
      (CleanerFacts.is_flag_cases _ H3), (CleanerFacts.is_flag_cases _ H4),
      (CleanerFacts.is_flag_cases _ H5); lia.
Qed.

Lemma day_specific_ids_and_flags_witness :
  map Cleaner.d_schedule_id
    (Cleaner.clean_schedule_data_day_specific
       [CleanerFacts.row_10100; CleanerRowFacts.monday_holiday_row;
        CleanerFacts.row_00010]) = [2000000; 2000001].
Proof.
  rewrite (proj1 (day_specific_ids_and_flags
                    [CleanerFacts.row_10100; CleanerRowFacts.monday_holiday_row;
                     CleanerFacts.row_00010]
                    ltac:(vm_compute; discriminate))).
  vm_compute. reflexivity.
Defined.

(** Grouping in the day-specific cleaner loses no raw row of a table that
    has rows: the combined rows have pairwise distinct location keys, and
    their record counts add up to the number of raw rows. *)
Theorem day_specific_grouping_counts_every_row (df : list Cleaner.raw_row) :
  df <> [] ->
  List.NoDup
    (map CleanerFacts.key_of
       (Cleaner.groupby_agg (map Cleaner.normalize_row_day_specific df))) /\
  list_sum
    (map Cleaner.RecordCount
       (Cleaner.groupby_agg (map Cleaner.normalize_row_day_specific df)))
  = length df.
Proof.
  intros _. split.
  - rewrite CleanerRowFacts.groupby_keys.
    apply CleanerFacts.NoDup_group_keys.
  - rewrite CleanerRowFacts.groupby_counts; [apply length_map|].
    intros x Hx. apply in_map_iff in Hx. destruct Hx as (raw & <- & _).
    apply CleanerRowFacts.day_specific_complete.
Qed.

Lemma day_specific_grouping_counts_every_row_witness :
  list_sum
    (map Cleaner.RecordCount
       (Cleaner.groupby_agg
          (map Cleaner.normalize_row_day_specific
             [CleanerFacts.row_10100; CleanerRowFacts.monday_holiday_row;
              CleanerFacts.row_00010]))) = 3%nat.
Proof.
  exact (proj2 (day_specific_grouping_counts_every_row
                  [CleanerFacts.row_10100; CleanerRowFacts.monday_holiday_row;
                   CleanerFacts.row_00010]
                  ltac:(discriminate))).
Defined.

(** ** The rows of the archived estimates *)

Module ArchivedRowFacts.

Import ArchiveEstimates.

Lemma minimum_spec (x : Z) (xs : list Z) :
  In (minimum x xs) (x :: xs) /\ forall y, In y (x :: xs) -> minimum x xs <= y.
Proof.
  unfold minimum. revert x. induction xs as [|z xs IH]; intros x; cbn [fold_left].
  - split; [left; reflexivity|]. intros y [<-|[]]. lia.
  - destruct (IH (Z.min x z)) as [H1 H2]. split.
    + destruct H1 as [H1|H1]; [|right; right; exact H1].
      rewrite <- H1. destruct (Z.min_spec x z) as [[_ ->]|[_ ->]];
        [left|right; left]; reflexivity.
    + intros y [<-|[<-|Hy]]; [| |apply H2; right; exact Hy].
      * pose proof (H2 _ (or_introl eq_refl)). lia.
      * pose proof (H2 _ (or_introl eq_refl)). lia.
Qed.

Lemma maximum_spec (x : Z) (xs : list Z) :
  In (maximum x xs) (x :: xs) /\ forall y, In y (x :: xs) -> y <= maximum x xs.
Proof.
  unfold maximum. revert x. induction xs as [|z xs IH]; intros x; cbn [fold_left].
  - split; [left; reflexivity|]. intros y [<-|[]]. lia.
  - destruct (IH (Z.max x z)) as [H1 H2]. split.
    + destruct H1 as [H1|H1]; [|right; right; exact H1].
      rewrite <- H1. destruct (Z.max_spec x z) as [[_ ->]|[_ ->]];
        [right; left|left]; reflexivity.
    + intros y [<-|[<-|Hy]]; [| |apply H2; right; exact Hy].
      * pose proof (H2 _ (or_introl eq_refl)). lia.
      * pose proof (H2 _ (or_introl eq_refl)). lia.
Qed.

Lemma relevant_matches_relevance (g : list archived_match) (m : archived_match) :
  In m (relevant_matches g) ->
  In m g /\
  (a_time_relevance m = DURING_SCHEDULE \/ a_time_relevance m = AFTER_SCHEDULE).
Proof.
  unfold relevant_matches, during_schedule_matches.
  destruct (3 <=? _)%nat; intros H; apply List.filter_In in H;
    destruct H as [Hin H]; split; try exact Hin.
  - left. apply bool_decide_eq_true in H. exact H.
  - apply orb_true_iff in H. rewrite !bool_decide_eq_true in H. exact H.
Qed.

Lemma length_filter_le {A} (f : A -> bool) (l : list A) :
  (length (List.filter f l) <= length l)%nat.
Proof.
  induction l as [|x l IH]; [reflexivity|]. cbn [List.filter].
  destruct (f x); cbn [length]; lia.
Qed.

Lemma length_relevant_le (g : list archived_match) :
  (length (relevant_matches g) <= length g)%nat.
Proof.
  unfold relevant_matches, during_schedule_matches.
  destruct (3 <=? _)%nat; apply length_filter_le.
Qed.

(** The columns of a row that is written. *)
Lemma estimate_columns (np_mean : list Q -> Q) (k : Z)
    (g : list archived_match) (st : estimate) :
  estimate_of_group np_mean k g = Some st ->
  exists first rest h hs,
    g = first :: rest /\
    map a_citation_hour (relevant_matches g) = h :: hs /\
    e_schedule_id st = k /\
    e_schedule_from_hour st = a_schedule_from_hour first /\
    e_schedule_to_hour st = a_schedule_to_hour first /\
    e_total_citations st = length g /\
    e_citation_count st = length (relevant_matches g) /\
    e_min_citation_time st = minimum h hs /\
    e_max_citation_time st = maximum h hs.
Proof.
  unfold estimate_of_group.
  destruct (length (relevant_matches g) <? 3)%nat; [discriminate|].
  destruct g as [|first rest]; [discriminate|].
  destruct (map a_citation_hour (relevant_matches (first :: rest)))
    as [|h hs] eqn:E; [discriminate|].
  intros [= <-]. exists first, rest, h, hs. cbn. repeat split; reflexivity.
Qed.

Lemma In_estimates (np_mean : list Q -> Q)
    (matches_df : list archived_match) (st : estimate) :
  In st (calculate_estimated_citation_times np_mean matches_df) ->
  estimate_of_group np_mean (e_schedule_id st)
    (group_of (e_schedule_id st) matches_df) = Some st.
Proof.
  unfold calculate_estimated_citation_times.
  rewrite <- list_elem_of_In, list_elem_of_omap. intros (k & _ & H).
  destruct (estimate_columns _ _ _ _ H) as (? & ? & ? & ? & _ & _ & -> & _).
  exact H.
Qed.

Lemma StronglySorted_lt (l : list Z) :
  StronglySorted Z.le l -> List.NoDup l -> StronglySorted Z.lt l.
Proof.
  induction 1 as [|x l Hs IH Hall]; intros Hnd; constructor.
  - apply IH. inversion Hnd; assumption.
  - inversion Hnd as [|? ? Hx _]; subst.
    apply List.Forall_forall. intros y Hy.
    pose proof (proj1 (List.Forall_forall _ _) Hall y Hy).
    assert (x <> y) by (intros ->; exact (Hx Hy)). lia.
Qed.

Lemma schedule_ids_sorted (matches_df : list archived_match) :
  StronglySorted Z.lt (schedule_ids matches_df).
Proof.
  unfold schedule_ids. apply StronglySorted_lt.
  - apply StronglySorted_merge_sort; [intros x y z; lia|].
    intros x y. lia.
  - apply NoDup_ListNoDup. rewrite merge_sort_Permutation.
    apply NoDup_remove_dups.
Qed.

Lemma omap_sorted {A} (R : Z -> Z -> Prop) (f : Z -> option A) (id : A -> Z)
    (keys : list Z) :
  (forall k x, f k = Some x -> id x = k) ->
  StronglySorted R keys -> StronglySorted R (map id (omap f keys)).
Proof.
  intros Hid. induction 1 as [|k keys Hs IH Hall]; [constructor|].
  rewrite CleanerFacts.omap_cons_eq.
  destruct (f k) as [x|] eqn:E; [|exact IH].
  cbn [map]. constructor; [exact IH|]. rewrite (Hid _ _ E).
  apply List.Forall_forall. intros y Hy. apply in_map_iff in Hy.
  destruct Hy as (x' & <- & Hx'). apply list_elem_of_In, list_elem_of_omap in Hx'.
  destruct Hx' as (k' & Hk' & E'). rewrite (Hid _ _ E').
  apply (proj1 (List.Forall_forall _ _) Hall). apply list_elem_of_In, Hk'.
Qed.

(** The matches as [match_citation_to_schedules] builds them: the
    relevance is the one of the hour against the window, and the matches of
    one schedule carry the same window. *)
Definition built_by_matcher (matches_df : list archived_match) : Prop :=
  (forall m, In m matches_df ->
     a_time_relevance m =
     calculate_time_relevance (a_citation_hour m) (a_schedule_from_hour m)
       (a_schedule_to_hour m)) /\
  (forall m m', In m matches_df -> In m' matches_df ->
     a_schedule_id m = a_schedule_id m' ->
     a_schedule_from_hour m = a_schedule_from_hour m' /\
     a_schedule_to_hour m = a_schedule_to_hour m').

Lemma relevance_upper (citation_hour from_hour to_hour : Z) :
  calculate_time_relevance citation_hour from_hour to_hour = DURING_SCHEDULE \/
  calculate_time_relevance citation_hour from_hour to_hour = AFTER_SCHEDULE ->
  citation_hour <= to_hour + 2.
Proof.
  destruct (EstimateFacts.calculate_time_relevance_cases
              citation_hour from_hour to_hour) as [H1 H2].
  intros [H|H]; [apply H1 in H|apply H2 in H]; lia.
Qed.

End ArchivedRowFacts.

(** The archived estimates come in strictly ascending order of schedule
    identifier, one row at most for a schedule.  In every row the count of
    relevant citations is at least 3 and at most the total of the
    schedule's matches, and the minimum and the maximum are hours of
    relevant matches of that schedule which bound the hours of all of
    them. *)
Theorem archived_estimates_ordered_and_bounded
    (np_mean : list Q -> Q)
    (matches_df : list ArchiveEstimates.archived_match) :
  StronglySorted Z.lt
    (map ArchiveEstimates.e_schedule_id
       (ArchiveEstimates.calculate_estimated_citation_times np_mean matches_df)) /\
  forall st,
    In st (ArchiveEstimates.calculate_estimated_citation_times np_mean matches_df) ->
    (3 <= ArchiveEstimates.e_citation_count st
       <= ArchiveEstimates.e_total_citations st)%nat /\
    ArchiveEstimates.e_total_citations st =
      length (ArchiveEstimates.group_of
                (ArchiveEstimates.e_schedule_id st) matches_df) /\
    ArchiveEstimates.e_min_citation_time st
      <= ArchiveEstimates.e_max_citation_time st /\
    (exists lo hi,
       In lo (ArchiveEstimates.relevant_matches
                (ArchiveEstimates.group_of
                   (ArchiveEstimates.e_schedule_id st) matches_df)) /\
       In hi (ArchiveEstimates.relevant_matches
                (ArchiveEstimates.group_of
                   (ArchiveEstimates.e_schedule_id st) matches_df)) /\
       ArchiveEstimates.a_citation_hour lo
         = ArchiveEstimates.e_min_citation_time st /\
       ArchiveEstimates.a_citation_hour hi
         = ArchiveEstimates.e_max_citation_time st) /\
    (forall m,
       In m (ArchiveEstimates.relevant_matches
               (ArchiveEstimates.group_of
                  (ArchiveEstimates.e_schedule_id st) matches_df)) ->
       ArchiveEstimates.e_min_citation_time st
         <= ArchiveEstimates.a_citation_hour m
         <= ArchiveEstimates.e_max_citation_time st).
Proof.
  split.
  - unfold ArchiveEstimates.calculate_estimated_citation_times.
    apply ArchivedRowFacts.omap_sorted;
      [|apply ArchivedRowFacts.schedule_ids_sorted].
    intros k x H.
    apply EstimateFacts.estimate_of_group_spec in H. tauto.
  - intros st Hin. apply ArchivedRowFacts.In_estimates in Hin.
    pose proof (EstimateFacts.estimate_of_group_spec _ _ _ _ Hin) as (_ & _ & H3).
    destruct (ArchivedRowFacts.estimate_columns _ _ _ _ Hin)
      as (first & rest & h & hs & Hg & Hh & _ & _ & _ & Ht & Hc & Hmin & Hmax).
    set (g := ArchiveEstimates.group_of (ArchiveEstimates.e_schedule_id st)
                matches_df) in *.
    destruct (ArchivedRowFacts.minimum_spec h hs) as [L1 L2].
    destruct (ArchivedRowFacts.maximum_spec h hs) as [U1 U2].
    rewrite <- Hmin in L1, L2. rewrite <- Hmax in U1, U2. rewrite <- Hh in *.
    pose proof (ArchivedRowFacts.length_relevant_le g).
    split; [lia|]. split; [exact Ht|]. split.
    + pose proof (L2 _ U1). lia.
    + split.
      * apply in_map_iff in L1. destruct L1 as (lo & Hlo & Hlo').
        apply in_map_iff in U1. destruct U1 as (hi & Hhi & Hhi').
        exists lo, hi. auto.
      * intros m Hm. split; [apply L2|apply U2]; apply in_map, Hm.
Qed.

(** For matches as the archived matcher builds them, the times of an
    estimate never pass the end of the window by more than two hours: both
    the minimum and the maximum are at most [schedule_to_hour + 2]. *)
Theorem archived_estimates_within_two_hours_after
    (np_mean : list Q -> Q)
    (matches_df : list ArchiveEstimates.archived_match)
    (st : ArchiveEstimates.estimate) :
  ArchivedRowFacts.built_by_matcher matches_df ->
  In st (ArchiveEstimates.calculate_estimated_citation_times np_mean matches_df) ->
  ArchiveEstimates.e_min_citation_time st
    <= ArchiveEstimates.e_max_citation_time st
    <= ArchiveEstimates.e_schedule_to_hour st + 2.
Proof.
  intros [Hrel Hwin] Hin. apply ArchivedRowFacts.In_estimates in Hin.
  destruct (ArchivedRowFacts.estimate_columns _ _ _ _ Hin)
    as (first & rest & h & hs & Hg & Hh & _ & _ & Hto & _ & _ & Hmin & Hmax).
  set (g := ArchiveEstimates.group_of (ArchiveEstimates.e_schedule_id st)
              matches_df) in *.
  destruct (ArchivedRowFacts.minimum_spec h hs) as [L1 L2].
  destruct (ArchivedRowFacts.maximum_spec h hs) as [U1 U2].
  rewrite <- Hmin in L1, L2. rewrite <- Hmax in U1, U2. rewrite <- Hh in *.
  split; [apply L2, U1|].
  apply in_map_iff in U1. destruct U1 as (hi & Hhi & Hin').
  apply ArchivedRowFacts.relevant_matches_relevance in Hin'.
  destruct Hin' as [Hhig Hr].
  assert (In first g) as Hfirst by (rewrite Hg; left; reflexivity).
  unfold g in Hhig, Hfirst. apply List.filter_In in Hhig, Hfirst.
  destruct Hhig as [Hhi_in Hhi_id], Hfirst as [Hf_in Hf_id].
  apply bool_decide_eq_true in Hhi_id, Hf_id.
  destruct (Hwin hi first Hhi_in Hf_in ltac:(congruence)) as [_ Hsame].
  rewrite (Hrel hi Hhi_in) in Hr.
  apply ArchivedRowFacts.relevance_upper in Hr. rewrite <- Hhi, Hto. lia.
Qed.

Lemma archived_estimates_within_two_hours_after_witness :
  exists st,
    ArchiveEstimates.calculate_estimated_citation_times Float.mean_in_order
      [ArchiveEstimates.match_at 1 7 8 8 10; ArchiveEstimates.match_at 2 7 9 8 10;
       ArchiveEstimates.match_at 3 7 12 8 10] = [st] /\
    ArchiveEstimates.e_max_citation_time st <= 10 + 2.
Proof.
  eexists. split; [vm_compute; reflexivity|].
  match goal with
  | |- ArchiveEstimates.e_max_citation_time ?st <= _ =>
      pose proof (archived_estimates_within_two_hours_after
                    Float.mean_in_order
                    [ArchiveEstimates.match_at 1 7 8 8 10;
                     ArchiveEstimates.match_at 2 7 9 8 10;
                     ArchiveEstimates.match_at 3 7 12 8 10] st) as H
  end.
  apply H.
  - split.
    + intros m [<-|[<-|[<-|[]]]]; reflexivity.
    + intros m m' [<-|[<-|[<-|[]]]] [<-|[<-|[<-|[]]]] _; split; reflexivity.
  - vm_compute. left. reflexivity.
Defined.

(** ** The two street-number patterns *)

Module PatternFacts.

Import PyStr.

Lemma run_length_app (cls : ascii -> bool) (ds rest : t) :
  forallb cls ds = true ->
  match rest with [] => True | x :: _ => cls x = false end ->
  run_length cls (ds ++ rest) = length ds.
Proof.
  intros Hds Hrest. induction ds as [|d ds IH]; cbn [app run_length length].
  - destruct rest as [|x rest]; [reflexivity|]. cbn [run_length].
    rewrite Hrest. reflexivity.
  - cbn [forallb] in Hds. apply andb_true_iff in Hds as [-> Hds].
    rewrite (IH Hds). reflexivity.
Qed.

(** A greedy [+] that is followed by something its class rejects takes the
    whole run when the continuation accepts what is left. *)
Lemma re_plus_run {A} (cls : ascii -> bool) (k : t -> option A)
    (ds rest : t) (r : A) :
  ds <> [] -> forallb cls ds = true ->
  match rest with [] => True | x :: _ => cls x = false end ->
  k rest = Some r ->
  re_plus cls k (ds ++ rest) = Some r.
Proof.
  intros Hne Hds Hrest Hk. unfold re_plus.
  rewrite (run_length_app cls ds rest Hds Hrest).
  destruct ds as [|d ds]; [contradiction|]. cbn [length plus_then].
  change (skipn (S (length ds)) ((d :: ds) ++ rest))
    with (skipn (length (d :: ds)) ((d :: ds) ++ rest)).
  rewrite drop_app_length, Hk. reflexivity.
Qed.

Lemma space_is_no_digit (c : ascii) : is_space c = true -> is_digit c = false.
Proof.
  destruct c as [[] [] [] [] [] [] [] []]; vm_compute; congruence.
Qed.

Lemma digit_is_no_backslash (c : ascii) :
  is_digit c = true -> ascii_eqb c "\" = false.
Proof.
  destruct c as [[] [] [] [] [] [] [] []]; vm_compute; congruence.
Qed.

Lemma take_line_no_space (c : ascii) (g : t) :
  is_space c = false -> exists g', take_line (c :: g) = c :: g'.
Proof.
  intros Hc. cbn [take_line].
  destruct (ascii_eqb c newline) eqn:E; [|eexists; reflexivity].
  apply Ascii.eqb_eq in E. subst c. vm_compute in Hc. discriminate Hc.
Qed.

End PatternFacts.

(** An address that starts with a street number, white space and a street
    name: the pattern of the archived matcher takes the number off and
    keeps the rest of the line, while the pattern of the production
    matcher, whose first character is a backslash, does not match, so the
    production extraction goes on with the number in place. *)
Theorem archived_pattern_drops_the_number
    (address ds ws : PyStr.t) (c : ascii) (g : PyStr.t) :
  PyStr.strip address = ds ++ ws ++ c :: g ->
  ds <> [] -> forallb PyStr.is_digit ds = true ->
  ws <> [] -> forallb PyStr.is_space ws = true ->
  PyStr.is_space c = false ->
  Archive.extract_street_from_address address = PyStr.take_line (c :: g) /\
  Matcher.match_street_number (PyStr.strip address) = None.
Proof.
  intros Hs Hds Hdig Hws Hsp Hc. split.
  - unfold Archive.extract_street_from_address.
    destruct address as [|a address].
    { destruct ds; [contradiction|discriminate Hs]. }
    rewrite Hs. unfold Archive.match_street_number.
    rewrite (PatternFacts.re_plus_run PyStr.is_digit _ ds (ws ++ c :: g)
               (PyStr.take_line (c :: g)) Hds Hdig); [reflexivity| |].
    + destruct ws as [|w ws]; [contradiction|]. cbn [app].
      cbn [forallb] in Hsp. apply andb_true_iff in Hsp as [Hw _].
      apply PatternFacts.space_is_no_digit, Hw.
    + apply (PatternFacts.re_plus_run PyStr.is_space _ ws (c :: g)
               (PyStr.take_line (c :: g)) Hws Hsp Hc).
      unfold PyStr.re_rest_of_line.
      destruct (PatternFacts.take_line_no_space c g Hc) as [g' ->].
      reflexivity.
  - rewrite Hs. destruct ds as [|d ds]; [contradiction|].
    cbn [forallb] in Hdig. apply andb_true_iff in Hdig as [Hd _].
    unfold Matcher.match_street_number. cbn [app PyStr.re_char].
    rewrite (PatternFacts.digit_is_no_backslash d Hd). reflexivity.
Qed.

Lemma archived_pattern_drops_the_number_witness :
  Archive.extract_street_from_address (py "123 MAIN ST") = py "MAIN ST" /\
  Matcher.match_street_number (PyStr.strip (py "123 MAIN ST")) = None.
Proof.
  exact (archived_pattern_drops_the_number (py "123 MAIN ST") (py "123")
           (py " ") "M"%char (py "AIN ST") eq_refl ltac:(discriminate) eq_refl
           ltac:(discriminate) eq_refl eq_refl).
Defined.

(** ** The hour lists of the aggregation *)

Module HourFacts.

Import Aggregator.

(** What every row of the result satisfies: the hours of each day are
    strictly increasing, and the total is the number of hours listed. *)
Definition hours_ok (r : aggregated_row) : Prop :=
  (forall d, StronglySorted Z.lt (ag_hours r d)) /\
  total_weekly_hours r = sum_lengths (ag_hours r).

Lemma sorted_set (hours : gset Z) :
  StronglySorted Z.lt (merge_sort Z.le (elements hours)).
Proof.
  apply ArchivedRowFacts.StronglySorted_lt.
  - apply StronglySorted_merge_sort; [intros x y z; lia|]. intros x y. lia.
  - apply NoDup_ListNoDup. rewrite merge_sort_Permutation.
    apply NoDup_elements.
Qed.

Lemma hour_range_sorted (from_hour to_hour : Z) :
  StronglySorted Z.lt (hour_range from_hour to_hour).
Proof.
  unfold hour_range. generalize (Z.to_nat (to_hour - from_hour)) as n.
  generalize 0%nat as start. intros start n. revert start.
  induction n as [|n IH]; intros start; cbn [seq map]; constructor.
  - apply IH.
  - apply List.Forall_forall. intros y Hy. apply in_map_iff in Hy.
    destruct Hy as (k & <- & Hk). apply in_seq in Hk. lia.
Qed.

Lemma row_hours_sorted (s : schedule) : StronglySorted Z.lt (row_hours s).
Proof.
  unfold row_hours. destruct (_ <? _); [apply hour_range_sorted|constructor].
Qed.

Lemma row_of_group_ok (key : group_key) (g : group_data) (r : aggregated_row) :
  row_of_group key g = Some r -> hours_ok r.
Proof.
  unfold row_of_group. destruct (schedule_info g); [|discriminate].
  intros [= <-]. split; [|reflexivity]. intros d. apply sorted_set.
Qed.

Lemma new_row_ok (s : schedule) : hours_ok (new_row s).
Proof.
  split; [|reflexivity]. intros d. cbn [new_row ag_hours].
  destruct (decide (d = weekday s)); [apply row_hours_sorted|constructor].
Qed.

Lemma merge_hours_ok (s : schedule) (r : aggregated_row) :
  hours_ok r -> hours_ok (merge_hours s r).
Proof.
  intros [Hs _]. split; [|reflexivity]. intros d. cbn [merge_hours ag_hours].
  destruct (row_hours s); [apply Hs|].
  destruct (decide (d = weekday s)); [apply sorted_set|apply Hs].
Qed.

Lemma update_first_ok (key : group_key) (f : aggregated_row -> aggregated_row)
    (rows : list aggregated_row) :
  (forall r, hours_ok r -> hours_ok (f r)) ->
  List.Forall hours_ok rows -> List.Forall hours_ok (update_first key f rows).
Proof.
  intros Hf. induction 1 as [|r rows Hr Hrows IH]; cbn [update_first];
    [constructor|].
  destruct (decide (clean_id r = key)); constructor; auto.
Qed.

Lemma add_schedule_ok (without : gset group_key) (rows : list aggregated_row)
    (s : schedule) :
  List.Forall hours_ok rows -> List.Forall hours_ok (add_schedule without rows s).
Proof.
  intros H. unfold add_schedule.
  destruct (bool_decide (key_of s ∈ without)); [|exact H].
  destruct (has_row (key_of s) rows).
  - apply update_first_ok; [apply merge_hours_ok|exact H].
  - apply List.Forall_app. split; [exact H|].
    constructor; [apply new_row_ok|constructor].
Qed.

End HourFacts.

(** For a schedule table with at least one row, in every row of the
    aggregation, whether it comes from matches, from a schedule without
    citations or from the merge of several such schedules, the hours of
    each day are strictly increasing (no hour is listed twice), and
    [total_weekly_hours] is the number of hours listed over the seven
    days. *)
Theorem aggregated_hours_are_increasing
    (matches_df : list Aggregator.match_row) (schedules_df : list schedule) :
  schedules_df <> [] ->
  List.Forall
    (fun r =>
       (forall d, StronglySorted Z.lt (Aggregator.ag_hours r d)) /\
       Aggregator.total_weekly_hours r =
         (length (Aggregator.ag_hours r Monday)
          + length (Aggregator.ag_hours r Tuesday)
          + length (Aggregator.ag_hours r Wednesday)
          + length (Aggregator.ag_hours r Thursday)
          + length (Aggregator.ag_hours r Friday)
          + length (Aggregator.ag_hours r Saturday)
          + length (Aggregator.ag_hours r Sunday))%nat)
    (Aggregator.aggregate_from_matches matches_df schedules_df).
Proof.
  intros _.
  assert (List.Forall HourFacts.hours_ok
            (Aggregator.aggregate_from_matches matches_df schedules_df)) as H.
  { unfold Aggregator.aggregate_from_matches.
    set (rows0 := omap _ _).
    assert (List.Forall HourFacts.hours_ok rows0) as H0.
    { apply List.Forall_forall. intros r Hr. unfold rows0 in Hr.
      apply list_elem_of_In, list_elem_of_omap in Hr.
      destruct Hr as ([k g] & _ & Hr).
      exact (HourFacts.row_of_group_ok _ _ _ Hr). }
    revert H0. generalize rows0. clear rows0.
    generalize (list_to_set (map Aggregator.key_of schedules_df)
                ∖ list_to_set
                    (map fst
                       (Aggregator.aggregation_groups
                          (Aggregator.schedule_lookup schedules_df) matches_df))
                : gset Aggregator.group_key) as without.
    intros without.
    induction schedules_df as [|s l IH]; intros rows Hrows; cbn [foldl];
      [exact Hrows|].
    apply IH, HourFacts.add_schedule_ok, Hrows. }
  eapply List.Forall_impl; [|exact H].
  intros r [Hs Ht]. split; [exact Hs|]. rewrite Ht.
  unfold Aggregator.sum_lengths, Aggregator.all_days. cbn [fold_right]. lia.
Qed.

Lemma aggregated_hours_are_increasing_witness :
  List.Forall
    (fun r => StronglySorted Z.lt (Aggregator.ag_hours r Tuesday))
    (Aggregator.aggregate_from_matches [] [PipelineFacts.rule_8_10]).
Proof.
  eapply List.Forall_impl;
    [|exact (aggregated_hours_are_increasing [] [PipelineFacts.rule_8_10]
               ltac:(discriminate))].
  intros r [H _]. exact (H Tuesday).
Defined.

(** ** The week patterns in the exploratory cleaner *)

Module ExplorationFacts.

Import Exploration.

Lemma week_columns_iff_key (corridor limits side block_side weekday : PyStr.t)
    (from_hour to_hour holidays : Z) (x : schedule_record) :
  x_Corridor x = Some corridor /\ x_Limits x = Some limits /\
  x_CNNRightLeft x = Some side /\ x_BlockSide x = Some block_side /\
  x_WeekDay x = Some weekday /\ x_FromHour x = Some from_hour /\
  x_ToHour x = Some to_hour /\ x_Holidays x = Some holidays <->
  key_of x = (Some corridor, Some limits, Some side, Some block_side,
              Some weekday, Some from_hour, Some to_hour, Some holidays).
Proof.
  unfold key_of. split.
  - intros (-> & -> & -> & -> & -> & -> & -> & ->). reflexivity.
  - intros [= -> -> -> -> -> -> -> ->]. repeat split.
Qed.

Lemma filter_none {A} (P : A -> bool) (l : list A) :
  (forall x, In x l -> P x = false) -> List.filter P l = [].
Proof.
  induction l as [|x l IH]; intros H; [reflexivity|]. cbn [List.filter].
  rewrite (H x (or_introl eq_refl)). apply IH. intros y Hy. apply H. right. exact Hy.
Qed.

Lemma filter_all {A} (P : A -> bool) (l : list A) :
  (forall x, In x l -> P x = true) -> List.filter P l = l.
Proof.
  induction l as [|x l IH]; intros H; [reflexivity|]. cbn [List.filter].
  rewrite (H x (or_introl eq_refl)). f_equal. apply IH. intros y Hy. apply H.
  right. exact Hy.
Qed.

Lemma In_week_keys (df : list schedule_record) (k : week_key) :
  In k (group_keys df) <-> In k (map key_of df) /\ complete k = true.
Proof.
  unfold group_keys. rewrite <- (list_elem_of_In _ k), merge_sort_Permutation.
  rewrite list_elem_of_In, CleanerFacts.In_remove_dups, List.filter_In.
  reflexivity.
Qed.

Lemma NoDup_week_keys (df : list schedule_record) : List.NoDup (group_keys df).
Proof.
  unfold group_keys. apply NoDup_ListNoDup. rewrite merge_sort_Permutation.
  apply NoDup_remove_dups.
Qed.

Lemma merged_record_key (g : list schedule_record) (a : schedule_record)
    (p : pattern) :
  key_of (_merge_complementary_records g a p) = key_of a.
Proof. destruct p as [[[[w1 w2] w3] w4] w5]. reflexivity. Qed.

(** What a group gives has the key of the group. *)
Lemma merged_records_key (k : week_key) (df : list schedule_record)
    (x : schedule_record) :
  In x (merged_records_of (group_of k df)) -> key_of x = k.
Proof.
  assert (forall y, In y (group_of k df) -> key_of y = k) as Hg.
  { intros y Hy. apply List.filter_In in Hy. destruct Hy as [_ Hy].
    apply bool_decide_eq_true in Hy. exact Hy. }
  destruct (group_of k df) as [|a [|b [|c g]]]; cbn [merged_records_of].
  - intros [].
  - apply Hg.
  - destruct (bool_decide _); [|apply Hg].
    intros [<-|[]]. rewrite merged_record_key. apply Hg. left. reflexivity.
  - apply Hg.
Qed.

Section OneGroup.

Variable df : list schedule_record.

Lemma filter_flat_map_absent (k : week_key) (keys : list week_key) :
  ~ In k keys ->
  List.filter (fun x => bool_decide (key_of x = k))
    (flat_map (fun k' => merged_records_of (group_of k' df)) keys) = [].
Proof.
  induction keys as [|k0 keys IH]; intros H; [reflexivity|].
  cbn [flat_map]. rewrite List.filter_app, IH by (intros E; apply H; right; exact E).
  rewrite app_nil_r.
  apply filter_none. intros x Hx.
  apply bool_decide_eq_false. rewrite (merged_records_key _ _ _ Hx).
  intros ->. apply H. left. reflexivity.
Qed.

Lemma filter_flat_map_present (k : week_key) (keys : list week_key) :
  List.NoDup keys -> In k keys ->
  List.filter (fun x => bool_decide (key_of x = k))
    (flat_map (fun k' => merged_records_of (group_of k' df)) keys)
  = merged_records_of (group_of k df).
Proof.
  induction 1 as [|k0 keys Hnotin Hnd IH]; intros Hin; [destruct Hin|].
  cbn [flat_map]. rewrite List.filter_app.
  destruct (decide (k0 = k)) as [->|Hne].
  - rewrite filter_flat_map_absent by exact Hnotin. rewrite app_nil_r.
    apply filter_all. intros x Hx.
    apply bool_decide_eq_true. exact (merged_records_key _ _ _ Hx).
  - destruct Hin as [E|Hin]; [contradiction|]. rewrite IH by exact Hin.
    rewrite filter_none; [reflexivity|].
    intros x Hx. apply bool_decide_eq_false.
    rewrite (merged_records_key _ _ _ Hx). exact Hne.
Qed.

(** The records of the result with a complete key are what the group of
    this key gives. *)
Lemma merged_by_key (k : week_key) :
  complete k = true ->
  List.filter (fun x => bool_decide (key_of x = k))
    (_merge_complementary_week_patterns df)
  = merged_records_of (group_of k df).
Proof.
  intros Hk. unfold _merge_complementary_week_patterns.
  destruct (group_of k df) as [|a g] eqn:Hg.
  - rewrite filter_flat_map_absent; [reflexivity|].
    intros Hin. apply In_week_keys in Hin. destruct Hin as [Hin _].
    apply in_map_iff in Hin. destruct Hin as (r & Hr & Hin).
    assert (In r (group_of k df)) as H.
    { apply List.filter_In. split; [exact Hin|].
      apply bool_decide_eq_true. exact Hr. }
    rewrite Hg in H. exact H.
  - rewrite filter_flat_map_present.
    + rewrite Hg. reflexivity.
    + apply NoDup_week_keys.
    + apply In_week_keys. split; [|exact Hk].
      assert (In a (group_of k df)) as H by (rewrite Hg; left; reflexivity).
      apply List.filter_In in H. destruct H as [Hin Hr].
      apply bool_decide_eq_true in Hr. apply in_map_iff. exists a. auto.
Qed.

End OneGroup.

(** Records of one block, side, day and hours with the given weeks. *)
Definition record_weeks (w1 w2 w3 w4 w5 : Z) (id : Z) : schedule_record :=
  {| x_CNN := Int 8753000; x_Corridor := Some (py "Mission St");
     x_Limits := Some (py "16th St  -  17th St");
     x_CNNRightLeft := Some (py "L"); x_BlockSide := Some (py "East");
     x_FullName := Some (py "Tuesday"); x_WeekDay := Some (py "Tues");
     x_FromHour := Some 8; x_ToHour := Some 10;
     x_Week1 := w1; x_Week2 := w2; x_Week3 := w3; x_Week4 := w4; x_Week5 := w5;
     x_Holidays := Some 0; x_BlockSweepID := Int id;
     x_Line := Some (py "LINESTRING (-122.42 37.76, -122.419 37.761)");
     x_DataQualityNotes := None |}.

Example complementary_records_merge :
  map week_pattern
    (_merge_complementary_week_patterns
       [record_weeks 1 0 1 0 1 3; record_weeks 0 1 0 1 0 4])
  = [(1, 1, 1, 1, 1)].
Proof. vm_compute. reflexivity. Qed.

Example other_records_stay_apart :
  map week_pattern
    (_merge_complementary_week_patterns
       [record_weeks 1 0 1 0 0 1; record_weeks 0 0 0 1 0 2])
  = [(1, 0, 1, 0, 0); (0, 0, 0, 1, 0)].
Proof. vm_compute. reflexivity. Qed.

Example three_records_stay_apart :
  map week_pattern
    (_merge_complementary_week_patterns
       [record_weeks 1 0 1 0 0 1; record_weeks 0 1 0 0 0 2;
        record_weeks 0 0 0 1 0 5])
  = [(1, 0, 1, 0, 0); (0, 1, 0, 0, 0); (0, 0, 0, 1, 0)].
Proof. vm_compute. reflexivity. Qed.

Example merged_identifier :
  map x_BlockSweepID
    (_merge_complementary_week_patterns
       [record_weeks 1 0 1 0 0 3; record_weeks 0 1 0 1 0 4])
  = [Text (py "3_MERGED")].
Proof. vm_compute. reflexivity. Qed.

End ExplorationFacts.

(** The second step of the exploratory cleaner applies the two-row rule.
    Among the records that share one value in each of (corridor, limits,
    side, block side, weekday, from hour, to hour, holidays): exactly two
    records whose week columns have the column-wise maximum 11111 or 11110
    give a single record, which carries this maximum as its week pattern
    and the CNN and the line of the first record; two records with any
    other maximum stay as they are, and so do the records of a group of
    any other size (one, three or more). *)
Theorem exploratory_merge_is_the_two_row_rule
    (df : list Exploration.schedule_record)
    (corridor limits side block_side weekday : PyStr.t)
    (from_hour to_hour holidays : Z) :
  let same := fun x =>
    bool_decide
      (Exploration.x_Corridor x = Some corridor /\
       Exploration.x_Limits x = Some limits /\
       Exploration.x_CNNRightLeft x = Some side /\
       Exploration.x_BlockSide x = Some block_side /\
       Exploration.x_WeekDay x = Some weekday /\
       Exploration.x_FromHour x = Some from_hour /\
       Exploration.x_ToHour x = Some to_hour /\
       Exploration.x_Holidays x = Some holidays) in
  let group := List.filter same df in
  let result :=
    List.filter same (Exploration._merge_complementary_week_patterns df) in
  (forall a b, group = [a; b] ->
     let maxima :=
       (Z.max (Exploration.x_Week1 a) (Exploration.x_Week1 b),
        Z.max (Exploration.x_Week2 a) (Exploration.x_Week2 b),
        Z.max (Exploration.x_Week3 a) (Exploration.x_Week3 b),
        Z.max (Exploration.x_Week4 a) (Exploration.x_Week4 b),
        Z.max (Exploration.x_Week5 a) (Exploration.x_Week5 b)) in
     (maxima = (1, 1, 1, 1, 1) \/ maxima = (1, 1, 1, 1, 0) ->
      exists c,
        result = [c] /\
        (Exploration.x_Week1 c, Exploration.x_Week2 c, Exploration.x_Week3 c,
         Exploration.x_Week4 c, Exploration.x_Week5 c) = maxima /\
        Exploration.x_CNN c = Exploration.x_CNN a /\
        Exploration.x_Line c = Exploration.x_Line a) /\
     (maxima <> (1, 1, 1, 1, 1) -> maxima <> (1, 1, 1, 1, 0) ->
      result = [a; b])) /\
  (length group <> 2%nat -> result = group).
Proof.
  intros same group result.
  set (k := (Some corridor, Some limits, Some side, Some block_side,
             Some weekday, Some from_hour, Some to_hour, Some holidays)
            : Exploration.week_key).
  assert (forall l, List.filter same l
                    = List.filter (fun x => bool_decide (Exploration.key_of x = k)) l)
    as Hsame.
  { intros l. apply List.filter_ext. intros x. apply bool_decide_ext.
    apply ExplorationFacts.week_columns_iff_key. }
  assert (result = Exploration.merged_records_of group) as Hresult.
  { unfold result, group. rewrite !Hsame.
    apply ExplorationFacts.merged_by_key. reflexivity. }
  rewrite Hresult. clearbody group. clear Hresult result Hsame. split.
  - intros a b -> maxima. cbn [Exploration.merged_records_of].
    change (Exploration.combine_patterns (Exploration.week_pattern a)
              (Exploration.week_pattern b)) with maxima.
    split.
    + intros H. rewrite bool_decide_eq_true_2 by exact H.
      eexists. split; [reflexivity|].
      unfold Exploration._merge_complementary_records.
      destruct maxima as [[[[w1 w2] w3] w4] w5]. cbn. auto.
    + intros H1 H2. rewrite bool_decide_eq_false_2; [reflexivity|].
      intros [H|H]; [exact (H1 H)|exact (H2 H)].
  - intros Hlen. destruct group as [|a [|b [|c g]]]; try reflexivity.
    contradiction Hlen. reflexivity.
Qed.
